(** * CodeTracker: the statistics of the Profile and Dashboard pages

    A shallow embedding of the client-side statistics code of the
    CodeTracker web application and of the question form that writes
    question rows:

    - [ProfileCalendar] : the Profile page with the activity calendar
      (the [fetchStats] that builds [activity], [days] and the streaks);
    - [Profile]         : src/pages/Profile.tsx, the Profile page that
      derives the streaks from [last_solved_at] alone;
    - [Dashboard]       : the Dashboard page with the [streak] counter;
    - [QuestionForm]    : [handleSubmit] of the question form together
      with the [coding_questions] table of the SQL migrations.

    The parts of JavaScript the code relies on ([Date], [Array.sort],
    [Set], plain objects used as dictionaries, [Math.round] on doubles,
    exceptions) are modelled in module [JS]. *)

From Stdlib Require Import ZArith List Bool Lia Permutation Sorted.
From Stdlib Require String.
From Stdlib Require Import SpecFloat.
Import ListNotations.
Open Scope Z_scope.

(* ================================================================== *)
(** * The JavaScript the pages rely on *)
(* ================================================================== *)

Module JS.

(** ** Exceptions

    The only built-in that can throw in the modelled code is
    [Date.prototype.toISOString], which raises a [RangeError] on an
    Invalid Date. *)

Inductive Exn : Set := RangeError.

Inductive result (A : Type) : Type :=
| Ok (a : A)
| Throw (e : Exn).
Arguments Ok {A} a.
Arguments Throw {A} e.

Definition bind {A B} (r : result A) (k : A -> result B) : result B :=
  match r with
  | Ok a => k a
  | Throw e => Throw e
  end.

Notation "x <- r ;; k" := (bind r (fun x => k))
  (at level 61, r at next level, right associativity).

(** [xs.forEach(f)] where the callback updates a captured accumulator. *)
Fixpoint forEach {A S} (f : S -> A -> result S) (s : S) (xs : list A)
  : result S :=
  match xs with
  | [] => Ok s
  | x :: xs' => s' <- f s x ;; forEach f s' xs'
  end.

(** ** Numbers

    Counters and time values are integers far below 2^53, on which the
    double arithmetic of JavaScript is exact: they are modelled in [Z].
    The completion rate is the one place where a quotient that is not
    an integer is multiplied and rounded; there the doubles are
    modelled bit for bit with the binary64 operations of [SpecFloat]. *)

Definition prec : Z := 53.
Definition emax : Z := 1024.

Definition Number := spec_float.

(** The double of an integer (exact below 2^53). *)
Definition ofZ (n : Z) : Number := binary_normalize prec emax n 0 false.

Definition div (x y : Number) : Number := SFdiv prec emax x y.
Definition mul (x y : Number) : Number := SFmul prec emax x y.

(** [Math.round(x)]: the integer closest to [x], ties towards
    +Infinity; NaN and the infinities are returned unchanged. *)
Definition Math_round (x : Number) : Number :=
  match x with
  | S754_finite s m e =>
      if 0 <=? e then x
      else
        let v := if s then Z.neg m else Z.pos m in
        binary_normalize prec emax ((2 * v + 2 ^ (- e)) / 2 ^ (1 - e)) 0 s
  | _ => x
  end.

(** The integer a double stands for, when it is one. *)
Definition toZ (x : Number) : option Z :=
  match x with
  | S754_zero _ => Some 0
  | S754_finite s m e =>
      if 0 <=? e
      then Some ((if s then Z.neg m else Z.pos m) * 2 ^ e)
      else if Z.pos m mod 2 ^ (- e) =? 0
           then Some ((if s then Z.neg m else Z.pos m) / 2 ^ (- e))
           else None
  | _ => None
  end.

(** [x || 0] on a dictionary lookup: [undefined] reads as 0. *)
Definition orZero (x : option Z) : Z :=
  match x with
  | Some v => v
  | None => 0
  end.

(** ** Dates

    A [Date] holds a time value: milliseconds since the epoch in UTC,
    or NaN for an Invalid Date ([None]).  Local time is UTC plus a
    fixed offset [tz] in milliseconds (a zone without daylight-saving
    transitions, for instance 0 for UTC, 19800000 for Asia/Kolkata,
    -18000000 for UTC-5). *)

Definition msPerDay : Z := 1000 * 60 * 60 * 24.

Definition Date := option Z.

(** [d.getTime()]; [None] is NaN. *)
Definition getTime (d : Date) : option Z := d.

(** [a >= b] and [a <= b] on dates compare the time values; every
    comparison with NaN is false. *)
Definition geb (a b : Date) : bool :=
  match a, b with
  | Some x, Some y => y <=? x
  | _, _ => false
  end.

Definition leb (a b : Date) : bool :=
  match a, b with
  | Some x, Some y => x <=? y
  | _, _ => false
  end.

(** [new Date("YYYY-MM-DD")]: a date-only ISO string is read as
    midnight UTC of that day.  The ten-character key is represented by
    the number of its day, counted from 1970-01-01 in UTC. *)
Definition ofISODate (key : Z) : Date := Some (key * msPerDay).

(** [d.toISOString().slice(0, 10)]: the UTC calendar day of [d], for
    the years 0000 to 9999, whose ISO text starts with the ten
    characters of the date; [toISOString] throws on an Invalid Date. *)
Definition toISODate (d : Date) : result Z :=
  match d with
  | Some t => Ok (t / msPerDay)
  | None => Throw RangeError
  end.

(** The text [toDateString] returns: a local calendar day such as
    "Mon Jan 15 2024", represented by the number of that day, or the
    text "Invalid Date". *)
Inductive DateString : Set :=
| InvalidDate
| DayString (day : Z).

Definition DateString_eqb (a b : DateString) : bool :=
  match a, b with
  | InvalidDate, InvalidDate => true
  | DayString x, DayString y => x =? y
  | _, _ => false
  end.

(** A zone that keeps one offset [tz] from UTC, in milliseconds.  Zones
    whose clocks change are the subject of [TimeZone] below. *)
Section Zone.

Variable tz : Z.

(** The local calendar day (counted from 1970-01-01) of a time value. *)
Definition localDay (t : Z) : Z := (t + tz) / msPerDay.

(** Local midnight of a local calendar day. *)
Definition midnight (day : Z) : Z := day * msPerDay - tz.

(** [d.setHours(0, 0, 0, 0)] *)
Definition setHours0 (d : Date) : Date :=
  option_map (fun t => midnight (localDay t)) d.

(** [d.setDate(d.getDate() + n)] *)
Definition addDays (n : Z) (d : Date) : Date :=
  option_map (fun t => t + n * msPerDay) d.

(** [d.getDay()]: 0 is Sunday; 1970-01-01 was a Thursday. *)
Definition getDay (d : Date) : option Z :=
  option_map (fun t => (localDay t + 4) mod 7) d.

(** [d.toDateString()] *)
Definition toDateString (d : Date) : DateString :=
  match d with
  | Some t => DayString (localDay t)
  | None => InvalidDate
  end.

(** [new Date(s)] for a text produced by [toDateString]: local
    midnight of that day; "Invalid Date" does not parse. *)
Definition ofDateString (s : DateString) : Date :=
  match s with
  | DayString day => Some (midnight day)
  | InvalidDate => None
  end.

End Zone.

(** ** Arrays *)

(** [xs.sort(comparefn)].  A comparator result of NaN counts as 0
    (SortCompare).  The sort is stable; it is modelled by insertion.
    When the comparator is not a consistent order (here: when an
    Invalid Date is in the array) ECMAScript leaves the resulting order
    to the implementation. *)
Section Sort.

Context {A : Type}.
Variable comparefn : A -> A -> option Z.

Definition sortCompare (x y : A) : Z := orZero (comparefn x y).

Fixpoint insert (x : A) (xs : list A) : list A :=
  match xs with
  | [] => [x]
  | y :: ys => if sortCompare x y <=? 0 then x :: y :: ys
               else y :: insert x ys
  end.

Definition sort (xs : list A) : list A := fold_right insert [] xs.

End Sort.

(** [(a, b) => b.getTime() - a.getTime()]: latest first. *)
Definition byTimeDesc (a b : Date) : option Z :=
  match getTime b, getTime a with
  | Some y, Some x => Some (y - x)
  | _, _ => None
  end.

(** [Array.from(new Set(xs))]: the distinct elements in the order of
    their first occurrence. *)
Fixpoint distinct (xs : list DateString) : list DateString :=
  match xs with
  | [] => []
  | x :: xs' =>
      x :: filter (fun y => negb (DateString_eqb x y)) (distinct xs')
  end.

(** [set.has(x)] *)
Definition has (set : list DateString) (x : DateString) : bool :=
  existsb (DateString_eqb x) set.

(** ** Objects used as dictionaries

    [Record<string, number>] keyed by ISO days.  Own string keys are
    enumerated in insertion order, which an association list keeps. *)

Definition Dict := list (Z * Z).

Fixpoint get (key : Z) (o : Dict) : option Z :=
  match o with
  | [] => None
  | (k, v) :: o' => if key =? k then Some v else get key o'
  end.

Fixpoint set (key v : Z) (o : Dict) : Dict :=
  match o with
  | [] => [(key, v)]
  | (k, w) :: o' => if key =? k then (k, v) :: o' else (k, w) :: set key v o'
  end.

(** [Object.keys(o)] *)
Definition keys (o : Dict) : list Z := map fst o.

End JS.

(* ================================================================== *)
(** * Question records *)
(* ================================================================== *)

(** The [status] and [difficulty] columns are constrained by CHECK
    clauses to these values. *)
Inductive Status : Set := ToDo | InProgress | Completed.
Inductive Difficulty : Set := Easy | Medium | Hard.

Definition Status_eqb (a b : Status) : bool :=
  match a, b with
  | ToDo, ToDo | InProgress, InProgress | Completed, Completed => true
  | _, _ => false
  end.

Definition Difficulty_eqb (a b : Difficulty) : bool :=
  match a, b with
  | Easy, Easy | Medium, Medium | Hard, Hard => true
  | _, _ => false
  end.

(** A timestamp column as the client receives it: [null] ([None]; the
    empty text is falsy as well and is read the same way) or a text,
    represented by the [Date] that [new Date(text)] builds from it,
    which is an Invalid Date when the text is malformed. *)
Definition Timestamp := option JS.Date.

(** The columns the statistics pages select. *)
Record Question : Set := {
  status : Status;
  difficulty : Difficulty;
  last_solved_at : Timestamp;
  updated_at : Timestamp
}.

Definition isCompleted (q : Question) : bool := Status_eqb (status q) Completed.

(* ================================================================== *)
(** * The Profile page with the activity calendar *)
(* ================================================================== *)

Module ProfileCalendar.
Import JS.

Record Stats : Set := {
  total : Z;
  completed : Z;
  completionRate : Number;
  currentStreak : Z;
  longestStreak : Z
}.

(** What [fetchStats] hands to [setStats], [setYearDays] and
    [setActivityMap]. *)
Record View : Set := {
  stats : Stats;
  yearDays : list Date;
  activityMap : Dict
}.

(** [total > 0 ? Math.round((completed / total) * 100) : 0] *)
Definition rate (total completed : Z) : Number :=
  if 0 <? total
  then Math_round (mul (div (ofZ completed) (ofZ total)) (ofZ 100))
  else ofZ 0.

Section Clock.

(** The zone of the browser and the reading of its clock, [new Date()]. *)
Variable tz : Z.
Variable now : Z.

Definition today : Date := setHours0 tz (Some now).

(** [while (startOfRange.getDay() !== 0) startOfRange.setDate(startOfRange.getDate() - 1)] *)
Fixpoint alignToSunday (fuel : nat) (d : Date) : Date :=
  match fuel with
  | O => d
  | S fuel' =>
      match getDay tz d with
      | Some 0 => d
      | _ => alignToSunday fuel' (addDays (-1) d)
      end
  end.

Definition startOfRange : Date :=
  alignToSunday 7 (addDays (-364) today).

Definition toKey (d : Date) : result Z := toISODate d.

(** [q.last_solved_at ? new Date(q.last_solved_at)
     : q.status === "Completed" && q.updated_at ? new Date(q.updated_at) : null] *)
Definition dateSource (q : Question) : option Date :=
  match last_solved_at q with
  | Some solved => Some solved
  | None =>
      if isCompleted q then
        match updated_at q with
        | Some updated => Some updated
        | None => None
        end
      else None
  end.

(** The callback of [questions?.forEach]. *)
Definition countQuestion (activity : Dict) (q : Question) : result Dict :=
  match dateSource q with
  | None => Ok activity
  | Some dateSource =>
      let dateSource := setHours0 tz dateSource in
      if geb dateSource startOfRange && leb dateSource today then
        key <- toKey dateSource ;;
        Ok (set key (orZero (get key activity) + 1) activity)
      else Ok activity
  end.

Definition activity (questions : list Question) : result Dict :=
  forEach countQuestion [] questions.

Definition totalDays : nat := 53 * 7.

(** [for (let i = 0; i < totalDays; i++) { d = new Date(startOfRange);
     d.setDate(startOfRange.getDate() + i); days.push(d) }] *)
Definition days : list Date :=
  map (fun i => addDays (Z.of_nat i) startOfRange) (seq 0 totalDays).

Definition activeDates (activity : Dict) : list Date :=
  sort byTimeDesc (map ofISODate (keys activity)).

Definition uniqueDates (activeDates : list Date) : list Date :=
  map (ofDateString tz) (distinct (map (toDateString tz) activeDates)).

(** The loop of the current streak, entered at index [i] with the rest
    of [uniqueDates] from that index on. *)
Fixpoint currentStreakLoop (ref : Date) (rest : list Date)
  (i currentStreak : Z) : Z :=
  match rest with
  | [] => currentStreak
  | u :: rest' =>
      let expected := addDays (- i) ref in
      if DateString_eqb (toDateString tz u) (toDateString tz expected)
      then currentStreakLoop ref rest' (i + 1) (currentStreak + 1)
      else currentStreak
  end.

(** [Math.round((a.getTime() - b.getTime()) / (1000 * 60 * 60 * 24))].
    The dividend is an integer, so the double quotient is within half
    an ulp of a tie only when it is a tie: rounding the exact quotient
    gives the same integer. *)
Definition diffDays (a b : Date) : option Z :=
  match getTime a, getTime b with
  | Some x, Some y => Some ((2 * (x - y) + msPerDay) / (2 * msPerDay))
  | _, _ => None
  end.

Definition isOne (n : option Z) : bool :=
  match n with
  | Some v => v =? 1
  | None => false
  end.

(** The loop of the longest streak: [prev] is [uniqueDates[i - 1]] and
    [rest] starts at [uniqueDates[i]]; the result is the pair
    [(longestStreak, tempStreak)] at the exit. *)
Fixpoint longestStreakLoop (prev : Date) (rest : list Date)
  (longestStreak tempStreak : Z) : Z * Z :=
  match rest with
  | [] => (longestStreak, tempStreak)
  | u :: rest' =>
      if isOne (diffDays prev u)
      then longestStreakLoop u rest' (Z.max longestStreak (tempStreak + 1))
             (tempStreak + 1)
      else longestStreakLoop u rest' longestStreak 1
  end.

(** The block under [if (activeDates.length > 0)]: the pair
    [(currentStreak, longestStreak)]. *)
Definition streaks (activeDates : list Date) : Z * Z :=
  match activeDates with
  | [] => (0, 0)
  | _ :: _ =>
      let uniqueDates := uniqueDates activeDates in
      let ref := today in
      let currentStreak := currentStreakLoop ref uniqueDates 0 0 in
      let '(longestStreak, tempStreak) :=
        match uniqueDates with
        | [] => (0, 1)
        | first :: rest => longestStreakLoop first rest 0 1
        end in
      (currentStreak, Z.max longestStreak tempStreak)
  end.

(** The body of the [try] block; [Throw] is the [catch] branch, which
    logs the error and leaves the page state as it was. *)
Definition fetchStats (questions : list Question) : result View :=
  let total := Z.of_nat (length questions) in
  let completed := Z.of_nat (length (filter isCompleted questions)) in
  let completionRate := rate total completed in
  activity <- activity questions ;;
  let '(currentStreak, longestStreak) := streaks (activeDates activity) in
  Ok {| stats := {| total := total;
                    completed := completed;
                    completionRate := completionRate;
                    currentStreak := currentStreak;
                    longestStreak := longestStreak |};
        yearDays := days;
        activityMap := activity |}.

(** The calendar cell of a day of [yearDays]:
    [activityMap[date.toISOString().slice(0, 10)] || 0]. *)
Definition cellCount (activityMap : Dict) (date : Date) : result Z :=
  key <- toISODate date ;; Ok (orZero (get key activityMap)).

End Clock.

End ProfileCalendar.

(* ================================================================== *)
(** * src/pages/Profile.tsx: streaks from [last_solved_at] alone *)
(* ================================================================== *)

Module Profile.
Import JS.

Record Stats : Set := {
  total : Z;
  completed : Z;
  completionRate : Number;
  currentStreak : Z;
  longestStreak : Z
}.

(** [total > 0 ? Math.round((completed / total) * 100) : 0] *)
Definition rate (total completed : Z) : Number :=
  if 0 <? total
  then Math_round (mul (div (ofZ completed) (ofZ total)) (ofZ 100))
  else ofZ 0.

(** [q.last_solved_at] as a condition. *)
Definition truthy (t : Timestamp) : bool :=
  match t with
  | Some _ => true
  | None => false
  end.

(** [new Date(t)]; [new Date(null)] is the epoch. *)
Definition newDate (t : Timestamp) : Date :=
  match t with
  | Some d => d
  | None => Some 0
  end.

(** [questions?.filter((q) => q.last_solved_at)
       .map((q) => new Date(q.last_solved_at!))
       .sort((a, b) => b.getTime() - a.getTime())] *)
Definition solvedDates (questions : list Question) : list Date :=
  sort byTimeDesc
    (map (fun q => newDate (last_solved_at q))
       (filter (fun q => truthy (last_solved_at q)) questions)).

Section Clock.

Variable tz : Z.
Variable now : Z.

Definition today : Date := setHours0 tz (Some now).

Definition uniqueDates (solvedDates : list Date) : list Date :=
  map (ofDateString tz) (distinct (map (toDateString tz) solvedDates)).

(** The first loop, entered at index [i]; the result is the pair
    [(currentStreak, tempStreak)] at the exit. *)
Fixpoint currentStreakLoop (rest : list Date) (i currentStreak tempStreak : Z)
  : Z * Z :=
  match rest with
  | [] => (currentStreak, tempStreak)
  | currentDate :: rest' =>
      let expectedDate := setHours0 tz (addDays (- i) today) in
      if DateString_eqb (toDateString tz currentDate)
           (toDateString tz expectedDate)
      then currentStreakLoop rest' (i + 1) (currentStreak + 1) (tempStreak + 1)
      else (currentStreak, tempStreak)
  end.

(** [Math.abs((a.getTime() - b.getTime()) / (1000 * 60 * 60 * 24)) <= 1];
    false when a time value is NaN.  Division by a positive constant
    is monotone and maps [msPerDay] to exactly 1, so the test is the
    same on the integer difference. *)
Definition withinOneDay (a b : Date) : bool :=
  match getTime a, getTime b with
  | Some x, Some y => Z.abs (x - y) <=? msPerDay
  | _, _ => false
  end.

(** The second loop: [prev] is [uniqueDates[i - 1]], [rest] starts at
    [uniqueDates[i]]; the result is [(longestStreak, tempStreak)]. *)
Fixpoint longestStreakLoop (prev : Date) (rest : list Date)
  (longestStreak tempStreak : Z) : Z * Z :=
  match rest with
  | [] => (longestStreak, tempStreak)
  | u :: rest' =>
      if withinOneDay prev u
      then longestStreakLoop u rest' (Z.max longestStreak (tempStreak + 1))
             (tempStreak + 1)
      else longestStreakLoop u rest' longestStreak 1
  end.

(** The block under [if (solvedDates && solvedDates.length > 0)]. *)
Definition streaks (solvedDates : list Date) : Z * Z :=
  match solvedDates with
  | [] => (0, 0)
  | _ :: _ =>
      let uniqueDates := uniqueDates solvedDates in
      let '(currentStreak, _) := currentStreakLoop uniqueDates 0 0 0 in
      let '(longestStreak, tempStreak) :=
        match uniqueDates with
        | [] => (0, 1)
        | first :: rest => longestStreakLoop first rest 0 1
        end in
      (currentStreak, Z.max longestStreak tempStreak)
  end.

(** Nothing in the [try] block can throw: the argument of [setStats]. *)
Definition fetchStats (questions : list Question) : Stats :=
  let total := Z.of_nat (length questions) in
  let completed := Z.of_nat (length (filter isCompleted questions)) in
  let completionRate := rate total completed in
  let '(currentStreak, longestStreak) := streaks (solvedDates questions) in
  {| total := total;
     completed := completed;
     completionRate := completionRate;
     currentStreak := currentStreak;
     longestStreak := longestStreak |}.

End Clock.

End Profile.

(* ================================================================== *)
(** * The Dashboard page *)
(* ================================================================== *)

Module Dashboard.
Import JS.

Record ByDifficulty : Set := {
  nEasy : Z;
  nMedium : Z;
  nHard : Z
}.

Record Stats : Set := {
  total : Z;
  completed : Z;
  inProgress : Z;
  todo : Z;
  byDifficulty : ByDifficulty;
  streak : Z;
  weeklyCompleted : Z;
  monthlyCompleted : Z
}.

Definition count (p : Question -> bool) (data : list Question) : Z :=
  Z.of_nat (length (filter p data)).

(** [data.filter((q) => q.last_solved_at)
        .map((q) => new Date(q.last_solved_at!))
        .sort((a, b) => b.getTime() - a.getTime())] *)
Definition sortedDates (data : list Question) : list Date :=
  sort byTimeDesc
    (map (fun q => Profile.newDate (last_solved_at q))
       (filter (fun q => Profile.truthy (last_solved_at q)) data)).

Section Clock.

Variable tz : Z.
Variable now : Z.

Definition today : Date := setHours0 tz (Some now).

(** [new Set(sortedDates.map(d => d.toDateString()))] *)
Definition uniqueDates (sortedDates : list Date) : list DateString :=
  distinct (map (toDateString tz) sortedDates).

Definition yesterday : Date := addDays (-1) today.

(** [while (uniqueDates.has(currentDate.toDateString()))
      { streak++; currentDate.setDate(currentDate.getDate() - 1) }].
    Every turn finds one more day of the set, so the body runs at most
    as often as the set has elements. *)
Fixpoint streakLoop (fuel : nat) (uniqueDates : list DateString)
  (currentDate : Date) (streak : Z) : Z :=
  match fuel with
  | O => streak
  | S fuel' =>
      if has uniqueDates (toDateString tz currentDate)
      then streakLoop fuel' uniqueDates (addDays (-1) currentDate) (streak + 1)
      else streak
  end.

Definition streakOf (sortedDates : list Date) : Z :=
  match sortedDates with
  | [] => 0
  | _ :: _ =>
      let currentDate := today in
      let uniqueDates := uniqueDates sortedDates in
      if has uniqueDates (toDateString tz today)
         || has uniqueDates (toDateString tz yesterday)
      then streakLoop (length uniqueDates) uniqueDates currentDate 0
      else 0
  end.

(** [q.status === "Completed" && q.updated_at && new Date(q.updated_at) >= since] *)
Definition completedSince (since : Date) (q : Question) : bool :=
  isCompleted q && Profile.truthy (updated_at q)
  && geb (Profile.newDate (updated_at q)) since.

(** The second [new Date()] of the function, a moment after the first,
    is taken to read the same instant. *)
Definition fetchStats (data : list Question) : Stats :=
  let streak := streakOf (sortedDates data) in
  let weekAgo : Date := Some (now - 7 * 24 * 60 * 60 * 1000) in
  let monthAgo : Date := Some (now - 30 * 24 * 60 * 60 * 1000) in
  {| total := Z.of_nat (length data);
     completed := count isCompleted data;
     inProgress := count (fun q => Status_eqb (status q) InProgress) data;
     todo := count (fun q => Status_eqb (status q) ToDo) data;
     byDifficulty :=
       {| nEasy := count (fun q => Difficulty_eqb (difficulty q) Easy) data;
          nMedium := count (fun q => Difficulty_eqb (difficulty q) Medium) data;
          nHard := count (fun q => Difficulty_eqb (difficulty q) Hard) data |};
     streak := streak;
     weeklyCompleted := count (completedSince weekAgo) data;
     monthlyCompleted := count (completedSince monthAgo) data |}.

End Clock.

End Dashboard.

(* ================================================================== *)
(** * The question form and the [coding_questions] table *)
(* ================================================================== *)

Module QuestionForm.

Definition text := String.string.

(** A row of [public.coding_questions] after both migrations.  Times
    are in milliseconds; [NULL] is [None]. *)
Record Row : Set := {
  id : Z;
  user_id : Z;
  title : text;
  description : text;
  language : text;
  topic : text;
  difficulty : Difficulty;
  solution_code : option text;
  status : Status;
  created_at : Z;
  updated_at : Z;
  notes : option text;
  last_solved_at : option Z
}.

(** The state of the form.  The two selects offer exactly the values
    the CHECK clauses admit. *)
Record FormData : Set := {
  f_title : text;
  f_description : text;
  f_language : text;
  f_topic : text;
  f_difficulty : Difficulty;
  f_status : Status;
  f_solution_code : text
}.

(** [{ ...formData, user_id: user?.id,
       solution_code: formData.solution_code || null }] *)
Record Payload : Set := {
  p_title : text;
  p_description : text;
  p_language : text;
  p_topic : text;
  p_difficulty : Difficulty;
  p_status : Status;
  p_solution_code : option text;
  p_user_id : Z
}.

Definition orNull (s : text) : option text :=
  match s with
  | String.EmptyString => None
  | _ => Some s
  end.

Definition payload (user : Z) (formData : FormData) : Payload :=
  {| p_title := f_title formData;
     p_description := f_description formData;
     p_language := f_language formData;
     p_topic := f_topic formData;
     p_difficulty := f_difficulty formData;
     p_status := f_status formData;
     p_solution_code := orNull (f_solution_code formData);
     p_user_id := user |}.

(** [UPDATE coding_questions SET <the columns of the payload>] on one
    row, followed by the trigger [update_updated_at_column]. *)
Definition updateRow (p : Payload) (now : Z) (r : Row) : Row :=
  {| id := id r;
     user_id := p_user_id p;
     title := p_title p;
     description := p_description p;
     language := p_language p;
     topic := p_topic p;
     difficulty := p_difficulty p;
     solution_code := p_solution_code p;
     status := p_status p;
     created_at := created_at r;
     updated_at := now;
     notes := notes r;
     last_solved_at := last_solved_at r |}.

(** [INSERT INTO coding_questions (<the columns of the payload>)]: the
    other columns take their defaults. *)
Definition insertRow (p : Payload) (newId now : Z) : Row :=
  {| id := newId;
     user_id := p_user_id p;
     title := p_title p;
     description := p_description p;
     language := p_language p;
     topic := p_topic p;
     difficulty := p_difficulty p;
     solution_code := p_solution_code p;
     status := p_status p;
     created_at := now;
     updated_at := now;
     notes := None;
     last_solved_at := None |}.

Definition Table := list Row.

(** [supabase.from("coding_questions").update(payload).eq("id", id)]
    under the policy "Users can update their own questions". *)
Definition update (user : Z) (p : Payload) (target now : Z) (t : Table) : Table :=
  map (fun r => if (id r =? target) && (user_id r =? user)
                then updateRow p now r else r) t.

(** [supabase.from("coding_questions").insert([payload])]; [newId] is
    the value [gen_random_uuid()] draws. *)
Definition insert (p : Payload) (newId now : Z) (t : Table) : Table :=
  t ++ [insertRow p newId now].

(** [handleSubmit]: [isEdit] holds the [id] of the route when the form
    edits a question. *)
Definition handleSubmit (user : Z) (isEdit : option Z) (formData : FormData)
  (newId now : Z) (t : Table) : Table :=
  let payload := payload user formData in
  match isEdit with
  | Some id => update user payload id now t
  | None => insert payload newId now t
  end.

End QuestionForm.

(* ================================================================== *)
(** * The statistics as the specification words them *)
(* ================================================================== *)

Module Spec.

(** "Starting from today, walk backward one day at a time while the day
    is in the active set; stop at the first gap; the count of steps
    taken is the current streak."  A walk over a finite set takes at
    most as many steps as the set has days. *)
Fixpoint walkBack (fuel : nat) (active : list Z) (day : Z) : Z :=
  match fuel with
  | O => 0
  | S fuel' =>
      if existsb (Z.eqb day) active
      then 1 + walkBack fuel' active (day - 1)
      else 0
  end.

Definition currentStreak (active : list Z) (today : Z) : Z :=
  walkBack (length active) active today.

(** The same count, stated as a property: the [n] days ending today
    are active and the day before them is not. *)
Definition isStreak (active : list Z) (today n : Z) : Prop :=
  0 <= n /\
  (forall i, 0 <= i < n -> In (today - i) active) /\
  ~ In (today - n) active.

(** "Sort unique active days descending". *)
Definition desc (a b : Z) : option Z := Some (b - a).

Definition descending (active : list Z) : list Z :=
  JS.sort desc (nodup Z.eq_dec active).

(** "Scan adjacent pairs; a pair contributes to the same run when the
    day difference is exactly 1": the lengths of the runs, where [len]
    is the length of the run that ends at [prev]. *)
Fixpoint runs (prev len : Z) (rest : list Z) : list Z :=
  match rest with
  | [] => [len]
  | d :: rest' =>
      if prev - d =? 1 then runs d (len + 1) rest'
      else len :: runs d 1 rest'
  end.

(** "Track the maximum run length; a single active day yields a run
    of 1." *)
Definition longestStreak (active : list Z) : Z :=
  match descending active with
  | [] => 0
  | d :: rest => fold_right Z.max 0 (runs d 1 rest)
  end.

(** "The record's completion timestamp if present, else (for
    already-completed records lacking that timestamp) its last-updated
    timestamp, else no contribution." *)
Definition activityDate (q : Question) : option JS.Date :=
  match last_solved_at q with
  | Some solved => Some solved
  | None =>
      match status q with
      | Completed => updated_at q
      | _ => None
      end
  end.

(** "completionRate == round(100 * completed / total)", 0 when total
    is 0; halves round up. *)
Definition completionRate (total completed : Z) : Z :=
  if total =? 0 then 0
  else (2 * (100 * completed) + total) / (2 * total).

End Spec.

(* ================================================================== *)
(** * The pages' computations read on day numbers

    Notions used to state what the pages compute: the calendar day a
    record contributes, the window of the calendar, and the two streak
    loops on plain day numbers. *)
(* ================================================================== *)

Module Days.

(** The first loop on day numbers: how many leading entries are
    [day], [day - 1], [day - 2], ... *)
Fixpoint countBack (day : Z) (days : list Z) : Z :=
  match days with
  | [] => 0
  | d :: rest => if d =? day then 1 + countBack (day - 1) rest else 0
  end.

(** The days of [active] that are not after [day]: a walk back from
    [day] can only meet these. *)
Definition upTo (day : Z) (active : list Z) : list Z :=
  filter (fun d => d <=? day) active.

(** The second loop on day numbers. *)
Fixpoint scan (prev : Z) (rest : list Z) (longest temp : Z) : Z * Z :=
  match rest with
  | [] => (longest, temp)
  | d :: rest' =>
      if prev - d =? 1
      then scan d rest' (Z.max longest (temp + 1)) (temp + 1)
      else scan d rest' longest 1
  end.

Section Clock.

Variable tz : Z.
Variable now : Z.

(** The local calendar day of today. *)
Definition todayDay : Z := JS.localDay tz now.

(** The Sunday on or before the day 364 days ago. *)
Definition startDay : Z :=
  let d := todayDay - 364 in d - (d + 4) mod 7.

(** The local calendar day a record contributes on the Profile page
    with the calendar: the day of its [dateSource], when that is a
    valid date. *)
Definition activityDay (q : Question) : option Z :=
  match ProfileCalendar.dateSource q with
  | Some (Some t) => Some (JS.localDay tz t)
  | _ => None
  end.

(** The activity days of all records, one entry per record that has
    one. *)
Definition activityDays (questions : list Question) : list Z :=
  flat_map (fun q => match activityDay q with
                     | Some d => [d]
                     | None => []
                     end) questions.

(** The record has an activity day inside the window. *)
Definition inWindow (q : Question) : bool :=
  match activityDay q with
  | Some d => (startDay <=? d) && (d <=? todayDay)
  | None => false
  end.

(** A record counts on day [d] of the window. *)
Definition countsOn (d : Z) (q : Question) : Prop :=
  activityDay q = Some d /\ startDay <= d <= todayDay.

(** The record has a well-formed activity date. *)
Definition wellDated (q : Question) : bool :=
  match activityDay q with
  | Some _ => true
  | None => false
  end.

(** The ISO key under which a local day is counted. *)
Definition keyOfDay (day : Z) : Z := day + (- tz) / JS.msPerDay.

(** The local day on which the date [new Date(key)] falls. *)
Definition dayOfKey (key : Z) : Z := key + tz / JS.msPerDay.

(** The active days the streak loops of the calendar page work on: the
    days on which the keys of [activity] fall. *)
Definition activeDays (activity : JS.Dict) : list Z :=
  map dayOfKey (JS.keys activity).

(** What the callback of [forEach] does to [activity], read on the
    activity day of the record, and the dictionary all records leave. *)
Definition countDay (activity : JS.Dict) (q : Question) : JS.Dict :=
  if inWindow q then
    match activityDay q with
    | Some d =>
        JS.set (keyOfDay d) (JS.orZero (JS.get (keyOfDay d) activity) + 1)
          activity
    | None => activity
    end
  else activity.

Definition tally (questions : list Question) : JS.Dict :=
  fold_left countDay questions [].

(** The activity days of the records inside the window, one entry per
    record. *)
Definition windowDays (questions : list Question) : list Z :=
  flat_map (fun q => if inWindow q
                     then match activityDay q with
                          | Some d => [d]
                          | None => []
                          end
                     else []) questions.

(** The number of records whose activity day is [day]. *)
Definition recordsOn (day : Z) (questions : list Question) : Z :=
  Z.of_nat (length (filter (fun q => match activityDay q with
                                     | Some d => d =? day
                                     | None => false
                                     end) questions)).

End Clock.

(** The [Date] of the local midnight of a day. *)
Definition midnightOf (tz day : Z) : JS.Date := Some (JS.midnight tz day).

(** The distinct days of a list in the order of their first
    occurrence: [JS.distinct] on day numbers. *)
Fixpoint dedup (days : list Z) : list Z :=
  match days with
  | [] => []
  | d :: rest => d :: filter (fun e => negb (d =? e)) (dedup rest)
  end.

(** The days among the texts of [toDateString]. *)
Definition daysOf (strs : list JS.DateString) : list Z :=
  flat_map (fun s => match s with
                     | JS.DayString d => [d]
                     | JS.InvalidDate => []
                     end) strs.

(** The days [last_solved_at] gives on the pages that read that column
    alone: the local days of the valid dates. *)
Definition solvedDays (tz : Z) (dates : list JS.Date) : list Z :=
  flat_map (fun d => match d with
                     | Some t => [JS.localDay tz t]
                     | None => []
                     end) dates.

(** The dates the Dashboard and src/pages/Profile.tsx read from the
    records, before they are sorted. *)
Definition lastSolved (data : list Question) : list JS.Date :=
  map (fun q => Profile.newDate (last_solved_at q))
    (filter (fun q => Profile.truthy (last_solved_at q)) data).

End Days.

(** The check that the double computation gives the exact rounding for
    every count of completed records among [total] records. *)
Definition rateExact (total : nat) : bool :=
  forallb (fun completed =>
             match JS.toZ (ProfileCalendar.rate (Z.of_nat total) (Z.of_nat completed)) with
             | Some r => r =? Spec.completionRate (Z.of_nat total) (Z.of_nat completed)
             | None => false
             end)
    (seq 0 (S total)).

(* ================================================================== *)
(** * Sample data *)
(* ================================================================== *)

Module Sample.

(** Monday 2024-01-15, counted from 1970-01-01. *)
Definition monday : Z := 19737.

(** The instant at which a clock of zone [tz] shows [hour] o'clock on
    day [day]. *)
Definition at_ (tz day hour : Z) : Z :=
  day * JS.msPerDay + hour * 3600000 - tz.

Definition utc : Z := 0.

(** Asia/Kolkata, UTC+05:30. *)
Definition kolkata : Z := 19800000.

(** A completed question solved at [t]. *)
Definition solved (t : Z) : Question :=
  {| status := Completed; difficulty := Easy;
     last_solved_at := Some (Some t); updated_at := Some (Some t) |}.

(** A completed question without [last_solved_at], last updated at [t]. *)
Definition completedAt (t : Z) : Question :=
  {| status := Completed; difficulty := Medium;
     last_solved_at := None; updated_at := Some (Some t) |}.

(** A question in progress, last updated at [t]. *)
Definition started (t : Z) : Question :=
  {| status := InProgress; difficulty := Hard;
     last_solved_at := None; updated_at := Some (Some t) |}.

(** A question whose [last_solved_at] does not parse as a date. *)
Definition malformed (t : Z) : Question :=
  {| status := Completed; difficulty := Easy;
     last_solved_at := Some None; updated_at := Some (Some t) |}.

(** One question solved at nine o'clock on each of the [n] days that
    end with [day]. *)
Definition daily (tz day : Z) (n : nat) : list Question :=
  map (fun i => solved (at_ tz (day - Z.of_nat i) 9)) (seq 0 n).

(** Forty questions of which twenty-three are completed. *)
Definition forty : list Question :=
  repeat (completedAt 0) 23 ++ repeat (started 0) 17.

End Sample.

(* ================================================================== *)
(** * What the pages show of the statistics *)
(* ================================================================== *)

Module CalendarView.
Import JS.

(** The header of the calendar:
    [{Object.keys(activityMap).length} submissions in the past one year]. *)
Definition submissions (activityMap : Dict) : Z :=
  Z.of_nat (length (keys activityMap)).


Inductive CellClass : Set := bg_success | bg_muted.

(** The cell of a day of [yearDays]:
    [count > 0 ? 'bg-success' : 'bg-muted']. *)
Definition cell (activityMap : Dict) (date : Date) : result CellClass :=
  count <- ProfileCalendar.cellCount activityMap date ;;
  Ok (if 0 <? count then bg_success else bg_muted).

(** The cell is drawn in the colour of an active day. *)
Definition green (c : CellClass) : bool :=
  match c with
  | bg_success => true
  | bg_muted => false
  end.

(** The sum of a list of counts. *)
Definition sum (counts : list Z) : Z := fold_right Z.add 0 counts.

(** The count the cell of [day] shows: the number of records on that
    day, nothing after today. *)
Definition shown (tz now : Z) (questions : list Question) (day : Z) : Z :=
  if day <=? Days.todayDay tz now then Days.recordsOn tz day questions else 0.

(** Two dictionaries that answer every lookup alike. *)
Definition sameLookups (a b : Dict) : Prop := forall k, get k a = get k b.

End CalendarView.

Module DashboardView.
Import Stdlib.Strings.String.

Record Slice : Set := {
  name : String.string;
  value : Z
}.

(** [[{name: "Completed", ...}, {name: "In Progress", ...},
      {name: "To Do", ...}].filter(item => item.value > 0)] *)
Definition chartData (stats : Dashboard.Stats) : list Slice :=
  filter (fun item => 0 <? value item)
    [ {| name := "Completed"%string; value := Dashboard.completed stats |};
      {| name := "In Progress"%string; value := Dashboard.inProgress stats |};
      {| name := "To Do"%string; value := Dashboard.todo stats |} ].

(** [[{name: "Completed", ...}, {name: "Remaining",
      value: stats.total - stats.completed}].filter(item => item.value > 0)] *)
Definition totalVsCompletedData (stats : Dashboard.Stats) : list Slice :=
  filter (fun item => 0 <? value item)
    [ {| name := "Completed"%string; value := Dashboard.completed stats |};
      {| name := "Remaining"%string;
         value := Dashboard.total stats - Dashboard.completed stats |} ].

(** The data of the difficulty pie, written out in the JSX; no slice
    is filtered out. *)
Definition difficultyData (stats : Dashboard.Stats) : list Slice :=
  [ {| name := "Easy"%string;
       value := Dashboard.nEasy (Dashboard.byDifficulty stats) |};
    {| name := "Medium"%string;
       value := Dashboard.nMedium (Dashboard.byDifficulty stats) |};
    {| name := "Hard"%string;
       value := Dashboard.nHard (Dashboard.byDifficulty stats) |} ].

(** The sum of the values of a pie. *)
Definition sum (slices : list Slice) : Z :=
  fold_right Z.add 0 (map value slices).

End DashboardView.

(* ================================================================== *)
(** * The pages against the [coding_questions] table *)
(* ================================================================== *)

Module Store.

(** The columns the statistics pages select, as the client receives
    them: a [timestamptz] arrives as an ISO text that [new Date] reads
    back, [NULL] as [null]; [updated_at] is [NOT NULL]. *)
Definition toQuestion (r : QuestionForm.Row) : Question :=
  {| status := QuestionForm.status r;
     difficulty := QuestionForm.difficulty r;
     last_solved_at := option_map Some (QuestionForm.last_solved_at r);
     updated_at := Some (Some (QuestionForm.updated_at r)) |}.

(** [supabase.from("coding_questions").select(...).eq("user_id", user?.id)]
    of the three [fetchStats]. *)
Definition selectQuestions (user : Z) (t : QuestionForm.Table) : list Question :=
  map toQuestion (filter (fun r => QuestionForm.user_id r =? user) t).

(** [.single()]: the row when the query matches exactly one, an error
    otherwise. *)
Definition single {A} (rows : list A) : option A :=
  match rows with
  | [row] => Some row
  | _ => None
  end.

(** [data.solution_code || ""] *)
Definition orEmpty (s : option QuestionForm.text) : QuestionForm.text :=
  match s with
  | Some code => code
  | None => String.EmptyString
  end.

(** [fetchQuestion] of the question form:
    [select("*").eq("id", id).single()] under the policy "Users can
    view their own questions", then [setFormData]; on an error the
    form is left and its state is not set ([None]). *)
Definition fetchQuestion (user id : Z) (t : QuestionForm.Table)
  : option QuestionForm.FormData :=
  match single (filter (fun r => (QuestionForm.id r =? id)
                                 && (QuestionForm.user_id r =? user)) t) with
  | Some data =>
      Some {| QuestionForm.f_title := QuestionForm.title data;
              QuestionForm.f_description := QuestionForm.description data;
              QuestionForm.f_language := QuestionForm.language data;
              QuestionForm.f_topic := QuestionForm.topic data;
              QuestionForm.f_difficulty := QuestionForm.difficulty data;
              QuestionForm.f_status := QuestionForm.status data;
              QuestionForm.f_solution_code :=
                orEmpty (QuestionForm.solution_code data) |}
  | None => None
  end.

(** [handleDeleteAccount] of the Profile page on the table:
    [supabase.from("coding_questions").delete().eq("user_id", user?.id)]. *)
Definition handleDeleteAccount (user : Z) (t : QuestionForm.Table)
  : QuestionForm.Table :=
  filter (fun r => negb (QuestionForm.user_id r =? user)) t.

(** [handleDelete] of the question list: [delete().eq("id", id)] under
    the policy "Users can delete their own questions". *)
Definition handleDelete (user id : Z) (t : QuestionForm.Table)
  : QuestionForm.Table :=
  filter (fun r => negb ((QuestionForm.id r =? id)
                         && (QuestionForm.user_id r =? user))) t.

(** The rows of the table the policies let [user] see. *)
Definition rowsOf (user : Z) (t : QuestionForm.Table) : QuestionForm.Table :=
  filter (fun r => QuestionForm.user_id r =? user) t.

(** One submission of the question form. *)
Record Submission : Set := {
  by_user : Z;
  isEdit : option Z;
  formData : QuestionForm.FormData;
  newId : Z;
  at_time : Z
}.

Definition submit (t : QuestionForm.Table) (s : Submission) : QuestionForm.Table :=
  QuestionForm.handleSubmit (by_user s) (isEdit s) (formData s) (newId s)
    (at_time s) t.

(** What a signed-in user can do to the table through the pages. *)
Inductive Action : Set :=
| Submit (s : Submission)
| Delete (user id : Z)
| DeleteAccount (user : Z).

Definition actor (a : Action) : Z :=
  match a with
  | Submit s => by_user s
  | Delete user _ => user
  | DeleteAccount user => user
  end.

Definition act (t : QuestionForm.Table) (a : Action) : QuestionForm.Table :=
  match a with
  | Submit s => submit t s
  | Delete user id => handleDelete user id t
  | DeleteAccount user => handleDeleteAccount user t
  end.

(** The table after a series of actions, starting empty. *)
Definition run (actions : list Action) : QuestionForm.Table :=
  fold_left act actions [].

(** The form edits a question that [user] can see. *)
Definition editable (user : Z) (isEdit : option Z) (t : QuestionForm.Table)
  : Prop :=
  match isEdit with
  | Some id => exists r, In r t /\ QuestionForm.id r = id
                         /\ QuestionForm.user_id r = user
  | None => True
  end.

End Store.

(* ================================================================== *)
(** * The question list (src/pages/Questions.tsx) *)
(* ================================================================== *)

Module Questions.
Import Stdlib.Strings.String.

Definition text := QuestionForm.text.

(** [s.includes(sub)]: [sub] occurs in [s]. *)
Fixpoint includes (s sub : text) : bool :=
  prefix sub s
  || match s with
     | EmptyString => false
     | String _ s' => includes s' sub
     end.

(** A text as a condition: the empty text is falsy. *)
Definition truthy (s : text) : bool :=
  match s with
  | EmptyString => false
  | _ => true
  end.

(** The select of the sort order offers exactly these values. *)
Inductive SortBy : Set := newest | oldest | completed.

(** The state of the filters.  The selects of difficulty and status
    offer "all" ([None]) and the values of the columns; those of
    language and topic offer "all" and the texts found in the list. *)
Record Filters : Set := {
  searchQuery : text;
  difficultyFilter : option Difficulty;
  statusFilter : option Status;
  languageFilter : text;
  topicFilter : text;
  sortBy : SortBy
}.

(** The state the page starts in. *)
Definition initial : Filters :=
  {| searchQuery := EmptyString;
     difficultyFilter := None;
     statusFilter := None;
     languageFilter := "all"%string;
     topicFilter := "all"%string;
     sortBy := newest |}.

Definition isCompleted (q : QuestionForm.Row) : bool :=
  Status_eqb (QuestionForm.status q) Completed.

(** The comparator of [filtered.sort]; [created_at] is NOT NULL, so
    both time values are numbers. *)
Definition compare (sortBy : SortBy) (a b : QuestionForm.Row) : option Z :=
  match sortBy with
  | newest => Some (QuestionForm.created_at b - QuestionForm.created_at a)
  | oldest => Some (QuestionForm.created_at a - QuestionForm.created_at b)
  | completed =>
      if isCompleted a && negb (isCompleted b) then Some (-1)
      else if negb (isCompleted a) && isCompleted b then Some 1
      else Some 0
  end.

Section Page.

(** [String.prototype.toLowerCase]. *)
Variable toLowerCase : text -> text.

(** The callback of the search filter. *)
Definition found (searchQuery : text) (q : QuestionForm.Row) : bool :=
  includes (toLowerCase (QuestionForm.title q)) (toLowerCase searchQuery)
  || includes (toLowerCase (QuestionForm.topic q)) (toLowerCase searchQuery).

(** [filterQuestions]: the argument of [setFilteredQuestions]. *)
Definition filterQuestions (st : Filters) (questions : list QuestionForm.Row)
  : list QuestionForm.Row :=
  let filtered := questions in
  let filtered :=
    if truthy (searchQuery st)
    then filter (found (searchQuery st)) filtered
    else filtered in
  let filtered :=
    match difficultyFilter st with
    | Some d => filter (fun q => Difficulty_eqb (QuestionForm.difficulty q) d)
                  filtered
    | None => filtered
    end in
  let filtered :=
    match statusFilter st with
    | Some s => filter (fun q => Status_eqb (QuestionForm.status q) s) filtered
    | None => filtered
    end in
  let filtered :=
    if negb (languageFilter st =? "all"%string)%string
    then filter (fun q => (QuestionForm.language q =? languageFilter st)%string)
           filtered
    else filtered in
  let filtered :=
    if negb (topicFilter st =? "all"%string)%string
    then filter (fun q => (QuestionForm.topic q =? topicFilter st)%string)
           filtered
    else filtered in
  JS.sort (compare (sortBy st)) filtered.

(** The row passes every filter that is set. *)
Definition passes (st : Filters) (q : QuestionForm.Row) : bool :=
  (negb (truthy (searchQuery st)) || found (searchQuery st) q)
  && match difficultyFilter st with
     | Some d => Difficulty_eqb (QuestionForm.difficulty q) d
     | None => true
     end
  && match statusFilter st with
     | Some s => Status_eqb (QuestionForm.status q) s
     | None => true
     end
  && ((languageFilter st =? "all"%string)%string
      || (QuestionForm.language q =? languageFilter st)%string)
  && ((topicFilter st =? "all"%string)%string
      || (QuestionForm.topic q =? topicFilter st)%string).

End Page.

(** Lower case on the letters A to Z, for the sample data. *)
Definition lowerChar (c : Ascii.ascii) : Ascii.ascii :=
  let n := Ascii.nat_of_ascii c in
  if (Nat.leb 65 n && Nat.leb n 90)%bool then Ascii.ascii_of_nat (n + 32) else c.

Fixpoint asciiLower (s : text) : text :=
  match s with
  | EmptyString => EmptyString
  | String c s' => String (lowerChar c) (asciiLower s')
  end.

End Questions.

(* ================================================================== *)
(** * Zones whose offset changes *)
(* ================================================================== *)

(** The modules above take the zone of the browser as one offset [tz].
    A zone with clock changes has two: ECMAScript reads the local time
    of an instant with the offset in force at that instant
    (LocalTZA(t, true)), and turns a local time into an instant with
    the offset that local time is read with (LocalTZA(t, false): the
    offset before the change for a local time the change skips or
    repeats). *)
Module TimeZone.
Import JS.

Record Zone : Set := {
  utcOffset : Z -> Z;
  localOffset : Z -> Z
}.

(** A zone that keeps one offset. *)
Definition fixed (tz : Z) : Zone :=
  {| utcOffset := fun _ => tz; localOffset := fun _ => tz |}.

(** A zone that moves from the offset [before] to the offset [after]
    at the instant [instant]. *)
Definition change (instant before after : Z) : Zone :=
  {| utcOffset := fun t => if t <? instant then before else after;
     localOffset := fun t => if t <? instant + Z.max before after
                             then before else after |}.

(** The zone keeps the offset [tz] at all times. *)
Definition constant (z : Zone) (tz : Z) : Prop :=
  forall t, utcOffset z t = tz /\ localOffset z t = tz.

Section Zone.

Variable z : Zone.

(** LocalTime(t) and UTC(t) of ECMAScript. *)
Definition LocalTime (t : Z) : Z := t + utcOffset z t.

Definition UTC (t : Z) : Z := t - localOffset z t.

(** The local calendar day (counted from 1970-01-01) of a time value. *)
Definition localDay (t : Z) : Z := LocalTime t / msPerDay.

(** The instant at which the local calendar day [day] starts. *)
Definition midnight (day : Z) : Z := UTC (day * msPerDay).

(** [d.setHours(0, 0, 0, 0)] *)
Definition setHours0 (d : Date) : Date :=
  option_map (fun t => midnight (localDay t)) d.

(** [d.setDate(d.getDate() + n)]: the day moves, the time within the
    day stays. *)
Definition addDays (n : Z) (d : Date) : Date :=
  option_map (fun t => UTC ((localDay t + n) * msPerDay
                            + LocalTime t mod msPerDay)) d.

(** [d.getDay()]: 0 is Sunday; 1970-01-01 was a Thursday. *)
Definition getDay (d : Date) : option Z :=
  option_map (fun t => (localDay t + 4) mod 7) d.

(** [d.toDateString()] *)
Definition toDateString (d : Date) : DateString :=
  match d with
  | Some t => DayString (localDay t)
  | None => InvalidDate
  end.

(** [new Date(s)] for a text produced by [toDateString]: the start of
    that local day; "Invalid Date" does not parse. *)
Definition ofDateString (s : DateString) : Date :=
  match s with
  | DayString day => Some (midnight day)
  | InvalidDate => None
  end.

End Zone.

End TimeZone.

(** [fetchStats] of the Profile page with the calendar
    (src/unnamed/part_001) in a zone of that kind.  What does not
    depend on the zone is taken from [ProfileCalendar]. *)
Module ZonedCalendar.
Import JS.

Section Clock.

Variable z : TimeZone.Zone.
Variable now : Z.

Definition today : Date := TimeZone.setHours0 z (Some now).

(** [while (startOfRange.getDay() !== 0) startOfRange.setDate(startOfRange.getDate() - 1)];
    where every local day exists the loop takes at most six steps. *)
Fixpoint alignToSunday (fuel : nat) (d : Date) : Date :=
  match fuel with
  | O => d
  | S fuel' =>
      match TimeZone.getDay z d with
      | Some 0 => d
      | _ => alignToSunday fuel' (TimeZone.addDays z (-1) d)
      end
  end.

Definition startOfRange : Date :=
  alignToSunday 7 (TimeZone.addDays z (-364) today).

(** The callback of [questions?.forEach]. *)
Definition countQuestion (activity : Dict) (q : Question) : result Dict :=
  match ProfileCalendar.dateSource q with
  | None => Ok activity
  | Some dateSource =>
      let dateSource := TimeZone.setHours0 z dateSource in
      if geb dateSource startOfRange && leb dateSource today then
        key <- ProfileCalendar.toKey dateSource ;;
        Ok (set key (orZero (get key activity) + 1) activity)
      else Ok activity
  end.

Definition activity (questions : list Question) : result Dict :=
  forEach countQuestion [] questions.

Definition days : list Date :=
  map (fun i => TimeZone.addDays z (Z.of_nat i) startOfRange)
    (seq 0 ProfileCalendar.totalDays).

Definition uniqueDates (activeDates : list Date) : list Date :=
  map (TimeZone.ofDateString z)
    (distinct (map (TimeZone.toDateString z) activeDates)).

Fixpoint currentStreakLoop (ref : Date) (rest : list Date)
  (i currentStreak : Z) : Z :=
  match rest with
  | [] => currentStreak
  | u :: rest' =>
      let expected := TimeZone.addDays z (- i) ref in
      if DateString_eqb (TimeZone.toDateString z u)
           (TimeZone.toDateString z expected)
      then currentStreakLoop ref rest' (i + 1) (currentStreak + 1)
      else currentStreak
  end.

Definition streaks (activeDates : list Date) : Z * Z :=
  match activeDates with
  | [] => (0, 0)
  | _ :: _ =>
      let uniqueDates := uniqueDates activeDates in
      let ref := today in
      let currentStreak := currentStreakLoop ref uniqueDates 0 0 in
      let '(longestStreak, tempStreak) :=
        match uniqueDates with
        | [] => (0, 1)
        | first :: rest => ProfileCalendar.longestStreakLoop first rest 0 1
        end in
      (currentStreak, Z.max longestStreak tempStreak)
  end.

Definition fetchStats (questions : list Question)
  : result ProfileCalendar.View :=
  let total := Z.of_nat (length questions) in
  let completed := Z.of_nat (length (filter isCompleted questions)) in
  let completionRate := ProfileCalendar.rate total completed in
  activity <- activity questions ;;
  let '(currentStreak, longestStreak) :=
    streaks (ProfileCalendar.activeDates activity) in
  Ok {| ProfileCalendar.stats :=
          {| ProfileCalendar.total := total;
             ProfileCalendar.completed := completed;
             ProfileCalendar.completionRate := completionRate;
             ProfileCalendar.currentStreak := currentStreak;
             ProfileCalendar.longestStreak := longestStreak |};
        ProfileCalendar.yearDays := days;
        ProfileCalendar.activityMap := activity |}.

(** The key under which the loop counts a record whose activity date
    is [date]: the ISO date of the start of its local day, when that
    instant lies between [startOfRange] and [today]. *)
Definition keyOf (date : option Date) : option Z :=
  match date with
  | Some d =>
      match TimeZone.setHours0 z d with
      | Some t =>
          if geb (Some t) startOfRange && leb (Some t) today
          then Some (t / msPerDay) else None
      | None => None
      end
  | None => None
  end.

(** The record is counted under [key]. *)
Definition countedUnder (key : Z) (date : option Date) : bool :=
  match keyOf date with
  | Some k => k =? key
  | None => false
  end.

(** What counting a record with the activity date [date] does to
    [activity]. *)
Definition count (activity : Dict) (date : option Date) : Dict :=
  match keyOf date with
  | Some key => set key (orZero (get key activity) + 1) activity
  | None => activity
  end.

End Clock.

End ZonedCalendar.

(** [fetchStats] of src/pages/Profile.tsx in a zone of that kind. *)
Module ZonedProfile.
Import JS.

Section Clock.

Variable z : TimeZone.Zone.
Variable now : Z.

Definition today : Date := TimeZone.setHours0 z (Some now).

Definition uniqueDates (solvedDates : list Date) : list Date :=
  map (TimeZone.ofDateString z)
    (distinct (map (TimeZone.toDateString z) solvedDates)).

Fixpoint currentStreakLoop (rest : list Date) (i currentStreak tempStreak : Z)
  : Z * Z :=
  match rest with
  | [] => (currentStreak, tempStreak)
  | currentDate :: rest' =>
      let expectedDate :=
        TimeZone.setHours0 z (TimeZone.addDays z (- i) today) in
      if DateString_eqb (TimeZone.toDateString z currentDate)
           (TimeZone.toDateString z expectedDate)
      then currentStreakLoop rest' (i + 1) (currentStreak + 1) (tempStreak + 1)
      else (currentStreak, tempStreak)
  end.

Definition streaks (solvedDates : list Date) : Z * Z :=
  match solvedDates with
  | [] => (0, 0)
  | _ :: _ =>
      let uniqueDates := uniqueDates solvedDates in
      let '(currentStreak, _) := currentStreakLoop uniqueDates 0 0 0 in
      let '(longestStreak, tempStreak) :=
        match uniqueDates with
        | [] => (0, 1)
        | first :: rest => Profile.longestStreakLoop first rest 0 1
        end in
      (currentStreak, Z.max longestStreak tempStreak)
  end.

Definition fetchStats (questions : list Question) : Profile.Stats :=
  let total := Z.of_nat (length questions) in
  let completed := Z.of_nat (length (filter isCompleted questions)) in
  let completionRate := Profile.rate total completed in
  let '(currentStreak, longestStreak) :=
    streaks (Profile.solvedDates questions) in
  {| Profile.total := total;
     Profile.completed := completed;
     Profile.completionRate := completionRate;
     Profile.currentStreak := currentStreak;
     Profile.longestStreak := longestStreak |}.

End Clock.

End ZonedProfile.

(** Two zones with a clock change in 2024, and days of that year
    counted from 1970-01-01. *)
Module SampleZones.

Definition hour : Z := 3600000.

(** America/New_York around Sunday 2024-11-03, when the clocks went
    back from UTC-04:00 to UTC-05:00 at 06:00 UTC. *)
Definition newYork : TimeZone.Zone :=
  TimeZone.change 1730613600000 (-4 * hour) (-5 * hour).

(** Europe/London around Sunday 2024-03-31, when the clocks went
    forward from UTC to UTC+01:00 at 01:00 UTC. *)
Definition london : TimeZone.Zone :=
  TimeZone.change 1711846800000 0 (1 * hour).

Definition nov3 : Z := 20030.
Definition mar30 : Z := 19812.

(** The instant at which the clocks of [z] show [hour] o'clock on day
    [day]. *)
Definition at_ (z : TimeZone.Zone) (day h : Z) : Z :=
  TimeZone.UTC z (day * JS.msPerDay + h * hour).

(** One question solved at nine o'clock on each of the [n] days that
    start with [day]. *)
Definition daily (z : TimeZone.Zone) (day : Z) (n : nat) : list Question :=
  map (fun i => Sample.solved (at_ z (day + Z.of_nat i) 9)) (seq 0 n).

End SampleZones.

(* ================================================================== *)
(** * A sample table *)
(* ================================================================== *)

Module SampleTable.
Import Stdlib.Strings.String.

Definition alice : Z := 1.
Definition bob : Z := 2.

(** The form filled in for one question, with the given status. *)
Definition form (status : Status) : QuestionForm.FormData :=
  {| QuestionForm.f_title := "Two Sum"%string;
     QuestionForm.f_description := "Indices of two numbers with a given sum"%string;
     QuestionForm.f_language := "TypeScript"%string;
     QuestionForm.f_topic := "Arrays"%string;
     QuestionForm.f_difficulty := Easy;
     QuestionForm.f_status := status;
     QuestionForm.f_solution_code := EmptyString |}.

(** [user] creates the question, which receives the id [newId]. *)
Definition create (user newId now : Z) (status : Status) : Store.Submission :=
  {| Store.by_user := user;
     Store.isEdit := None;
     Store.formData := form status;
     Store.newId := newId;
     Store.at_time := now |}.

(** [user] saves the form of the question [target]. *)
Definition edit (user target now : Z) (status : Status) : Store.Submission :=
  {| Store.by_user := user;
     Store.isEdit := Some target;
     Store.formData := form status;
     Store.newId := 0;
     Store.at_time := now |}.

(** A row of alice as the form inserts it. *)
Definition row (id created : Z) (status : Status) : QuestionForm.Row :=
  QuestionForm.insertRow (QuestionForm.payload alice (form status)) id created.

End SampleTable.

(** The day by which the round trip of a local midnight through an ISO
    key ([toISOString], then [new Date(key)], then [toDateString])
    moves a local day. *)
Definition keyShift (tz : Z) : Z := (- tz) / JS.msPerDay + tz / JS.msPerDay.

(* ================================================================== *)
(** * A zone that keeps its offset *)
(* ================================================================== *)

(** In a zone whose offset never changes the pages behave as the
    modules that take the offset [tz] say. *)
Section ConstantZone.
Import JS.

Variable z : TimeZone.Zone.
Variable tz : Z.
Hypothesis Hconstant : TimeZone.constant z tz.

Lemma localDay_constant (t : Z) : TimeZone.localDay z t = localDay tz t.
Proof.
  unfold TimeZone.localDay, TimeZone.LocalTime, localDay.
  now rewrite (proj1 (Hconstant t)).
Qed.

Lemma midnight_constant (day : Z) : TimeZone.midnight z day = midnight tz day.
Proof.
  unfold TimeZone.midnight, TimeZone.UTC, midnight.
  now rewrite (proj2 (Hconstant _)).
Qed.

Lemma setHours0_constant (d : Date) : TimeZone.setHours0 z d = setHours0 tz d.
Proof.
  destruct d as [t|]; [|reflexivity]. cbn [TimeZone.setHours0 setHours0 option_map].
  now rewrite localDay_constant, midnight_constant.
Qed.

Lemma addDays_constant (n : Z) (d : Date) : TimeZone.addDays z n d = addDays n d.
Proof.
  destruct d as [t|]; [|reflexivity]. cbn [TimeZone.addDays addDays option_map].
  f_equal. unfold TimeZone.UTC, TimeZone.localDay, TimeZone.LocalTime.
  rewrite (proj2 (Hconstant _)), (proj1 (Hconstant t)).
  pose proof (Z.div_mod (t + tz) msPerDay ltac:(discriminate)). lia.
Qed.

Lemma getDay_constant (d : Date) : TimeZone.getDay z d = getDay tz d.
Proof.
  destruct d as [t|]; [|reflexivity]. cbn [TimeZone.getDay getDay option_map].
  now rewrite localDay_constant.
Qed.

Lemma toDateString_constant (d : Date) :
  TimeZone.toDateString z d = toDateString tz d.
Proof.
  destruct d as [t|]; [|reflexivity]. cbn [TimeZone.toDateString toDateString].
  now rewrite localDay_constant.
Qed.

Lemma ofDateString_constant (s : DateString) :
  TimeZone.ofDateString z s = ofDateString tz s.
Proof.
  destruct s as [|day]; [reflexivity|].
  cbn [TimeZone.ofDateString ofDateString]. now rewrite midnight_constant.
Qed.

Variable now : Z.

Lemma calendar_today_constant :
  ZonedCalendar.today z now = ProfileCalendar.today tz now.
Proof. apply setHours0_constant. Qed.

Lemma alignToSunday_constant (fuel : nat) (d : Date) :
  ZonedCalendar.alignToSunday z fuel d = ProfileCalendar.alignToSunday tz fuel d.
Proof.
  revert d. induction fuel as [|fuel IH]; intros d; [reflexivity|].
  cbn [ZonedCalendar.alignToSunday ProfileCalendar.alignToSunday].
  now rewrite getDay_constant, addDays_constant, IH.
Qed.

Lemma startOfRange_constant :
  ZonedCalendar.startOfRange z now = ProfileCalendar.startOfRange tz now.
Proof.
  unfold ZonedCalendar.startOfRange, ProfileCalendar.startOfRange.
  now rewrite alignToSunday_constant, addDays_constant, calendar_today_constant.
Qed.

Lemma countQuestion_constant (activity : Dict) (q : Question) :
  ZonedCalendar.countQuestion z now activity q
  = ProfileCalendar.countQuestion tz now activity q.
Proof.
  unfold ZonedCalendar.countQuestion, ProfileCalendar.countQuestion.
  destruct (ProfileCalendar.dateSource q) as [d|]; [|reflexivity].
  cbv zeta.
  now rewrite setHours0_constant, startOfRange_constant, calendar_today_constant.
Qed.

Lemma forEach_ext {A S} (f g : S -> A -> result S) :
  (forall s x, f s x = g s x) ->
  forall xs s, forEach f s xs = forEach g s xs.
Proof.
  intros H xs. induction xs as [|x xs IH]; intros s; [reflexivity|].
  cbn [forEach]. rewrite H. destruct (g s x) as [s'|e]; cbn [bind];
    [apply IH|reflexivity].
Qed.

Lemma activity_constant (questions : list Question) :
  ZonedCalendar.activity z now questions
  = ProfileCalendar.activity tz now questions.
Proof. apply forEach_ext, countQuestion_constant. Qed.

Lemma days_constant : ZonedCalendar.days z now = ProfileCalendar.days tz now.
Proof.
  unfold ZonedCalendar.days, ProfileCalendar.days. apply map_ext. intros i.
  now rewrite addDays_constant, startOfRange_constant.
Qed.

Lemma calendar_uniqueDates_constant (dates : list Date) :
  ZonedCalendar.uniqueDates z dates = ProfileCalendar.uniqueDates tz dates.
Proof.
  unfold ZonedCalendar.uniqueDates, ProfileCalendar.uniqueDates.
  rewrite (map_ext _ _ toDateString_constant).
  apply map_ext, ofDateString_constant.
Qed.

Lemma calendar_currentStreakLoop_constant (ref : Date) (rest : list Date)
  (i c : Z) :
  ZonedCalendar.currentStreakLoop z ref rest i c
  = ProfileCalendar.currentStreakLoop tz ref rest i c.
Proof.
  revert i c. induction rest as [|u rest IH]; intros i c; [reflexivity|].
  cbn [ZonedCalendar.currentStreakLoop ProfileCalendar.currentStreakLoop].
  cbv zeta. now rewrite !toDateString_constant, addDays_constant, IH.
Qed.

Lemma calendar_streaks_constant (dates : list Date) :
  ZonedCalendar.streaks z now dates = ProfileCalendar.streaks tz now dates.
Proof.
  unfold ZonedCalendar.streaks, ProfileCalendar.streaks.
  destruct dates as [|d dates]; [reflexivity|]. cbv zeta.
  now rewrite calendar_uniqueDates_constant, calendar_currentStreakLoop_constant,
    calendar_today_constant.
Qed.

Lemma calendar_fetchStats_constant (questions : list Question) :
  ZonedCalendar.fetchStats z now questions
  = ProfileCalendar.fetchStats tz now questions.
Proof.
  unfold ZonedCalendar.fetchStats, ProfileCalendar.fetchStats. cbv zeta.
  rewrite activity_constant.
  destruct (ProfileCalendar.activity tz now questions) as [a|e]; cbn [bind];
    [|reflexivity].
  now rewrite calendar_streaks_constant, days_constant.
Qed.

Lemma profile_uniqueDates_constant (dates : list Date) :
  ZonedProfile.uniqueDates z dates = Profile.uniqueDates tz dates.
Proof.
  unfold ZonedProfile.uniqueDates, Profile.uniqueDates.
  rewrite (map_ext _ _ toDateString_constant).
  apply map_ext, ofDateString_constant.
Qed.

Lemma profile_currentStreakLoop_constant (rest : list Date) (i c t : Z) :
  ZonedProfile.currentStreakLoop z now rest i c t
  = Profile.currentStreakLoop tz now rest i c t.
Proof.
  revert i c t. induction rest as [|u rest IH]; intros i c t; [reflexivity|].
  cbn [ZonedProfile.currentStreakLoop Profile.currentStreakLoop]. cbv zeta.
  rewrite !toDateString_constant, setHours0_constant, addDays_constant, IH.
  unfold ZonedProfile.today, Profile.today. now rewrite setHours0_constant.
Qed.

Lemma profile_streaks_constant (dates : list Date) :
  ZonedProfile.streaks z now dates = Profile.streaks tz now dates.
Proof.
  unfold ZonedProfile.streaks, Profile.streaks.
  destruct dates as [|d dates]; [reflexivity|]. cbv zeta.
  now rewrite profile_uniqueDates_constant, profile_currentStreakLoop_constant.
Qed.

Lemma profile_fetchStats_constant (questions : list Question) :
  ZonedProfile.fetchStats z now questions = Profile.fetchStats tz now questions.
Proof.
  unfold ZonedProfile.fetchStats, Profile.fetchStats.
  now rewrite profile_streaks_constant.
Qed.

End ConstantZone.

Lemma fixed_constant (tz : Z) : TimeZone.constant (TimeZone.fixed tz) tz.
Proof. intros t. split; reflexivity. Qed.

(* ================================================================== *)
(** * Calendar arithmetic *)
(* ================================================================== *)

Section CalendarFacts.
Import JS.

Variable tz : Z.

Lemma msPerDay_pos : 0 < msPerDay.
Proof. reflexivity. Qed.

Lemma localDay_midnight (day : Z) : localDay tz (midnight tz day) = day.
Proof.
  unfold localDay, midnight.
  replace (day * msPerDay - tz + tz) with (day * msPerDay) by lia.
  apply Z.div_mul. discriminate.
Qed.

Lemma localDay_shift (t n : Z) :
  localDay tz (t + n * msPerDay) = localDay tz t + n.
Proof.
  unfold localDay.
  replace (t + n * msPerDay + tz) with (t + tz + n * msPerDay) by lia.
  apply Z.div_add. discriminate.
Qed.

Lemma toDateString_ofDateString (s : DateString) :
  toDateString tz (ofDateString tz s) = s.
Proof.
  destruct s as [|day]; simpl; [reflexivity|].
  now rewrite localDay_midnight.
Qed.

Lemma setHours0_today (now : Z) :
  setHours0 tz (Some now) = Some (midnight tz (localDay tz now)).
Proof. reflexivity. Qed.

Lemma midnight_le (a b : Z) : midnight tz a <= midnight tz b <-> a <= b.
Proof. unfold midnight. pose proof msPerDay_pos. nia. Qed.

(** The ISO key of the local midnight of a day, and the local day on
    which the UTC midnight of a key falls. *)
Lemma key_of_midnight (day : Z) :
  midnight tz day / msPerDay = day + (- tz) / msPerDay.
Proof.
  unfold midnight.
  replace (day * msPerDay - tz) with (- tz + day * msPerDay) by lia.
  rewrite Z.div_add by discriminate. lia.
Qed.

Lemma localDay_of_key (key : Z) :
  localDay tz (key * msPerDay) = key + tz / msPerDay.
Proof.
  unfold localDay.
  replace (key * msPerDay + tz) with (tz + key * msPerDay) by lia.
  rewrite Z.div_add by discriminate. lia.
Qed.

Lemma DateString_eqb_eq (a b : DateString) :
  DateString_eqb a b = true <-> a = b.
Proof.
  destruct a as [|x], b as [|y]; simpl; try (split; congruence).
  rewrite Z.eqb_eq. split; congruence.
Qed.

Lemma DateString_eqb_refl (a : DateString) : DateString_eqb a a = true.
Proof. now apply DateString_eqb_eq. Qed.

End CalendarFacts.


Lemma keyShift_cases (tz : Z) :
  (tz mod JS.msPerDay = 0 /\ keyShift tz = 0) \/
  (tz mod JS.msPerDay <> 0 /\ keyShift tz = -1).
Proof.
  unfold keyShift.
  pose proof msPerDay_pos as Hpos.
  pose proof (Z.div_mod tz JS.msPerDay ltac:(lia)) as Hdm.
  pose proof (Z.mod_pos_bound tz JS.msPerDay Hpos) as Hb.
  set (q := tz / JS.msPerDay) in *. set (r := tz mod JS.msPerDay) in *.
  destruct (Z.eq_dec r 0) as [Hr|Hr].
  - left. split; [assumption|].
    replace (- tz) with ((- q) * JS.msPerDay) by lia.
    rewrite Z.div_mul by lia. lia.
  - right. split; [assumption|].
    replace (- tz) with ((JS.msPerDay - r) + (- q - 1) * JS.msPerDay) by lia.
    rewrite Z.div_add by lia.
    rewrite Z.div_small by lia. lia.
Qed.

(* ================================================================== *)
(** * Sorting and sets of days *)
(* ================================================================== *)

Section SortFacts.
Import JS.
Import Spec.

(** Two comparators that agree on the sign after a map sort alike. *)
Lemma insert_map {A B} (f : A -> B) (cA : A -> A -> option Z)
  (cB : B -> B -> option Z) :
  (forall x y, (sortCompare cB (f x) (f y) <=? 0) = (sortCompare cA x y <=? 0)) ->
  forall x xs, insert cB (f x) (map f xs) = map f (insert cA x xs).
Proof.
  intros Hc x xs. induction xs as [|y ys IH]; simpl; [reflexivity|].
  rewrite Hc. destruct (sortCompare cA x y <=? 0); simpl; [reflexivity|].
  now rewrite IH.
Qed.

Lemma sort_map {A B} (f : A -> B) (cA : A -> A -> option Z)
  (cB : B -> B -> option Z) :
  (forall x y, (sortCompare cB (f x) (f y) <=? 0) = (sortCompare cA x y <=? 0)) ->
  forall xs, sort cB (map f xs) = map f (sort cA xs).
Proof.
  intros Hc xs. induction xs as [|x xs IH]; simpl; [reflexivity|].
  rewrite IH. now apply insert_map.
Qed.

(** Whatever the comparator, sorting rearranges. *)
Lemma insert_perm {A} (c : A -> A -> option Z) (x : A) (xs : list A) :
  Permutation (insert c x xs) (x :: xs).
Proof.
  induction xs as [|y ys IH]; simpl; [reflexivity|].
  destruct (sortCompare c x y <=? 0); [reflexivity|].
  rewrite IH. apply perm_swap.
Qed.

Lemma sort_perm {A} (c : A -> A -> option Z) (xs : list A) :
  Permutation (sort c xs) xs.
Proof.
  induction xs as [|x xs IH]; simpl; [reflexivity|].
  rewrite insert_perm. now constructor.
Qed.

Lemma sort_In (xs : list Z) (x : Z) : In x (sort desc xs) <-> In x xs.
Proof.
  split; apply Permutation_in; [|symmetry]; apply sort_perm.
Qed.

Lemma insert_sorted (x : Z) (xs : list Z) :
  StronglySorted Z.ge xs -> StronglySorted Z.ge (insert desc x xs).
Proof.
  induction 1 as [|y ys Hs IH Hall]; simpl.
  - repeat constructor.
  - unfold sortCompare, desc at 1; simpl.
    destruct (y - x <=? 0) eqn:E.
    + apply Z.leb_le in E. constructor; [now constructor|].
      constructor; [lia|].
      rewrite Forall_forall in *. intros z Hz. specialize (Hall z Hz). lia.
    + apply Z.leb_gt in E. constructor; [assumption|].
      rewrite Forall_forall in *. intros z Hz.
      apply (Permutation_in _ (insert_perm desc x ys)) in Hz.
      destruct Hz as [<-|Hz]; [lia|now apply Hall].
Qed.

Lemma sort_sorted (xs : list Z) : StronglySorted Z.ge (sort desc xs).
Proof.
  induction xs as [|x xs IH]; simpl; [constructor|now apply insert_sorted].
Qed.

(** A list without repetition that is sorted is strictly sorted. *)
Lemma sorted_NoDup_strict (xs : list Z) :
  StronglySorted Z.ge xs -> NoDup xs -> StronglySorted Z.gt xs.
Proof.
  induction 1 as [|x xs Hs IH Hall]; intros Hnd; [constructor|].
  inversion Hnd as [|? ? Hnin Hnd']; subst.
  constructor; [now apply IH|].
  rewrite Forall_forall in *. intros z Hz.
  specialize (Hall z Hz).
  assert (z <> x) by (intros ->; contradiction). lia.
Qed.

Lemma strict_NoDup (xs : list Z) : StronglySorted Z.gt xs -> NoDup xs.
Proof.
  induction 1 as [|x xs Hs IH Hall]; constructor; [|assumption].
  intros Hin. rewrite Forall_forall in Hall. specialize (Hall x Hin). lia.
Qed.

(** A strictly descending list is determined by its elements. *)
Lemma strict_unique (xs ys : list Z) :
  StronglySorted Z.gt xs -> StronglySorted Z.gt ys ->
  (forall d, In d xs <-> In d ys) -> xs = ys.
Proof.
  intros Hx. revert ys.
  induction Hx as [|x xs Hs IH Hall]; intros ys Hy Heq.
  - destruct ys as [|y ys]; [reflexivity|].
    exfalso. apply (proj2 (Heq y)). now left.
  - destruct Hy as [|y ys Hys Hally].
    + exfalso. apply (proj1 (Heq x)). now left.
    + rewrite Forall_forall in Hall, Hally.
      assert (x = y) as ->.
      { destruct (proj1 (Heq x) (or_introl eq_refl)) as [E|Hin]; [congruence|].
        destruct (proj2 (Heq y) (or_introl eq_refl)) as [E|Hin']; [congruence|].
        specialize (Hall y Hin'). specialize (Hally x Hin). lia. }
      f_equal. apply IH; [assumption|].
      intros d. split; intros Hd.
      * destruct (proj1 (Heq d) (or_intror Hd)) as [E|Hin]; [|assumption].
        specialize (Hall d Hd). lia.
      * destruct (proj2 (Heq d) (or_intror Hd)) as [E|Hin]; [|assumption].
        specialize (Hally d Hd). lia.
Qed.

Lemma descending_In (active : list Z) (d : Z) :
  In d (Spec.descending active) <-> In d active.
Proof.
  unfold Spec.descending.
  rewrite sort_In. apply nodup_In.
Qed.

Lemma descending_strict (active : list Z) :
  StronglySorted Z.gt (Spec.descending active).
Proof.
  unfold Spec.descending.
  apply sorted_NoDup_strict; [apply sort_sorted|].
  apply (Permutation_NoDup (l := nodup Z.eq_dec active)).
  - symmetry. apply sort_perm.
  - apply NoDup_nodup.
Qed.

End SortFacts.

(* ================================================================== *)
(** * Streaks on day numbers *)
(* ================================================================== *)

Section StreakFacts.
Import Spec Days.

Lemma isStreak_unique (active : list Z) (today n m : Z) :
  isStreak active today n -> isStreak active today m -> n = m.
Proof.
  intros (Hn & Hin & Hout) (Hm & Hin' & Hout').
  destruct (Z.lt_trichotomy n m) as [Hlt|[Heq|Hgt]]; [|assumption|].
  - exfalso. apply Hout. apply Hin'. lia.
  - exfalso. apply Hout'. apply Hin. lia.
Qed.

Lemma isStreak_ext (a b : list Z) (today n : Z) :
  (forall d, In d a <-> In d b) -> isStreak a today n -> isStreak b today n.
Proof.
  intros Heq (Hn & Hin & Hout). repeat split; [assumption| |].
  - intros i Hi. apply Heq. now apply Hin.
  - intros Hb. apply Hout. now apply Heq.
Qed.

Lemma existsb_eqb_In (day : Z) (active : list Z) :
  existsb (Z.eqb day) active = true <-> In day active.
Proof.
  rewrite existsb_exists. split.
  - intros (x & Hx & E). apply Z.eqb_eq in E. now subst.
  - intros H. exists day. split; [assumption|apply Z.eqb_refl].
Qed.

Lemma upTo_pred_le (day : Z) (active : list Z) :
  Nat.le (length (upTo (day - 1) active)) (length (upTo day active)).
Proof.
  unfold upTo, Nat.le. induction active as [|e rest IH]; simpl; [lia|].
  destruct (e <=? day - 1) eqn:E1, (e <=? day) eqn:E2; simpl; lia.
Qed.

Lemma upTo_pred_lt (day : Z) (active : list Z) :
  In day active ->
  Nat.lt (length (upTo (day - 1) active)) (length (upTo day active)).
Proof.
  unfold Nat.lt. induction active as [|d rest IH]; simpl; [tauto|].
  pose proof (upTo_pred_le day rest) as Hle. unfold Nat.le in Hle.
  unfold upTo in *. simpl.
  intros [->|Hin].
  - replace (day <=? day - 1) with false by (symmetry; apply Z.leb_gt; lia).
    rewrite Z.leb_refl. simpl. lia.
  - specialize (IH Hin).
    destruct (d <=? day - 1) eqn:E1, (d <=? day) eqn:E2; simpl; lia.
Qed.

Lemma upTo_nil_notin (day : Z) (active : list Z) :
  length (upTo day active) = 0%nat -> ~ In day active.
Proof.
  unfold upTo. intros Hlen Hin.
  assert (In day (filter (fun d => d <=? day) active)) as Hf
    by (apply filter_In; split; [assumption|apply Z.leb_refl]).
  destruct (filter (fun d => d <=? day) active); [contradiction|discriminate].
Qed.

Lemma walkBack_isStreak (fuel : nat) (active : list Z) (day : Z) :
  (length (upTo day active) <= fuel)%nat ->
  isStreak active day (walkBack fuel active day).
Proof.
  revert day. induction fuel as [|fuel IH]; intros day Hfuel; cbn [walkBack].
  - repeat split; [lia|intros; lia|].
    rewrite Z.sub_0_r. apply upTo_nil_notin. lia.
  - destruct (existsb (Z.eqb day) active) eqn:E; cbv iota.
    + apply existsb_eqb_In in E.
      pose proof (upTo_pred_lt day active E) as Hlt. unfold Nat.lt in Hlt.
      destruct (IH (day - 1) ltac:(lia)) as (Hn & Hin & Hout).
      repeat split; [lia| |].
      * intros i Hi. destruct (Z.eq_dec i 0) as [->|Hne].
        -- now rewrite Z.sub_0_r.
        -- replace (day - i) with (day - 1 - (i - 1)) by lia.
           apply Hin. lia.
      * replace (day - (1 + walkBack fuel active (day - 1)))
          with (day - 1 - walkBack fuel active (day - 1)) by lia.
        assumption.
    + repeat split; [lia|intros; lia|].
      rewrite Z.sub_0_r. intros Hin.
      apply existsb_eqb_In in Hin. congruence.
Qed.

(** The walk of the specification stops at a gap, not for want of
    steps. *)
Lemma currentStreak_isStreak (active : list Z) (today : Z) :
  isStreak active today (Spec.currentStreak active today).
Proof.
  apply walkBack_isStreak. unfold upTo. apply filter_length_le.
Qed.

Lemma currentStreak_ext (a b : list Z) (today : Z) :
  (forall d, In d a <-> In d b) ->
  Spec.currentStreak a today = Spec.currentStreak b today.
Proof.
  intros Heq. apply (isStreak_unique b today).
  - apply (isStreak_ext a); [assumption|apply currentStreak_isStreak].
  - apply currentStreak_isStreak.
Qed.

Lemma currentStreak_inactive (active : list Z) (today : Z) :
  ~ In today active -> Spec.currentStreak active today = 0.
Proof.
  intros Hnot. apply (isStreak_unique active today).
  - apply currentStreak_isStreak.
  - repeat split; [lia|intros; lia|now rewrite Z.sub_0_r].
Qed.

(** The index loop on a strictly descending list none of whose days is
    after [day] counts the walk back from [day]. *)
Lemma countBack_isStreak (days : list Z) (day : Z) :
  StronglySorted Z.gt days -> Forall (fun d => d <= day) days ->
  isStreak days day (countBack day days).
Proof.
  intros Hs. revert day.
  induction Hs as [|d rest Hs IH Hall]; intros day Hle; cbn [countBack].
  - repeat split; [lia|intros; lia|simpl; tauto].
  - inversion Hle as [|? ? Hd Hrest]; subst.
    rewrite Forall_forall in Hall.
    destruct (d =? day) eqn:E.
    + apply Z.eqb_eq in E. subst d.
      assert (Forall (fun d => d <= day - 1) rest) as Hle'.
      { rewrite Forall_forall. intros z Hz. specialize (Hall z Hz). lia. }
      destruct (IH (day - 1) Hle') as (Hn & Hin & Hout).
      repeat split; [lia| |].
      * intros i Hi. destruct (Z.eq_dec i 0) as [->|Hne].
        -- left. lia.
        -- right. replace (day - i) with (day - 1 - (i - 1)) by lia.
           apply Hin. lia.
      * intros [Heq|Hin'].
        -- lia.
        -- apply Hout.
           now replace (day - 1 - countBack (day - 1) rest)
             with (day - (1 + countBack (day - 1) rest)) by lia.
    + apply Z.eqb_neq in E.
      repeat split; [lia|intros; lia|].
      rewrite Z.sub_0_r. intros [Heq|Hin]; [congruence|].
      specialize (Hall day Hin). lia.
Qed.

Lemma countBack_walk (days active : list Z) (day : Z) :
  StronglySorted Z.gt days -> Forall (fun d => d <= day) days ->
  (forall d, In d days <-> In d active) ->
  countBack day days = Spec.currentStreak active day.
Proof.
  intros Hs Hle Heq. apply (isStreak_unique active day).
  - apply (isStreak_ext days); [assumption|now apply countBack_isStreak].
  - apply currentStreak_isStreak.
Qed.

Lemma countBack_nonneg (days : list Z) (day : Z) : 0 <= countBack day days.
Proof.
  revert day. induction days as [|d rest IH]; intros day; cbn [countBack]; [lia|].
  destruct (d =? day); [specialize (IH (day - 1))|]; lia.
Qed.

(** ** The scan of adjacent pairs *)

Lemma runs_ge (prev len : Z) (rest : list Z) :
  len <= fold_right Z.max 0 (runs prev len rest).
Proof.
  revert prev len. induction rest as [|d rest IH]; intros prev len; simpl.
  - lia.
  - destruct (prev - d =? 1); simpl.
    + specialize (IH d (len + 1)). lia.
    + lia.
Qed.

Lemma scan_runs (prev : Z) (rest : list Z) (longest temp : Z) :
  1 <= temp -> temp <= Z.max longest 1 ->
  Z.max (fst (scan prev rest longest temp)) (snd (scan prev rest longest temp))
  = Z.max longest (fold_right Z.max 0 (runs prev temp rest)).
Proof.
  revert prev longest temp.
  induction rest as [|d rest IH]; intros prev longest temp H1 H2; simpl.
  - lia.
  - destruct (prev - d =? 1); simpl.
    + rewrite IH by lia.
      pose proof (runs_ge d (temp + 1) rest). lia.
    + rewrite IH by lia.
      pose proof (runs_ge d 1 rest). lia.
Qed.

(** The second loop computes the longest run of the specification. *)
Lemma scan_longest (active : list Z) :
  match descending active with
  | [] => 0
  | d :: rest => Z.max (fst (scan d rest 0 1)) (snd (scan d rest 0 1))
  end = Spec.longestStreak active.
Proof.
  unfold Spec.longestStreak. destruct (descending active) as [|d rest].
  - reflexivity.
  - rewrite scan_runs by lia.
    pose proof (runs_ge d 1 rest). lia.
Qed.

(** The first loop never counts more than the second. *)
Lemma countBack_le_scan (prev : Z) (rest : list Z) (longest temp : Z) :
  1 <= temp -> temp <= Z.max longest 1 ->
  temp + countBack (prev - 1) rest
  <= Z.max (fst (scan prev rest longest temp)) (snd (scan prev rest longest temp)).
Proof.
  intros H1 H2. rewrite scan_runs by assumption.
  revert prev longest temp H1 H2.
  induction rest as [|d rest IH]; intros prev longest temp H1 H2;
    cbn [countBack runs fold_right].
  - lia.
  - destruct (d =? prev - 1) eqn:E.
    + apply Z.eqb_eq in E. subst d.
      replace (prev - (prev - 1) =? 1) with true
        by (symmetry; apply Z.eqb_eq; lia).
      specialize (IH (prev - 1) (Z.max longest (temp + 1)) (temp + 1)).
      pose proof (runs_ge (prev - 1) (temp + 1) rest). lia.
    + destruct (prev - d =? 1); cbn [fold_right].
      * pose proof (runs_ge d (temp + 1) rest). lia.
      * lia.
Qed.

End StreakFacts.

(* ================================================================== *)
(** * The calendar page: the window and the activity dictionary *)
(* ================================================================== *)

Section DictFacts.
Import JS.

Lemma get_set (key k v : Z) (o : Dict) :
  get k (set key v o) = if k =? key then Some v else get k o.
Proof.
  induction o as [|[k' w] o IH]; simpl.
  - reflexivity.
  - destruct (key =? k') eqn:E; simpl.
    + apply Z.eqb_eq in E. subst k'.
      destruct (k =? key); reflexivity.
    + rewrite IH. destruct (k =? k') eqn:E'; [|reflexivity].
      apply Z.eqb_eq in E'. subst k'.
      apply Z.eqb_neq in E.
      replace (k =? key) with false by (symmetry; apply Z.eqb_neq; congruence).
      reflexivity.
Qed.

Lemma get_None_keys (k : Z) (o : Dict) : get k o = None <-> ~ In k (keys o).
Proof.
  induction o as [|[k' w] o IH]; simpl; [tauto|].
  destruct (k =? k') eqn:E.
  - apply Z.eqb_eq in E. subst. split; [discriminate|tauto].
  - apply Z.eqb_neq in E. rewrite IH. split; [|tauto].
    intros H [Heq|Hin]; [congruence|tauto].
Qed.

Lemma keys_set (key v : Z) (o : Dict) :
  keys (set key v o) = if existsb (Z.eqb key) (keys o) then keys o
                       else keys o ++ [key].
Proof.
  induction o as [|[k' w] o IH]; simpl; [reflexivity|].
  destruct (key =? k') eqn:E; simpl.
  - apply Z.eqb_eq in E. now subst.
  - rewrite IH. now destruct (existsb (Z.eqb key) (keys o)).
Qed.

Lemma keys_set_In (key v k : Z) (o : Dict) :
  In k (keys (set key v o)) <-> k = key \/ In k (keys o).
Proof.
  rewrite keys_set. destruct (existsb (Z.eqb key) (keys o)) eqn:E.
  - apply existsb_eqb_In in E. split; [tauto|].
    intros [->|H]; assumption.
  - rewrite in_app_iff. simpl. split; intros H; intuition congruence.
Qed.

Lemma keys_set_NoDup (key v : Z) (o : Dict) :
  NoDup (keys o) -> NoDup (keys (set key v o)).
Proof.
  intros Hnd. rewrite keys_set.
  destruct (existsb (Z.eqb key) (keys o)) eqn:E; [assumption|].
  apply NoDup_app; [assumption|repeat constructor; simpl; tauto|].
  intros x Hx [->|[]].
  assert (existsb (Z.eqb x) (keys o) = true) by now apply existsb_eqb_In.
  congruence.
Qed.

Lemma length_set (key v : Z) (o : Dict) :
  length (set key v o) = if existsb (Z.eqb key) (keys o) then length o
                         else S (length o).
Proof.
  induction o as [|[k' w] o IH]; simpl; [reflexivity|].
  destruct (key =? k') eqn:E; simpl; [reflexivity|].
  rewrite IH. now destruct (existsb (Z.eqb key) (keys o)).
Qed.

End DictFacts.

Section WindowFacts.
Import JS ProfileCalendar Days.

Variable tz : Z.
Variable now : Z.

Lemma today_eq : today tz now = Some (midnight tz (todayDay tz now)).
Proof. reflexivity. Qed.

Lemma addDays_midnight (n day : Z) :
  addDays n (Some (midnight tz day)) = Some (midnight tz (day + n)).
Proof. unfold addDays, midnight. simpl. f_equal. lia. Qed.

Lemma getDay_midnight (day : Z) :
  getDay tz (Some (midnight tz day)) = Some ((day + 4) mod 7).
Proof. unfold getDay. simpl. now rewrite localDay_midnight. Qed.

(** The alignment loop leaves at a Sunday within the fuel given. *)
Lemma alignToSunday_midnight (fuel : nat) (day : Z) :
  (day + 4) mod 7 < Z.of_nat fuel ->
  alignToSunday tz fuel (Some (midnight tz day))
  = Some (midnight tz (day - (day + 4) mod 7)).
Proof.
  revert day. induction fuel as [|fuel IH]; intros day Hfuel.
  - pose proof (Z.mod_pos_bound (day + 4) 7 ltac:(lia)). lia.
  - cbn [alignToSunday]. rewrite getDay_midnight.
    pose proof (Z.mod_pos_bound (day + 4) 7 ltac:(lia)) as Hb.
    destruct ((day + 4) mod 7) as [|p|p] eqn:E.
    + f_equal. f_equal. lia.
    + rewrite addDays_midnight.
      assert (Hm : (day + -1 + 4) mod 7 = Z.pos p - 1).
      { replace (day + -1 + 4) with (day + 4 - 1) by lia.
        rewrite Zminus_mod, E.
        replace (1 mod 7) with 1 by reflexivity.
        rewrite Z.mod_small; lia. }
      rewrite IH by lia. rewrite Hm. f_equal. f_equal. lia.
    + lia.
Qed.

Lemma startOfRange_eq :
  startOfRange tz now = Some (midnight tz (startDay tz now)).
Proof.
  unfold startOfRange. rewrite today_eq, addDays_midnight.
  rewrite alignToSunday_midnight.
  - unfold startDay. repeat f_equal; lia.
  - pose proof (Z.mod_pos_bound (todayDay tz now + -364 + 4) 7 ltac:(lia)).
    simpl Z.of_nat. lia.
Qed.

(** The loop has left because its test failed: the start is a Sunday. *)
Lemma startOfRange_sunday : getDay tz (startOfRange tz now) = Some 0.
Proof.
  rewrite startOfRange_eq, getDay_midnight. f_equal.
  unfold startDay. cbv zeta.
  set (d := todayDay tz now - 364).
  replace (d - (d + 4) mod 7 + 4) with (d + 4 - (d + 4) mod 7) by lia.
  rewrite Zminus_mod, Z.mod_mod by lia.
  rewrite Z.sub_diag. reflexivity.
Qed.

Lemma startDay_bounds :
  todayDay tz now - 370 <= startDay tz now <= todayDay tz now - 364.
Proof.
  unfold startDay. cbv zeta.
  pose proof (Z.mod_pos_bound (todayDay tz now - 364 + 4) 7 ltac:(lia)). lia.
Qed.

Lemma countQuestion_eq (activity : Dict) (q : Question) :
  countQuestion tz now activity q = Ok (countDay tz now activity q).
Proof.
  unfold countQuestion, countDay, inWindow, activityDay.
  destruct (dateSource q) as [[t|]|]; try reflexivity.
  rewrite startOfRange_eq, today_eq. cbn [setHours0 option_map geb leb].
  replace (midnight tz (startDay tz now) <=? midnight tz (localDay tz t))
    with (startDay tz now <=? localDay tz t).
  2:{ apply eq_true_iff_eq. rewrite !Z.leb_le. symmetry. apply midnight_le. }
  replace (midnight tz (localDay tz t) <=? midnight tz (todayDay tz now))
    with (localDay tz t <=? todayDay tz now).
  2:{ apply eq_true_iff_eq. rewrite !Z.leb_le. symmetry. apply midnight_le. }
  destruct ((startDay tz now <=? localDay tz t)
            && (localDay tz t <=? todayDay tz now)); [|reflexivity].
  unfold toKey, toISODate. cbn [bind].
  now rewrite key_of_midnight.
Qed.

Lemma forEach_countQuestion (questions : list Question) (activity : Dict) :
  forEach (countQuestion tz now) activity questions
  = Ok (fold_left (countDay tz now) questions activity).
Proof.
  revert activity. induction questions as [|q qs IH]; intros activity.
  - reflexivity.
  - cbn [forEach fold_left]. rewrite countQuestion_eq. cbn [bind]. apply IH.
Qed.

(** Building [activity] never throws. *)
Lemma activity_eq (questions : list Question) :
  activity tz now questions = Ok (tally tz now questions).
Proof. apply forEach_countQuestion. Qed.

(** Records outside the window leave [activity] as it is. *)
Lemma fold_countDay_filter (keep : Question -> bool)
  (questions : list Question) (activity : Dict) :
  (forall q, keep q = false -> inWindow tz now q = false) ->
  fold_left (countDay tz now) (filter keep questions) activity
  = fold_left (countDay tz now) questions activity.
Proof.
  intros Hkeep. revert activity.
  induction questions as [|q qs IH]; intros activity; [reflexivity|].
  cbn [filter fold_left]. destruct (keep q) eqn:E.
  - cbn [fold_left]. apply IH.
  - rewrite IH. f_equal. unfold countDay. now rewrite (Hkeep q E).
Qed.

Lemma tally_filter (keep : Question -> bool) (questions : list Question) :
  (forall q, keep q = false -> inWindow tz now q = false) ->
  tally tz now (filter keep questions) = tally tz now questions.
Proof. intros H. now apply fold_countDay_filter. Qed.

End WindowFacts.

(* ================================================================== *)
(** * From dates to day numbers *)
(* ================================================================== *)

Section DistinctFacts.
Import JS Days.

Lemma filter_map_comm {A B} (f : A -> B) (p : B -> bool) (xs : list A) :
  filter p (map f xs) = map f (filter (fun x => p (f x)) xs).
Proof.
  induction xs as [|x xs IH]; simpl; [reflexivity|].
  rewrite IH. now destruct (p (f x)).
Qed.

Lemma distinct_DayString (days : list Z) :
  distinct (map DayString days) = map DayString (dedup days).
Proof.
  induction days as [|d rest IH]; simpl; [reflexivity|].
  rewrite IH, filter_map_comm. reflexivity.
Qed.

Lemma dedup_In (days : list Z) (d : Z) : In d (dedup days) <-> In d days.
Proof.
  induction days as [|e rest IH]; simpl; [tauto|].
  rewrite filter_In, IH, negb_true_iff, Z.eqb_neq.
  destruct (Z.eq_dec e d); intuition congruence.
Qed.

Lemma StronglySorted_filter {A} (R : A -> A -> Prop) (p : A -> bool)
  (xs : list A) :
  StronglySorted R xs -> StronglySorted R (filter p xs).
Proof.
  induction 1 as [|x xs Hs IH Hall]; simpl; [constructor|].
  destruct (p x); [|assumption].
  constructor; [assumption|].
  rewrite Forall_forall in *. intros y Hy.
  apply filter_In in Hy. now apply Hall.
Qed.

Lemma dedup_strict (days : list Z) :
  StronglySorted Z.ge days -> StronglySorted Z.gt (dedup days).
Proof.
  induction 1 as [|d rest Hs IH Hall]; simpl; [constructor|].
  constructor; [now apply StronglySorted_filter|].
  rewrite Forall_forall in *. intros e He.
  apply filter_In in He. destruct He as [He Hne].
  apply (proj1 (dedup_In _ _)) in He. specialize (Hall e He).
  apply negb_true_iff, Z.eqb_neq in Hne. lia.
Qed.

Lemma StronglySorted_map_ge (f : Z -> Z) (xs : list Z) :
  (forall x y, x >= y -> f x >= f y) ->
  StronglySorted Z.ge xs -> StronglySorted Z.ge (map f xs).
Proof.
  intros Hf. induction 1 as [|x xs Hs IH Hall]; simpl; constructor;
    [assumption|].
  rewrite Forall_forall in *. intros y Hy.
  apply in_map_iff in Hy. destruct Hy as (z & <- & Hz).
  apply Hf. now apply Hall.
Qed.

(** Sorting the days a monotone map gives, then dropping repetitions,
    is the descending list of the distinct days. *)
Lemma dedup_sorted_descending (f : Z -> Z) (xs : list Z) :
  (forall x y, x >= y -> f x >= f y) ->
  dedup (map f (sort Spec.desc xs)) = Spec.descending (map f xs).
Proof.
  intros Hf. apply strict_unique.
  - apply dedup_strict, StronglySorted_map_ge; [assumption|apply sort_sorted].
  - apply descending_strict.
  - intros d. rewrite dedup_In, descending_In, !in_map_iff.
    split; intros (x & Hx & Hin); exists x; (split; [assumption|]);
      now apply sort_In.
Qed.

Lemma sort_valid (ts : list Z) :
  sort byTimeDesc (map Some ts) = map Some (sort Spec.desc ts).
Proof. apply sort_map. reflexivity. Qed.

End DistinctFacts.

Section LoopFacts.
Import JS Days.

Variable tz : Z.
Variable now : Z.

Lemma currentStreakLoop_days (days : list Z) (i c : Z) :
  ProfileCalendar.currentStreakLoop tz (ProfileCalendar.today tz now)
    (map (midnightOf tz) days) i c
  = c + countBack (todayDay tz now - i) days.
Proof.
  revert i c. induction days as [|d rest IH]; intros i c;
    cbn [map ProfileCalendar.currentStreakLoop countBack]; [lia|].
  unfold midnightOf at 1. rewrite today_eq, addDays_midnight.
  cbn [toDateString]. rewrite !localDay_midnight. cbn [DateString_eqb].
  replace (todayDay tz now + - i) with (todayDay tz now - i) by lia.
  destruct (d =? todayDay tz now - i); [|lia].
  rewrite <- today_eq, IH.
  replace (todayDay tz now - (i + 1)) with (todayDay tz now - i - 1) by lia.
  lia.
Qed.

Lemma diffDays_midnight (a b : Z) :
  ProfileCalendar.diffDays (Some (midnight tz a)) (Some (midnight tz b))
  = Some (a - b).
Proof.
  unfold ProfileCalendar.diffDays, getTime, midnight. f_equal.
  replace (2 * (a * msPerDay - tz - (b * msPerDay - tz)) + msPerDay)
    with (msPerDay + (a - b) * (2 * msPerDay)) by lia.
  rewrite Z.div_add by discriminate.
  rewrite Z.div_small by (unfold msPerDay; lia). lia.
Qed.

Lemma longestStreakLoop_days (prev : Z) (rest : list Z) (longest temp : Z) :
  ProfileCalendar.longestStreakLoop (Some (midnight tz prev))
    (map (midnightOf tz) rest) longest temp
  = scan prev rest longest temp.
Proof.
  revert prev longest temp.
  induction rest as [|d rest IH]; intros prev longest temp;
    cbn [map ProfileCalendar.longestStreakLoop scan]; [reflexivity|].
  unfold midnightOf at 1. rewrite diffDays_midnight. cbn [ProfileCalendar.isOne].
  destruct (prev - d =? 1); apply IH.
Qed.

(** [uniqueDates] holds the local midnights of the distinct active
    days, latest first. *)
Lemma uniqueDates_eq (activity : Dict) :
  ProfileCalendar.uniqueDates tz (ProfileCalendar.activeDates activity)
  = map (midnightOf tz) (Spec.descending (activeDays tz activity)).
Proof.
  unfold ProfileCalendar.uniqueDates, ProfileCalendar.activeDates, activeDays.
  unfold ofISODate. rewrite <- (map_map (fun k => k * msPerDay) Some).
  rewrite sort_valid.
  assert (Hsort : sort Spec.desc (map (fun k => k * msPerDay) (keys activity))
                  = map (fun k => k * msPerDay) (sort Spec.desc (keys activity))).
  { apply sort_map. intros x y. unfold sortCompare, Spec.desc. simpl.
    apply eq_true_iff_eq. rewrite !Z.leb_le. pose proof msPerDay_pos. nia. }
  rewrite Hsort, !map_map.
  rewrite (map_ext _ (fun k => DayString (dayOfKey tz k))).
  2:{ intros k. cbn [toDateString]. now rewrite localDay_of_key. }
  rewrite <- (map_map (dayOfKey tz) DayString), distinct_DayString.
  rewrite dedup_sorted_descending by (intros x y; unfold dayOfKey; lia).
  rewrite map_map. reflexivity.
Qed.

(** The two streaks of the calendar page are those of the
    specification on the active days, as long as no active day is
    after today. *)
Lemma streaks_eq (activity : Dict) :
  Forall (fun d => d <= todayDay tz now) (activeDays tz activity) ->
  ProfileCalendar.streaks tz now (ProfileCalendar.activeDates activity)
  = (Spec.currentStreak (activeDays tz activity) (todayDay tz now),
     Spec.longestStreak (activeDays tz activity)).
Proof.
  intros Hle. unfold ProfileCalendar.streaks.
  destruct (ProfileCalendar.activeDates activity) as [|a rest] eqn:Ea.
  - assert (keys activity = []) as Hk.
    { unfold ProfileCalendar.activeDates in Ea.
      destruct (keys activity) as [|k ks]; [reflexivity|].
      exfalso. cbn [map] in Ea.
      assert (Hlen : length (sort byTimeDesc (ofISODate k :: map ofISODate ks))
                     = S (length ks)).
      { unfold ofISODate.
        change (Some (k * msPerDay) :: map (fun key => Some (key * msPerDay)) ks)
          with (map (fun key => Some (key * msPerDay)) (k :: ks)).
        rewrite <- (map_map (fun k => k * msPerDay) Some), sort_valid.
        rewrite length_map, (Permutation_length (sort_perm _ _)), length_map.
        reflexivity. }
      rewrite Ea in Hlen. discriminate. }
    unfold activeDays. rewrite Hk. reflexivity.
  - rewrite <- Ea, uniqueDates_eq.
    set (days := Spec.descending (activeDays tz activity)).
    rewrite currentStreakLoop_days, Z.sub_0_r, Z.add_0_l.
    assert (Hcur : countBack (todayDay tz now) days
                   = Spec.currentStreak (activeDays tz activity) (todayDay tz now)).
    { apply countBack_walk.
      - apply descending_strict.
      - rewrite Forall_forall in *. intros d Hd.
        apply Hle. now apply descending_In.
      - intros d. apply descending_In. }
    rewrite Hcur.
    pose proof (scan_longest (activeDays tz activity)) as Hlong.
    fold days in Hlong.
    destruct days as [|d ds] eqn:Ed.
    + exfalso.
      assert (In (dayOfKey tz (hd 0 (keys activity))) days) as Hin.
      { apply descending_In. unfold activeDays.
        destruct (keys activity) as [|k ks] eqn:Ek.
        - unfold ProfileCalendar.activeDates in Ea. rewrite Ek in Ea.
          discriminate.
        - now left. }
      rewrite Ed in Hin. contradiction.
    + cbn [map]. unfold midnightOf at 1. rewrite longestStreakLoop_days.
      destruct (scan d ds 0 1) as [l t]. cbn [fst snd] in Hlong.
      now rewrite Hlong.
Qed.

End LoopFacts.

(* ================================================================== *)
(** * The calendar page: what [activity] holds *)
(* ================================================================== *)

Section TallyFacts.
Import JS Days.

Variable tz : Z.
Variable now : Z.

Lemma inWindow_countsOn (q : Question) :
  inWindow tz now q = true <-> exists d, countsOn tz now d q.
Proof.
  unfold inWindow, countsOn. destruct (activityDay tz q) as [d|].
  - rewrite andb_true_iff, !Z.leb_le. split.
    + intros H. now exists d.
    + intros (d' & E & H). now inversion E; subst.
  - split; [discriminate|]. intros (d & E & _). discriminate.
Qed.

Lemma countDay_countsOn (activity : Dict) (q : Question) (d : Z) :
  countsOn tz now d q ->
  countDay tz now activity q
  = set (keyOfDay tz d) (orZero (get (keyOfDay tz d) activity) + 1) activity.
Proof.
  intros Hc. unfold countDay.
  rewrite (proj2 (inWindow_countsOn q)) by now exists d.
  destruct Hc as [-> _]. reflexivity.
Qed.

Lemma countDay_outside (activity : Dict) (q : Question) :
  inWindow tz now q = false -> countDay tz now activity q = activity.
Proof. intros H. unfold countDay. now rewrite H. Qed.

Lemma keys_fold (questions : list Question) (activity : Dict) (k : Z) :
  In k (keys (fold_left (countDay tz now) questions activity)) <->
  In k (keys activity) \/
  exists q d, In q questions /\ countsOn tz now d q /\ k = keyOfDay tz d.
Proof.
  revert activity. induction questions as [|q qs IH]; intros activity.
  - simpl. split; [tauto|]. intros [H|(q & d & [] & _)]. assumption.
  - cbn [fold_left]. rewrite IH.
    destruct (inWindow tz now q) eqn:E.
    + destruct (proj1 (inWindow_countsOn q) E) as (d & Hd).
      rewrite (countDay_countsOn _ _ _ Hd), keys_set_In.
      split.
      * intros [[->|H]|(q' & d' & Hq & Hc & Hk)].
        -- right. exists q, d. simpl. tauto.
        -- now left.
        -- right. exists q', d'. simpl. tauto.
      * intros [H|(q' & d' & [<-|Hq] & Hc & Hk)].
        -- tauto.
        -- left. left. destruct Hd as [Hd _], Hc as [Hc _]. congruence.
        -- right. exists q', d'. tauto.
    + rewrite countDay_outside by assumption. split.
      * intros [H|(q' & d' & Hq & Hc & Hk)]; [now left|].
        right. exists q', d'. simpl. tauto.
      * intros [H|(q' & d' & [<-|Hq] & Hc & Hk)]; [now left| |].
        -- assert (inWindow tz now q = true)
             by (apply inWindow_countsOn; now exists d').
           congruence.
        -- right. exists q', d'. tauto.
Qed.

Lemma keys_tally (questions : list Question) (k : Z) :
  In k (keys (tally tz now questions)) <->
  exists q d, In q questions /\ countsOn tz now d q /\ k = keyOfDay tz d.
Proof.
  unfold tally. rewrite keys_fold. simpl. tauto.
Qed.

Lemma keys_fold_NoDup (questions : list Question) (activity : Dict) :
  NoDup (keys activity) ->
  NoDup (keys (fold_left (countDay tz now) questions activity)).
Proof.
  revert activity. induction questions as [|q qs IH]; intros activity Hnd;
    [assumption|].
  cbn [fold_left]. apply IH. unfold countDay.
  destruct (inWindow tz now q); [|assumption].
  destruct (activityDay tz q); [|assumption].
  now apply keys_set_NoDup.
Qed.

Lemma keys_tally_NoDup (questions : list Question) :
  NoDup (keys (tally tz now questions)).
Proof. apply keys_fold_NoDup. constructor. Qed.

Lemma dayOfKey_keyOfDay (d : Z) :
  dayOfKey tz (keyOfDay tz d) = d + keyShift tz.
Proof. unfold dayOfKey, keyOfDay, keyShift. lia. Qed.

Lemma keyShift_nonpos : keyShift tz <= 0.
Proof. destruct (keyShift_cases tz) as [[_ ->]|[_ ->]]; lia. Qed.

(** The active days of the streak loops are the activity days of the
    records inside the window, moved by [keyShift]. *)
Lemma activeDays_tally (questions : list Question) (x : Z) :
  In x (activeDays tz (tally tz now questions)) <->
  exists q d, In q questions /\ countsOn tz now d q /\ x = d + keyShift tz.
Proof.
  unfold activeDays. rewrite in_map_iff. split.
  - intros (k & <- & Hk). apply keys_tally in Hk.
    destruct Hk as (q & d & Hq & Hc & ->).
    exists q, d. now rewrite dayOfKey_keyOfDay.
  - intros (q & d & Hq & Hc & ->). exists (keyOfDay tz d).
    split; [apply dayOfKey_keyOfDay|].
    apply keys_tally. now exists q, d.
Qed.

(** No active day is after today. *)
Lemma activeDays_le_today (questions : list Question) :
  Forall (fun d => d <= todayDay tz now)
    (activeDays tz (tally tz now questions)).
Proof.
  rewrite Forall_forall. intros x Hx.
  apply activeDays_tally in Hx. destruct Hx as (q & d & _ & [_ Hd] & ->).
  pose proof keyShift_nonpos. lia.
Qed.

(** The count stored under the key of a day. *)
Lemma get_fold (questions : list Question) (activity : Dict) (d : Z) :
  orZero (get (keyOfDay tz d)
            (fold_left (countDay tz now) questions activity))
  = orZero (get (keyOfDay tz d) activity)
    + Z.of_nat (length (filter (fun q => inWindow tz now q) 
                  (filter (fun q => match activityDay tz q with
                                    | Some e => e =? d
                                    | None => false
                                    end) questions))).
Proof.
  revert activity. induction questions as [|q qs IH]; intros activity.
  - simpl. lia.
  - cbn [fold_left filter]. rewrite IH. clear IH.
    unfold countDay, inWindow.
    destruct (activityDay tz q) as [e|] eqn:Ea; cbn [filter].
    2:{ reflexivity. }
    destruct (e =? d) eqn:Eed.
    + apply Z.eqb_eq in Eed. subst e. cbn [filter]. rewrite Ea.
      destruct ((startDay tz now <=? d) && (d <=? todayDay tz now)).
      * rewrite get_set, Z.eqb_refl. cbn [orZero length].
        rewrite Nat2Z.inj_succ. lia.
      * reflexivity.
    + destruct ((startDay tz now <=? e) && (e <=? todayDay tz now));
        [|reflexivity].
      rewrite get_set.
      replace (keyOfDay tz d =? keyOfDay tz e) with false; [reflexivity|].
      symmetry. apply Z.eqb_neq. apply Z.eqb_neq in Eed.
      unfold keyOfDay. lia.
Qed.

Lemma get_tally (questions : list Question) (d : Z) :
  orZero (get (keyOfDay tz d) (tally tz now questions))
  = if (startDay tz now <=? d) && (d <=? todayDay tz now)
    then recordsOn tz d questions else 0.
Proof.
  unfold tally. rewrite get_fold. cbn [get orZero]. unfold recordsOn.
  set (on := filter _ questions).
  assert (Hon : forall q, In q on -> activityDay tz q = Some d).
  { intros q Hq. apply filter_In in Hq. destruct Hq as [_ Hq].
    destruct (activityDay tz q) as [e|]; [|discriminate].
    apply Z.eqb_eq in Hq. now subst. }
  clearbody on.
  destruct ((startDay tz now <=? d) && (d <=? todayDay tz now)) eqn:E.
  - replace (filter (fun q => inWindow tz now q) on) with on; [lia|].
    symmetry. apply forallb_filter_id. apply forallb_forall.
    intros q Hq. unfold inWindow. now rewrite (Hon q Hq).
  - replace (filter (fun q => inWindow tz now q) on) with (@nil Question);
      [reflexivity|].
    symmetry. induction on as [|q on IH]; [reflexivity|].
    cbn [filter]. unfold inWindow at 1. rewrite (Hon q (or_introl eq_refl)), E.
    apply IH. intros q' Hq'. apply Hon. now right.
Qed.

End TallyFacts.

(* ================================================================== *)
(** * The calendar page: [fetchStats] *)
(* ================================================================== *)

Section CalendarStats.
Import JS Days.

Variable tz : Z.
Variable now : Z.

(** [fetchStats] never reaches its [catch] branch, and its streaks are
    those of the specification on the active days. *)
Lemma fetchStats_eq (questions : list Question) :
  ProfileCalendar.fetchStats tz now questions
  = Ok {| ProfileCalendar.stats :=
            {| ProfileCalendar.total := Z.of_nat (length questions);
               ProfileCalendar.completed :=
                 Z.of_nat (length (filter isCompleted questions));
               ProfileCalendar.completionRate :=
                 ProfileCalendar.rate (Z.of_nat (length questions))
                   (Z.of_nat (length (filter isCompleted questions)));
               ProfileCalendar.currentStreak :=
                 Spec.currentStreak (activeDays tz (tally tz now questions))
                   (todayDay tz now);
               ProfileCalendar.longestStreak :=
                 Spec.longestStreak (activeDays tz (tally tz now questions)) |};
          ProfileCalendar.yearDays := ProfileCalendar.days tz now;
          ProfileCalendar.activityMap := tally tz now questions |}.
Proof.
  unfold ProfileCalendar.fetchStats.
  rewrite activity_eq. cbn [bind].
  rewrite streaks_eq by apply activeDays_le_today.
  reflexivity.
Qed.

Lemma fetchStats_Ok (questions : list Question) :
  exists view, ProfileCalendar.fetchStats tz now questions = Ok view.
Proof. eexists. apply fetchStats_eq. Qed.

(** No record with today as its activity day: no current streak, in
    every zone. *)
Lemma currentStreak_needs_today (questions : list Question) (view : ProfileCalendar.View) :
  ProfileCalendar.fetchStats tz now questions = Ok view ->
  (forall q, In q questions -> activityDay tz q <> Some (todayDay tz now)) ->
  ProfileCalendar.currentStreak (ProfileCalendar.stats view) = 0.
Proof.
  rewrite fetchStats_eq. intros [= <-] Hnone. cbn.
  apply currentStreak_inactive. intros Hin.
  apply activeDays_tally in Hin.
  destruct Hin as (q & d & Hq & [Hd Hw] & Hx).
  pose proof (keyShift_nonpos tz).
  apply (Hnone q Hq). rewrite Hd. f_equal. lia.
Qed.

(** In a zone whose offset is not a whole number of days every active
    day lies before today, and the current streak is 0. *)
Lemma currentStreak_off_utc (questions : list Question) (view : ProfileCalendar.View) :
  tz mod msPerDay <> 0 ->
  ProfileCalendar.fetchStats tz now questions = Ok view ->
  ProfileCalendar.currentStreak (ProfileCalendar.stats view) = 0.
Proof.
  intros Htz. rewrite fetchStats_eq. intros [= <-]. cbn.
  apply currentStreak_inactive. intros Hin.
  apply activeDays_tally in Hin.
  destruct Hin as (q & d & Hq & [Hd Hw] & Hx).
  destruct (keyShift_cases tz) as [[H0 _]|[_ Hs]]; [contradiction|]. lia.
Qed.

End CalendarStats.

(** The current streak of the calendar page is the walk back from today
    over the active days the page derives from [activity]: the run of
    those days that ends today, and 0 when today is not one of them. *)
Lemma currentStreak_walks_active_days (tz now : Z) (questions : list Question) :
  exists view,
    ProfileCalendar.fetchStats tz now questions = JS.Ok view /\
    let active := Days.activeDays tz (ProfileCalendar.activityMap view) in
    let today := Days.todayDay tz now in
    let streak := ProfileCalendar.currentStreak (ProfileCalendar.stats view) in
    streak = Spec.currentStreak active today /\
    Spec.isStreak active today streak /\
    (~ In today active -> streak = 0).
Proof.
  eexists. split; [apply fetchStats_eq|]. cbn.
  split; [reflexivity|]. split.
  - apply currentStreak_isStreak.
  - apply currentStreak_inactive.
Qed.

(** The longest streak of the calendar page is the longest run among
    the active days the page derives from [activity]. *)
Lemma longestStreak_active_days (tz now : Z) (questions : list Question) :
  exists view,
    ProfileCalendar.fetchStats tz now questions = JS.Ok view /\
    let active := Days.activeDays tz (ProfileCalendar.activityMap view) in
    ProfileCalendar.longestStreak (ProfileCalendar.stats view)
    = Spec.longestStreak active /\
    Spec.longestStreak [] = 0 /\
    (forall d, Spec.longestStreak [d] = 1).
Proof.
  eexists. split; [apply fetchStats_eq|]. cbn.
  split; [reflexivity|]. split; [reflexivity|].
  intros d. unfold Spec.longestStreak, Spec.descending. simpl.
  destruct (Z.max 1 0) eqn:E; lia.
Qed.

(* ================================================================== *)
(** * The Dashboard: the streak *)
(* ================================================================== *)

Section DashboardFacts.
Import JS Days.

Variable tz : Z.
Variable now : Z.

Lemma has_DayString (strs : list DateString) (d : Z) :
  has strs (DayString d) = existsb (Z.eqb d) (daysOf strs).
Proof.
  unfold has. induction strs as [|s strs IH]; simpl; [reflexivity|].
  rewrite IH. destruct s as [|e]; simpl; [reflexivity|].
  now destruct (d =? e).
Qed.

Lemma daysOf_In (strs : list DateString) (d : Z) :
  In d (daysOf strs) <-> In (DayString d) strs.
Proof.
  unfold daysOf. rewrite in_flat_map. split.
  - intros ([|e] & Hin & Hd); simpl in Hd; [contradiction|].
    destruct Hd as [<-|[]]. assumption.
  - intros Hin. exists (DayString d). split; [assumption|now left].
Qed.

Lemma distinct_In (strs : list DateString) (s : DateString) :
  In s (distinct strs) <-> In s strs.
Proof.
  induction strs as [|x strs IH]; simpl; [tauto|].
  rewrite filter_In, IH, negb_true_iff.
  destruct (DateString_eqb x s) eqn:E.
  - apply DateString_eqb_eq in E. subst. intuition congruence.
  - assert (x <> s) by (intros ->; now rewrite DateString_eqb_refl in E).
    intuition congruence.
Qed.

Lemma daysOf_toDateString (dates : list Date) :
  daysOf (map (toDateString tz) dates) = solvedDays tz dates.
Proof.
  unfold daysOf, solvedDays.
  induction dates as [|[t|] dates IH]; simpl; [reflexivity| |];
    now rewrite IH.
Qed.

Lemma uniqueDates_days (dates : list Date) (d : Z) :
  In d (daysOf (Dashboard.uniqueDates tz dates)) <-> In d (solvedDays tz dates).
Proof.
  unfold Dashboard.uniqueDates.
  rewrite daysOf_In, distinct_In, <- daysOf_In, daysOf_toDateString.
  reflexivity.
Qed.

Lemma length_daysOf (strs : list DateString) :
  (length (daysOf strs) <= length strs)%nat.
Proof.
  induction strs as [|[|d] strs IH]; simpl; lia.
Qed.

Lemma streakLoop_walk (fuel : nat) (strs : list DateString) (d streak : Z) :
  Dashboard.streakLoop tz fuel strs (Some (midnight tz d)) streak
  = streak + Spec.walkBack fuel (daysOf strs) d.
Proof.
  revert d streak. induction fuel as [|fuel IH]; intros d streak;
    cbn [Dashboard.streakLoop Spec.walkBack]; [lia|].
  cbn [toDateString]. rewrite localDay_midnight, has_DayString.
  destruct (existsb (Z.eqb d) (daysOf strs)); [|lia].
  rewrite addDays_midnight, IH.
  replace (d + -1) with (d - 1) by lia. lia.
Qed.

(** The loop leaves at a gap: the streak of the Dashboard is the walk
    back from today over the days of the valid dates.  The test for
    "today or yesterday" does not change it, because the walk starts at
    today in either case. *)
Lemma streakOf_walk (dates : list Date) :
  Dashboard.streakOf tz now dates
  = Spec.currentStreak (solvedDays tz dates) (todayDay tz now).
Proof.
  unfold Dashboard.streakOf. destruct dates as [|a rest] eqn:Ed.
  - reflexivity.
  - rewrite <- Ed. clear Ed a rest.
    set (set := Dashboard.uniqueDates tz dates).
    assert (Hwalk : Dashboard.streakLoop tz (length set) set
                      (Dashboard.today tz now) 0
                    = Spec.currentStreak (solvedDays tz dates) (todayDay tz now)).
    { unfold Dashboard.today. rewrite setHours0_today.
      fold (todayDay tz now). rewrite streakLoop_walk, Z.add_0_l.
      apply (isStreak_unique (solvedDays tz dates) (todayDay tz now)).
      - apply (isStreak_ext (daysOf set)); [apply uniqueDates_days|].
        apply walkBack_isStreak.
        etransitivity; [apply filter_length_le|apply length_daysOf].
      - apply currentStreak_isStreak. }
    destruct (has set (toDateString tz (Dashboard.today tz now))
              || has set (toDateString tz (Dashboard.yesterday tz now))) eqn:G.
    + exact Hwalk.
    + symmetry. apply currentStreak_inactive.
      apply orb_false_iff in G. destruct G as [G _].
      unfold Dashboard.today in G. rewrite setHours0_today in G.
      cbn [toDateString] in G. rewrite localDay_midnight, has_DayString in G.
      intros Hin. apply uniqueDates_days in Hin.
      apply existsb_eqb_In in Hin. fold set in Hin.
      unfold todayDay in Hin. congruence.
Qed.

Lemma solvedDays_perm (xs ys : list Date) :
  Permutation xs ys -> forall d, In d (solvedDays tz xs) <-> In d (solvedDays tz ys).
Proof.
  intros Hp d. unfold solvedDays. rewrite !in_flat_map.
  split; intros (x & Hx & Hd); exists x; (split; [|assumption]).
  - now apply (Permutation_in _ Hp).
  - now apply (Permutation_in _ (Permutation_sym Hp)).
Qed.

Lemma dashboard_streak (data : list Question) :
  Dashboard.streak (Dashboard.fetchStats tz now data)
  = Spec.currentStreak (solvedDays tz (lastSolved data)) (todayDay tz now).
Proof.
  cbn [Dashboard.fetchStats Dashboard.streak].
  rewrite streakOf_walk. apply currentStreak_ext.
  apply solvedDays_perm, sort_perm.
Qed.

(** Without activity today the Dashboard shows no streak, whatever
    happened yesterday. *)
Lemma dashboard_streak_needs_today (data : list Question) :
  ~ In (todayDay tz now) (solvedDays tz (lastSolved data)) ->
  Dashboard.streak (Dashboard.fetchStats tz now data) = 0.
Proof.
  intros H. rewrite dashboard_streak. now apply currentStreak_inactive.
Qed.

End DashboardFacts.

(* ================================================================== *)
(** * src/pages/Profile.tsx: the streaks *)
(* ================================================================== *)

Section ProfileFacts.
Import JS Days.

Variable tz : Z.
Variable now : Z.

Lemma profile_today : Profile.today tz now = Some (midnight tz (todayDay tz now)).
Proof. reflexivity. Qed.

(** The day the first loop expects at index [i]. *)
Lemma expectedDate_eq (i : Z) :
  toDateString tz (setHours0 tz (addDays (- i) (Profile.today tz now)))
  = DayString (todayDay tz now - i).
Proof.
  rewrite profile_today, addDays_midnight. cbn [setHours0 option_map toDateString].
  rewrite !localDay_midnight. f_equal; lia.
Qed.

Lemma withinOneDay_midnight (a b : Z) :
  Profile.withinOneDay (Some (midnight tz a)) (Some (midnight tz b))
  = (Z.abs (a - b) <=? 1).
Proof.
  unfold Profile.withinOneDay, getTime, midnight.
  apply eq_true_iff_eq. rewrite !Z.leb_le.
  replace (a * msPerDay - tz - (b * msPerDay - tz))
    with ((a - b) * msPerDay) by lia.
  pose proof msPerDay_pos. rewrite Z.abs_mul, (Z.abs_eq msPerDay) by lia.
  nia.
Qed.

(** ** The second loop never counts less than the first *)

Lemma longestStreakLoop_mono (prev : Date) (rest : list Date) (longest temp : Z) :
  1 <= temp ->
  Z.max longest 1
  <= Z.max (fst (Profile.longestStreakLoop prev rest longest temp))
           (snd (Profile.longestStreakLoop prev rest longest temp)).
Proof.
  revert prev longest temp.
  induction rest as [|u rest IH]; intros prev longest temp H1;
    cbn [Profile.longestStreakLoop].
  - cbn [fst snd]. lia.
  - destruct (Profile.withinOneDay prev u).
    + specialize (IH u (Z.max longest (temp + 1)) (temp + 1)). lia.
    + specialize (IH u longest 1). lia.
Qed.

Lemma currentStreakLoop_le (strs : list DateString) (i c t prev longest temp : Z) :
  1 <= temp -> temp <= Z.max longest 1 ->
  prev = todayDay tz now - (i - 1) ->
  fst (Profile.currentStreakLoop tz now (map (ofDateString tz) strs) i c t)
    - c + temp
  <= Z.max
       (fst (Profile.longestStreakLoop (Some (midnight tz prev))
               (map (ofDateString tz) strs) longest temp))
       (snd (Profile.longestStreakLoop (Some (midnight tz prev))
               (map (ofDateString tz) strs) longest temp)).
Proof.
  revert i c t prev longest temp.
  induction strs as [|s strs IH]; intros i c t prev longest temp H1 H2 Hprev;
    cbn [map Profile.currentStreakLoop Profile.longestStreakLoop].
  - cbn [fst snd]. lia.
  - rewrite expectedDate_eq, toDateString_ofDateString.
    destruct (DateString_eqb s (DayString (todayDay tz now - i))) eqn:E.
    + apply DateString_eqb_eq in E. subst s. cbn [ofDateString].
      rewrite withinOneDay_midnight.
      replace (Z.abs (prev - (todayDay tz now - i)) <=? 1) with true
        by (symmetry; apply Z.leb_le; lia).
      specialize (IH (i + 1) (c + 1) (t + 1) (todayDay tz now - i)
                    (Z.max longest (temp + 1)) (temp + 1)).
      lia.
    + cbn [fst].
      destruct (Profile.withinOneDay (Some (midnight tz prev)) (ofDateString tz s)).
      * pose proof (longestStreakLoop_mono (ofDateString tz s)
                      (map (ofDateString tz) strs)
                      (Z.max longest (temp + 1)) (temp + 1)). lia.
      * pose proof (longestStreakLoop_mono (ofDateString tz s)
                      (map (ofDateString tz) strs) longest 1). lia.
Qed.

(** For every array [solvedDates], valid dates or not, sorted or not. *)
Lemma profile_streaks_le (solvedDates : list Date) :
  fst (Profile.streaks tz now solvedDates) <= snd (Profile.streaks tz now solvedDates).
Proof.
  unfold Profile.streaks. destruct solvedDates as [|a rest] eqn:Ed.
  - cbn. lia.
  - rewrite <- Ed. clear Ed a rest. unfold Profile.uniqueDates.
    destruct (distinct (map (toDateString tz) solvedDates)) as [|s strs].
    + cbn. lia.
    + cbn [map Profile.currentStreakLoop].
      rewrite expectedDate_eq, toDateString_ofDateString.
      destruct (DateString_eqb s (DayString (todayDay tz now - 0))) eqn:E.
      * apply DateString_eqb_eq in E. subst s. cbn [ofDateString].
        pose proof (currentStreakLoop_le strs (0 + 1) (0 + 1) (0 + 1)
                      (todayDay tz now - 0) 0 1) as H.
        destruct (Profile.currentStreakLoop tz now _ _ _ _) as [cur tmp].
        destruct (Profile.longestStreakLoop _ _ _ _) as [lng tmp'].
        cbn [fst snd] in *. lia.
      * pose proof (longestStreakLoop_mono (ofDateString tz s)
                      (map (ofDateString tz) strs) 0 1) as H.
        destruct (Profile.longestStreakLoop _ _ _ _) as [lng tmp'].
        cbn [fst snd] in *. lia.
Qed.

(** ** The streaks when every date is valid *)

Lemma profile_currentStreakLoop_days (days : list Z) (i c t : Z) :
  fst (Profile.currentStreakLoop tz now (map (midnightOf tz) days) i c t)
  = c + countBack (todayDay tz now - i) days.
Proof.
  revert i c t. induction days as [|d rest IH]; intros i c t;
    cbn [map Profile.currentStreakLoop countBack]; [cbn; lia|].
  rewrite expectedDate_eq. unfold midnightOf at 1.
  cbn [toDateString]. rewrite localDay_midnight. cbn [DateString_eqb].
  destruct (d =? todayDay tz now - i); [|cbn; lia].
  rewrite IH.
  replace (todayDay tz now - (i + 1)) with (todayDay tz now - i - 1) by lia.
  lia.
Qed.

Lemma profile_longestStreakLoop_days (prev : Z) (rest : list Z) (longest temp : Z) :
  StronglySorted Z.gt (prev :: rest) ->
  Profile.longestStreakLoop (Some (midnight tz prev))
    (map (midnightOf tz) rest) longest temp
  = scan prev rest longest temp.
Proof.
  revert prev longest temp.
  induction rest as [|d rest IH]; intros prev longest temp Hs;
    cbn [map Profile.longestStreakLoop scan]; [reflexivity|].
  unfold midnightOf at 1. rewrite withinOneDay_midnight.
  inversion Hs as [|? ? Hs' Hall]; subst.
  inversion Hall as [|? ? Hd _]; subst.
  replace (Z.abs (prev - d) <=? 1) with (prev - d =? 1)
    by (apply eq_true_iff_eq; rewrite Z.leb_le, Z.eqb_eq; lia).
  destruct (prev - d =? 1); now apply IH.
Qed.

Lemma profile_uniqueDates_valid (times : list Z) :
  Profile.uniqueDates tz (sort byTimeDesc (map Some times))
  = map (midnightOf tz) (Spec.descending (map (localDay tz) times)).
Proof.
  unfold Profile.uniqueDates. rewrite sort_valid, map_map.
  cbn [toDateString].
  rewrite <- (map_map (localDay tz) DayString), distinct_DayString.
  rewrite dedup_sorted_descending.
  - now rewrite map_map.
  - intros x y Hxy. unfold localDay.
    apply Z.le_ge, Z.div_le_mono; [reflexivity|lia].
Qed.

Lemma solvedDays_valid (times : list Z) :
  solvedDays tz (map Some times) = map (localDay tz) times.
Proof.
  unfold solvedDays. induction times as [|t times IH]; simpl; [reflexivity|].
  now rewrite IH.
Qed.

(** With valid dates the first loop compares the i-th latest solved
    day with the day [i] days ago, and the longest streak is the
    longest run of the specification. *)
Lemma profile_streaks_valid (times : list Z) :
  let days := solvedDays tz (map Some times) in
  Profile.streaks tz now (sort byTimeDesc (map Some times))
  = (countBack (todayDay tz now) (Spec.descending days),
     Spec.longestStreak days).
Proof.
  cbv zeta. rewrite solvedDays_valid.
  unfold Profile.streaks.
  destruct (sort byTimeDesc (map Some times)) as [|a rest] eqn:Es.
  - assert (times = []) as ->.
    { destruct times as [|t ts]; [reflexivity|].
      apply (f_equal (@length Date)) in Es.
      rewrite (Permutation_length (sort_perm _ _)) in Es. discriminate. }
    reflexivity.
  - rewrite <- Es, profile_uniqueDates_valid.
    pose proof (scan_longest (map (localDay tz) times)) as Hlong.
    pose proof (descending_strict (map (localDay tz) times)) as Hstrict.
    set (days := Spec.descending (map (localDay tz) times)) in *.
    pose proof (profile_currentStreakLoop_days days 0 0 0) as Hcur.
    destruct (Profile.currentStreakLoop tz now _ 0 0 0) as [cur tmp].
    cbn [fst] in Hcur. rewrite Hcur, Z.sub_0_r, Z.add_0_l.
    destruct days as [|d ds] eqn:Ed.
    + exfalso.
      assert (In (localDay tz (hd 0 times)) days) as Hin.
      { apply descending_In. destruct times as [|t ts]; [|now left].
        simpl in Es. discriminate. }
      rewrite Ed in Hin. contradiction.
    + cbn [map]. unfold midnightOf at 1.
      rewrite profile_longestStreakLoop_days by assumption.
      destruct (scan d ds 0 1) as [l t]. cbn [fst snd] in Hlong.
      now rewrite Hlong.
Qed.

End ProfileFacts.

(* ================================================================== *)
(** * Longest against current streak *)
(* ================================================================== *)

Lemma spec_current_le_longest (active : list Z) (today : Z) :
  Forall (fun d => d <= today) active ->
  Spec.currentStreak active today <= Spec.longestStreak active.
Proof.
  intros Hle.
  rewrite <- (countBack_walk (Spec.descending active) active today).
  - rewrite <- scan_longest.
    destruct (Spec.descending active) as [|d ds]; [simpl; lia|].
    cbn [Days.countBack]. destruct (d =? today) eqn:E.
    + apply Z.eqb_eq in E. subst d.
      apply (countBack_le_scan today ds 0 1); lia.
    + rewrite scan_runs by lia. lia.
  - apply descending_strict.
  - rewrite Forall_forall in *. intros d Hd. apply Hle.
    now apply descending_In.
  - intros d. apply descending_In.
Qed.

(** At a fixed offset [tz], for every list of records and every clock
    reading, the longest streak is at least the current streak, on the Profile
    page with the calendar and on src/pages/Profile.tsx alike. *)
Lemma longest_streak_at_least_current_at_offset (tz now : Z) (questions : list Question) :
  (exists view,
     ProfileCalendar.fetchStats tz now questions = JS.Ok view /\
     ProfileCalendar.currentStreak (ProfileCalendar.stats view)
     <= ProfileCalendar.longestStreak (ProfileCalendar.stats view)) /\
  Profile.currentStreak (Profile.fetchStats tz now questions)
  <= Profile.longestStreak (Profile.fetchStats tz now questions).
Proof.
  split.
  - eexists. split; [apply fetchStats_eq|]. cbn.
    apply spec_current_le_longest, activeDays_le_today.
  - unfold Profile.fetchStats.
    pose proof (profile_streaks_le tz now (Profile.solvedDates questions)) as H.
    destruct (Profile.streaks tz now (Profile.solvedDates questions)) as [cur lng].
    exact H.
Qed.

(* ================================================================== *)
(** * The activity date of a record *)
(* ================================================================== *)

Lemma dateSource_activityDate (q : Question) :
  ProfileCalendar.dateSource q = Spec.activityDate q.
Proof.
  unfold ProfileCalendar.dateSource, Spec.activityDate, isCompleted.
  destruct (last_solved_at q); [reflexivity|].
  destruct (status q), (updated_at q); reflexivity.
Qed.

(** The callback at a fixed offset [tz].  On the Profile page with the
    calendar each record contributes
    at most one activity date: its [last_solved_at] when present,
    otherwise its [updated_at] when its status is Completed, otherwise
    none.  The callback of [forEach] either leaves [activity] as it is
    or adds one to the count of the day of that one date (which it
    does when the date is valid and its day lies in the window). *)
Lemma callback_counts_one_date (tz now : Z) (activity : JS.Dict)
  (q : Question) :
  ProfileCalendar.dateSource q = Spec.activityDate q /\
  ProfileCalendar.countQuestion tz now activity q
  = JS.Ok
      match Spec.activityDate q with
      | Some (Some t) =>
          let day := JS.localDay tz t in
          let key := Days.keyOfDay tz day in
          if (Days.startDay tz now <=? day) && (day <=? Days.todayDay tz now)
          then JS.set key (JS.orZero (JS.get key activity) + 1) activity
          else activity
      | _ => activity
      end.
Proof.
  split; [apply dateSource_activityDate|].
  rewrite countQuestion_eq. f_equal.
  unfold Days.countDay, Days.inWindow, Days.activityDay.
  rewrite dateSource_activityDate.
  destruct (Spec.activityDate q) as [[t|]|]; reflexivity.
Qed.

(** src/pages/Profile.tsx reads [last_solved_at] alone: a completed
    record without it contributes nothing there. *)
Lemma profile_ignores_updated_at (tz now t : Z) :
  Profile.solvedDates [Sample.completedAt t] = [] /\
  Profile.longestStreak (Profile.fetchStats tz now [Sample.completedAt t]) = 0.
Proof. split; reflexivity. Qed.

(* ================================================================== *)
(** * The calendar: the grid of days and the activity map *)
(* ================================================================== *)

Section GridFacts.
Import JS Days.

Variable tz : Z.
Variable now : Z.

Lemma days_eq :
  ProfileCalendar.days tz now
  = map (fun i => midnightOf tz (startDay tz now + Z.of_nat i))
      (seq 0 ProfileCalendar.totalDays).
Proof.
  unfold ProfileCalendar.days. apply map_ext. intros i.
  now rewrite startOfRange_eq, addDays_midnight.
Qed.

Lemma cellCount_tally (questions : list Question) (d : Z) :
  ProfileCalendar.cellCount (tally tz now questions) (midnightOf tz d)
  = Ok (if (startDay tz now <=? d) && (d <=? todayDay tz now)
        then recordsOn tz d questions else 0).
Proof.
  unfold ProfileCalendar.cellCount, midnightOf, toISODate. cbn [bind].
  rewrite key_of_midnight. fold (keyOfDay tz d). now rewrite get_tally.
Qed.

Lemma windowDays_In (questions : list Question) (d : Z) :
  In d (windowDays tz now questions) <->
  exists q, In q questions /\ countsOn tz now d q.
Proof.
  unfold windowDays. rewrite in_flat_map. split.
  - intros (q & Hq & Hd). exists q. split; [assumption|].
    destruct (inWindow tz now q) eqn:E; [|contradiction].
    apply inWindow_countsOn in E. destruct E as (e & He).
    destruct He as [Ha Hw]. rewrite Ha in Hd.
    destruct Hd as [<-|[]]. now split.
  - intros (q & Hq & Hc). exists q. split; [assumption|].
    rewrite (proj2 (inWindow_countsOn tz now q)) by now exists d.
    destruct Hc as [-> _]. now left.
Qed.

Lemma NoDup_map_keyOfDay (days : list Z) :
  NoDup days -> NoDup (map (keyOfDay tz) days).
Proof.
  induction 1 as [|d days Hnin Hnd IH]; simpl; constructor; [|assumption].
  rewrite in_map_iff. intros (e & He & Hin).
  unfold keyOfDay in He. assert (e = d) by lia. now subst.
Qed.

(** The map has one entry for every distinct active day of the window. *)
Lemma length_tally (questions : list Question) :
  length (tally tz now questions)
  = length (nodup Z.eq_dec (windowDays tz now questions)).
Proof.
  rewrite <- (length_map fst). fold (keys (tally tz now questions)).
  rewrite <- (length_map (keyOfDay tz) (nodup _ _)).
  apply Permutation_length, NoDup_Permutation.
  - apply keys_tally_NoDup.
  - apply NoDup_map_keyOfDay, NoDup_nodup.
  - intros k. rewrite keys_tally, in_map_iff. split.
    + intros (q & d & Hq & Hc & ->). exists d. split; [reflexivity|].
      apply nodup_In, windowDays_In. now exists q.
    + intros (d & <- & Hd). apply nodup_In, windowDays_In in Hd.
      destruct Hd as (q & Hq & Hc). now exists q, d.
Qed.

Lemma orZero_get_nonneg (k : Z) (o : Dict) :
  Forall (fun entry => 1 <= snd entry) o -> 0 <= orZero (get k o).
Proof.
  induction 1 as [|[k' v] o Hv Hall IH]; simpl; [lia|].
  destruct (k =? k'); simpl in *; lia.
Qed.

Lemma set_positive (k v : Z) (o : Dict) :
  1 <= v -> Forall (fun entry => 1 <= snd entry) o ->
  Forall (fun entry => 1 <= snd entry) (set k v o).
Proof.
  intros Hv. induction 1 as [|[k' w] o Hw Hall IH]; simpl.
  - now repeat constructor.
  - destruct (k =? k'); constructor; assumption.
Qed.

(** Every entry of the map counts at least one record. *)
Lemma tally_positive (questions : list Question) :
  Forall (fun entry => 1 <= snd entry) (tally tz now questions).
Proof.
  unfold tally. generalize (@nil (Z * Z)) (Forall_nil (fun e : Z * Z => 1 <= snd e)).
  induction questions as [|q qs IH]; intros o Ho; [assumption|].
  cbn [fold_left]. apply IH. unfold countDay.
  destruct (inWindow tz now q); [|assumption].
  destruct (activityDay tz q); [|assumption].
  apply set_positive; [|assumption].
  pose proof (orZero_get_nonneg (keyOfDay tz z) o Ho). lia.
Qed.

End GridFacts.

(** The grid and the activity map at a fixed offset [tz].  For every
    input the page emits a grid of
    53 * 7 = 371 consecutive days that starts on the Sunday on or
    before the day 364 days ago (hence contains today and ends on the
    Saturday on or after it), and the calendar shows one count per day
    of the grid: the number of records whose activity day it is, 0
    when the day is inactive or after today.  The activity map itself
    holds an entry, with a count of at least 1, only for the days of
    the window that are active: it has as many entries as there are
    distinct active days in the window. *)
Lemma calendar_grid_and_sparse_map_at_offset (tz now : Z) (questions : list Question) :
  exists view,
    ProfileCalendar.fetchStats tz now questions = JS.Ok view /\
    let start := Days.startDay tz now in
    let today := Days.todayDay tz now in
    ProfileCalendar.startOfRange tz now = Days.midnightOf tz start /\
    ProfileCalendar.today tz now = Days.midnightOf tz today /\
    ProfileCalendar.yearDays view
    = map (fun i => Days.midnightOf tz (start + Z.of_nat i)) (seq 0 371) /\
    JS.getDay tz (ProfileCalendar.startOfRange tz now) = Some 0 /\
    today - 370 <= start <= today - 364 /\
    map (ProfileCalendar.cellCount (ProfileCalendar.activityMap view))
      (ProfileCalendar.yearDays view)
    = map (fun i =>
             let day := start + Z.of_nat i in
             JS.Ok (if day <=? today
                    then Days.recordsOn tz day questions else 0))
        (seq 0 371) /\
    length (ProfileCalendar.activityMap view)
    = length (nodup Z.eq_dec (Days.windowDays tz now questions)) /\
    Forall (fun entry => 1 <= snd entry) (ProfileCalendar.activityMap view).
Proof.
  eexists. split; [apply fetchStats_eq|].
  cbn [ProfileCalendar.yearDays ProfileCalendar.activityMap]. cbv zeta.
  split; [apply startOfRange_eq|].
  split; [apply today_eq|].
  split; [apply days_eq|].
  split; [apply startOfRange_sunday|].
  split; [apply startDay_bounds|].
  split; [|split; [apply length_tally|apply tally_positive]].
  rewrite days_eq, map_map. apply map_ext. intros i.
  rewrite cellCount_tally.
  replace (Days.startDay tz now <=? Days.startDay tz now + Z.of_nat i)
    with true by (symmetry; apply Z.leb_le; lia).
  reflexivity.
Qed.

(** C6, as stated, fails: the activity map does not hold an entry per
    day of the window.  On Monday 2024-01-15 in UTC it is empty for a
    user without records and has one entry for a user with one record
    solved that day, while the grid has 371 days, not 365, and runs to
    the Saturday after today. *)
Lemma activity_map_not_dense :
  exists none one,
    ProfileCalendar.fetchStats Sample.utc (Sample.at_ Sample.utc Sample.monday 10) []
    = JS.Ok none /\
    ProfileCalendar.fetchStats Sample.utc (Sample.at_ Sample.utc Sample.monday 10)
      [Sample.solved (Sample.at_ Sample.utc Sample.monday 9)]
    = JS.Ok one /\
    ProfileCalendar.activityMap none = [] /\
    ProfileCalendar.activityMap one = [(Sample.monday, 1)] /\
    length (ProfileCalendar.yearDays none) = 371%nat /\
    last (ProfileCalendar.yearDays none) None
    = Days.midnightOf Sample.utc (Sample.monday + 5).
Proof.
  eexists. eexists. repeat split; vm_compute; reflexivity.
Qed.

(* ================================================================== *)
(** * Records that do not count *)
(* ================================================================== *)

Section SkippedRecords.
Import JS Days.

Variable tz : Z.
Variable now : Z.

Lemma wellDated_inWindow (q : Question) :
  wellDated tz q = false -> inWindow tz now q = false.
Proof.
  unfold wellDated, inWindow. now destruct (activityDay tz q).
Qed.

(** A record whose date is missing or malformed leaves [activity]
    untouched. *)
Lemma countQuestion_undated (activity : Dict) (q : Question) :
  wellDated tz q = false ->
  ProfileCalendar.countQuestion tz now activity q = Ok activity.
Proof.
  intros H. rewrite countQuestion_eq. f_equal.
  apply countDay_outside. now apply wellDated_inWindow.
Qed.

(** The view depends on the records through [tally], their number and
    the number of completed ones. *)
Lemma fetchStats_same_tally (a b : list Question) :
  tally tz now a = tally tz now b ->
  exists va vb,
    ProfileCalendar.fetchStats tz now a = Ok va /\
    ProfileCalendar.fetchStats tz now b = Ok vb /\
    ProfileCalendar.activityMap va = ProfileCalendar.activityMap vb /\
    ProfileCalendar.yearDays va = ProfileCalendar.yearDays vb /\
    ProfileCalendar.currentStreak (ProfileCalendar.stats va)
    = ProfileCalendar.currentStreak (ProfileCalendar.stats vb) /\
    ProfileCalendar.longestStreak (ProfileCalendar.stats va)
    = ProfileCalendar.longestStreak (ProfileCalendar.stats vb).
Proof.
  intros Heq. eexists. eexists.
  split; [apply fetchStats_eq|]. split; [apply fetchStats_eq|].
  cbn [ProfileCalendar.activityMap ProfileCalendar.yearDays
       ProfileCalendar.stats ProfileCalendar.currentStreak
       ProfileCalendar.longestStreak].
  rewrite Heq. repeat split; reflexivity.
Qed.

End SkippedRecords.

(** On the Profile page with the calendar, at a fixed offset [tz],
    records whose date
    fields are missing or malformed are left out of the activity
    computation without an error: for every input [fetchStats]
    completes, and the activity map, the grid and both streaks are
    those computed from the records with a well-formed activity date
    alone. *)
Lemma undated_records_are_skipped_on_calendar (tz now : Z) (questions : list Question) :
  exists view clean,
    ProfileCalendar.fetchStats tz now questions = JS.Ok view /\
    ProfileCalendar.fetchStats tz now (filter (Days.wellDated tz) questions)
    = JS.Ok clean /\
    ProfileCalendar.activityMap view = ProfileCalendar.activityMap clean /\
    ProfileCalendar.yearDays view = ProfileCalendar.yearDays clean /\
    ProfileCalendar.currentStreak (ProfileCalendar.stats view)
    = ProfileCalendar.currentStreak (ProfileCalendar.stats clean) /\
    ProfileCalendar.longestStreak (ProfileCalendar.stats view)
    = ProfileCalendar.longestStreak (ProfileCalendar.stats clean).
Proof.
  apply fetchStats_same_tally. symmetry. apply tally_filter.
  intros q. apply wellDated_inWindow.
Qed.

(** A malformed [last_solved_at] next to a record solved today, in UTC:
    the page shows the one active day, and the malformed record still
    counts in [total]. *)
Lemma malformed_record_example :
  exists view,
    ProfileCalendar.fetchStats Sample.utc (Sample.at_ Sample.utc Sample.monday 10)
      [Sample.malformed 0; Sample.solved (Sample.at_ Sample.utc Sample.monday 9)]
    = JS.Ok view /\
    ProfileCalendar.activityMap view = [(Sample.monday, 1)] /\
    ProfileCalendar.currentStreak (ProfileCalendar.stats view) = 1 /\
    ProfileCalendar.longestStreak (ProfileCalendar.stats view) = 1 /\
    ProfileCalendar.total (ProfileCalendar.stats view) = 2.
Proof. eexists. repeat split; vm_compute; reflexivity. Qed.

(** src/pages/Profile.tsx keeps the Invalid Date in [uniqueDates]: a
    single record with a malformed [last_solved_at] gives a longest
    streak of 1 there. *)
Lemma profile_counts_malformed (tz now t : Z) :
  Profile.longestStreak (Profile.fetchStats tz now [Sample.malformed t]) = 1.
Proof. reflexivity. Qed.

(** C10. On the Profile page with the calendar the activity map and
    both streaks depend only on the records whose activity day lies in
    the window from the week-aligned start day through today: two
    lists that hold the same such records, and differ in any way in
    the others, give the same activity map, current streak and longest
    streak. *)
Theorem stats_depend_on_window_only (tz now : Z) (a b : list Question) :
  filter (Days.inWindow tz now) a = filter (Days.inWindow tz now) b ->
  exists va vb,
    ProfileCalendar.fetchStats tz now a = JS.Ok va /\
    ProfileCalendar.fetchStats tz now b = JS.Ok vb /\
    ProfileCalendar.activityMap va = ProfileCalendar.activityMap vb /\
    ProfileCalendar.yearDays va = ProfileCalendar.yearDays vb /\
    ProfileCalendar.currentStreak (ProfileCalendar.stats va)
    = ProfileCalendar.currentStreak (ProfileCalendar.stats vb) /\
    ProfileCalendar.longestStreak (ProfileCalendar.stats va)
    = ProfileCalendar.longestStreak (ProfileCalendar.stats vb).
Proof.
  intros Heq. apply fetchStats_same_tally.
  rewrite <- (tally_filter tz now (Days.inWindow tz now) a) by (intros q H; exact H).
  rewrite <- (tally_filter tz now (Days.inWindow tz now) b) by (intros q H; exact H).
  now rewrite Heq.
Qed.

(** Three days in a row, two years before Monday 2024-01-15: a run
    older than the window does not count towards the longest streak. *)
Lemma old_run_is_not_counted :
  exists view,
    ProfileCalendar.fetchStats Sample.utc (Sample.at_ Sample.utc Sample.monday 10)
      [Sample.solved (Sample.at_ Sample.utc (Sample.monday - 730) 9);
       Sample.solved (Sample.at_ Sample.utc (Sample.monday - 731) 9);
       Sample.solved (Sample.at_ Sample.utc (Sample.monday - 732) 9)]
    = JS.Ok view /\
    ProfileCalendar.activityMap view = [] /\
    ProfileCalendar.longestStreak (ProfileCalendar.stats view) = 0.
Proof. eexists. repeat split; vm_compute; reflexivity. Qed.

(* ================================================================== *)
(** * The completion rate *)
(* ================================================================== *)

Section RateFacts.
Import JS.

Lemma rate_same (total completed : Z) :
  Profile.rate total completed = ProfileCalendar.rate total completed.
Proof. reflexivity. Qed.

(** Without records the rate is 0. *)
Lemma rate_empty (completed : Z) :
  toZ (ProfileCalendar.rate 0 completed) = Some 0.
Proof. reflexivity. Qed.

(** Up to 39 records the double computation is exact. *)
Lemma rate_exact_below_40 (total completed : nat) :
  (completed <= total < 40)%nat ->
  toZ (ProfileCalendar.rate (Z.of_nat total) (Z.of_nat completed))
  = Some (Spec.completionRate (Z.of_nat total) (Z.of_nat completed)).
Proof.
  intros [Hc Ht].
  assert (Hall : forallb rateExact (seq 0 40) = true) by (vm_compute; reflexivity).
  rewrite forallb_forall in Hall.
  specialize (Hall total ltac:(apply in_seq; lia)).
  unfold rateExact in Hall. rewrite forallb_forall in Hall.
  specialize (Hall completed ltac:(apply in_seq; lia)).
  destruct (toZ _) as [r|]; [|discriminate].
  apply Z.eqb_eq in Hall. now subst.
Qed.

End RateFacts.

(** C7 at 23 completed records out of 40.  Both Profile pages compute
    [Math.round((23 / 40) * 100)] in doubles: the quotient is rounded
    to the double just below 0.575, the product to 57.49999999999999,
    and the page shows 57, while round(100 * 23 / 40) = round(57.5) is
    58. *)
Theorem completion_rate_of_23_in_40 (tz now : Z) :
  exists view,
    ProfileCalendar.fetchStats tz now Sample.forty = JS.Ok view /\
    ProfileCalendar.total (ProfileCalendar.stats view) = 40 /\
    ProfileCalendar.completed (ProfileCalendar.stats view) = 23 /\
    JS.toZ (ProfileCalendar.completionRate (ProfileCalendar.stats view))
    = Some 57 /\
    JS.toZ (Profile.completionRate (Profile.fetchStats tz now Sample.forty))
    = Some 57 /\
    Spec.completionRate 40 23 = 58.
Proof.
  eexists. split; [apply fetchStats_eq|].
  cbn [ProfileCalendar.stats ProfileCalendar.total ProfileCalendar.completed
       ProfileCalendar.completionRate].
  split; [reflexivity|]. split; [reflexivity|].
  split; [vm_compute; reflexivity|].
  split; [|reflexivity].
  unfold Profile.fetchStats.
  destruct (Profile.streaks tz now (Profile.solvedDates Sample.forty)).
  cbn [Profile.completionRate]. vm_compute. reflexivity.
Qed.

(** The double the page rounds in that case. *)
Lemma product_of_23_in_40 :
  JS.mul (JS.div (JS.ofZ 23) (JS.ofZ 40)) (JS.ofZ 100)
  = S754_finite false 8092405580431359 (-47).
Proof. vm_compute. reflexivity. Qed.

(* ================================================================== *)
(** * The question form *)
(* ================================================================== *)

Section FormFacts.
Import QuestionForm.

Lemma updateRow_last_solved_at (p : Payload) (now : Z) (r : Row) :
  last_solved_at (updateRow p now r) = last_solved_at r.
Proof. reflexivity. Qed.

Lemma update_last_solved_at (user : Z) (p : Payload) (target now : Z) (t : Table) :
  map last_solved_at (update user p target now t) = map last_solved_at t.
Proof.
  unfold update. rewrite map_map. apply map_ext. intros r.
  now destruct ((id r =? target) && (user_id r =? user)).
Qed.

End FormFacts.

(** C9. Every submission of the question form leaves the
    [last_solved_at] of every existing row as it was, and a row it
    creates has none: the form never sets the column.  So it is not set
    by a create or an update that does not complete the question (nor,
    in this code, by one that does). *)
Theorem form_leaves_last_solved_at (user : Z) (isEdit : option Z)
  (formData : QuestionForm.FormData) (newId now : Z) (t : QuestionForm.Table) :
  map QuestionForm.last_solved_at
    (QuestionForm.handleSubmit user isEdit formData newId now t)
  = map QuestionForm.last_solved_at t
    ++ match isEdit with
       | Some _ => []
       | None => [None]
       end.
Proof.
  unfold QuestionForm.handleSubmit. destruct isEdit as [id|].
  - rewrite update_last_solved_at. now rewrite app_nil_r.
  - unfold QuestionForm.insert. now rewrite map_app.
Qed.

(* ================================================================== *)
(** * Dashboard against Profile *)
(* ================================================================== *)

Section DashboardVsProfile.
Import JS Days.

Variable tz : Z.
Variable now : Z.

(** On valid dates none of which is after today, the two pages show
    the same streak. *)
Lemma dashboard_profile_agree (times : list Z) :
  Forall (fun t => localDay tz t <= todayDay tz now) times ->
  Dashboard.streakOf tz now (sort byTimeDesc (map Some times))
  = fst (Profile.streaks tz now (sort byTimeDesc (map Some times))).
Proof.
  intros Hle. rewrite streakOf_walk, profile_streaks_valid. cbn [fst].
  rewrite (currentStreak_ext _ (solvedDays tz (map Some times))).
  2:{ apply solvedDays_perm, sort_perm. }
  symmetry. apply countBack_walk.
  - apply descending_strict.
  - rewrite Forall_forall in *. intros d Hd.
    apply (proj1 (descending_In _ _)) in Hd. rewrite solvedDays_valid in Hd.
    apply (proj1 (in_map_iff _ _ _)) in Hd.
    destruct Hd as (t & <- & Ht). now apply Hle.
  - intros d. apply descending_In.
Qed.

End DashboardVsProfile.

(** C3 at a user whose only solved question dates from yesterday
    (Sunday 2024-01-14, seen on Monday 2024-01-15 in UTC).  The
    Dashboard's test "activity today or yesterday" succeeds, but its
    walk starts at today, which is not active: the streak is 0, the
    same as the current streak of either revision of the Profile page. *)
Theorem dashboard_streak_after_yesterday :
  let now := Sample.at_ Sample.utc Sample.monday 10 in
  let data := [Sample.solved (Sample.at_ Sample.utc (Sample.monday - 1) 9)] in
  let set := Dashboard.uniqueDates Sample.utc (Dashboard.sortedDates data) in
  JS.has set (JS.toDateString Sample.utc (Dashboard.yesterday Sample.utc now)) = true /\
  Dashboard.streak (Dashboard.fetchStats Sample.utc now data) = 0 /\
  Profile.currentStreak (Profile.fetchStats Sample.utc now data) = 0 /\
  exists view,
    ProfileCalendar.fetchStats Sample.utc now data = JS.Ok view /\
    ProfileCalendar.currentStreak (ProfileCalendar.stats view) = 0.
Proof.
  cbv zeta. split; [vm_compute; reflexivity|].
  split; [vm_compute; reflexivity|].
  split; [vm_compute; reflexivity|].
  eexists. split; vm_compute; reflexivity.
Qed.

(** The two pages do differ on a list that holds a date after today:
    the Dashboard still walks back from today, while the first loop of
    the Profile page compares the latest date with today and stops. *)
Lemma dashboard_profile_differ_after_today :
  let now := Sample.at_ Sample.utc Sample.monday 10 in
  let data := [Sample.solved (Sample.at_ Sample.utc Sample.monday 9);
               Sample.solved (Sample.at_ Sample.utc (Sample.monday + 1) 9)] in
  Dashboard.streak (Dashboard.fetchStats Sample.utc now data) = 1 /\
  Profile.currentStreak (Profile.fetchStats Sample.utc now data) = 0.
Proof. repeat split; vm_compute; reflexivity. Qed.

(* ================================================================== *)
(** * What the longest run means *)
(* ================================================================== *)

Section LongestRun.
Import Spec.

Lemma runs_cover (d n : Z) (rest : list Z) (prev len : Z) :
  StronglySorted Z.gt (prev :: rest) -> 1 <= len -> 1 <= n ->
  (forall i, 0 <= i < n -> In (d - i) (prev :: rest)) ->
  (if d =? prev then len + n - 1 else n)
  <= fold_right Z.max 0 (runs prev len rest).
Proof.
  revert d n prev len.
  induction rest as [|x r IH]; intros d n prev len Hs Hlen Hn Hin;
    cbn [runs fold_right].
  - assert (n = 1).
    { destruct (Z.eq_dec n 1) as [|Hne]; [assumption|exfalso].
      destruct (Hin 0 ltac:(lia)) as [H0|[]].
      destruct (Hin 1 ltac:(lia)) as [H1|[]]. lia. }
    subst n. destruct (d =? prev); lia.
  - inversion Hs as [|? ? Hs' Hall]; subst.
    inversion Hall as [|? ? Hx Hr]; subst.
    inversion Hs' as [|? ? Hs'' Hallx]; subst.
    rewrite Forall_forall in Hr, Hallx.
    assert (Hbelow : forall z, In z (x :: r) -> z <= x).
    { intros z [->|Hz]; [lia|]. specialize (Hallx z Hz). lia. }
    destruct (d =? prev) eqn:Ed.
    + apply Z.eqb_eq in Ed. subst d.
      destruct (Z.eq_dec n 1) as [->|Hn1].
      * pose proof (runs_ge prev len (x :: r)) as Hge.
        cbn [runs] in Hge. lia.
      * assert (x = prev - 1) as Hx1.
        { destruct (Hin 1 ltac:(lia)) as [H1|H1]; [lia|].
          specialize (Hbelow _ H1). lia. }
        replace (prev - x =? 1) with true by (symmetry; apply Z.eqb_eq; lia).
        specialize (IH x (n - 1) x (len + 1) Hs' ltac:(lia) ltac:(lia)).
        rewrite Z.eqb_refl in IH.
        assert (Hin' : forall i, 0 <= i < n - 1 -> In (x - i) (x :: r)).
        { intros i Hi. destruct (Hin (i + 1) ltac:(lia)) as [H|H]; [lia|].
          now replace (x - i) with (prev - (i + 1)) by lia. }
        specialize (IH Hin'). lia.
    + apply Z.eqb_neq in Ed.
      assert (Hd : d < prev).
      { destruct (Hin 0 ltac:(lia)) as [H|H]; [lia|].
        specialize (Hbelow _ H). lia. }
      assert (Hin' : forall i, 0 <= i < n -> In (d - i) (x :: r)).
      { intros i Hi. destruct (Hin i Hi) as [H|H]; [lia|assumption]. }
      destruct (prev - x =? 1).
      * specialize (IH d n x (len + 1) Hs' ltac:(lia) Hn Hin').
        destruct (d =? x); lia.
      * specialize (IH d n x 1 Hs' ltac:(lia) Hn Hin').
        cbn [fold_right]. destruct (d =? x); lia.
Qed.

Lemma runs_witness (active rest : list Z) (prev len : Z) :
  1 <= len ->
  (forall i, 0 <= i < len -> In (prev + i) active) ->
  (forall x, In x rest -> In x active) ->
  exists e, forall i,
    0 <= i < fold_right Z.max 0 (runs prev len rest) -> In (e + i) active.
Proof.
  revert prev len. induction rest as [|x r IH]; intros prev len Hlen Hrun Hsub;
    cbn [runs fold_right].
  - exists prev. intros i Hi. apply Hrun. lia.
  - assert (Hx : In x active) by (apply Hsub; now left).
    assert (Hsub' : forall y, In y r -> In y active)
      by (intros y Hy; apply Hsub; now right).
    destruct (prev - x =? 1) eqn:E.
    + apply Z.eqb_eq in E. apply IH; [lia| |assumption].
      intros i Hi. destruct (Z.eq_dec i 0) as [->|Hne].
      * now rewrite Z.add_0_r.
      * replace (x + i) with (prev + (i - 1)) by lia. apply Hrun. lia.
    + destruct (IH x 1 ltac:(lia)) as (e & He); [|assumption|].
      * intros i Hi. replace (x + i) with x by lia. assumption.
      * cbn [fold_right].
        destruct (Z_le_gt_dec (fold_right Z.max 0 (runs x 1 r)) len) as [Hle|Hgt].
        -- exists prev. intros i Hi. apply Hrun. lia.
        -- exists e. intros i Hi. apply He. lia.
Qed.

(** The longest streak is the largest number of consecutive calendar
    days that are all active. *)
Lemma longestStreak_consecutive (active : list Z) :
  (forall d n, 0 <= n -> (forall i, 0 <= i < n -> In (d - i) active) ->
               n <= Spec.longestStreak active) /\
  (exists d, forall i, 0 <= i < Spec.longestStreak active -> In (d - i) active).
Proof.
  unfold Spec.longestStreak.
  pose proof (descending_strict active) as Hs.
  pose proof (descending_In active) as Hin.
  destruct (descending active) as [|p rest].
  - split.
    + intros d n Hn Hrun. destruct (Z.eq_dec n 0) as [|Hne]; [lia|].
      exfalso. apply (proj2 (Hin (d - 0))). apply Hrun. lia.
    + exists 0. intros i Hi. lia.
  - split.
    + intros d n Hn Hrun. destruct (Z.eq_dec n 0) as [->|Hne].
      * pose proof (runs_ge p 1 rest). lia.
      * pose proof (runs_cover d n rest p 1 Hs ltac:(lia) ltac:(lia)) as H.
        assert (Hrun' : forall i, 0 <= i < n -> In (d - i) (p :: rest))
          by (intros i Hi; apply Hin; now apply Hrun).
        specialize (H Hrun'). destruct (d =? p); lia.
    + destruct (runs_witness active rest p 1 ltac:(lia)) as (e & He).
      * intros i Hi. replace (p + i) with p by lia. apply Hin. now left.
      * intros x Hx. apply Hin. now right.
      * set (n := fold_right Z.max 0 (runs p 1 rest)) in *.
        exists (e + n - 1). intros i Hi.
        replace (e + n - 1 - i) with (e + (n - 1 - i)) by lia.
        apply He. lia.
Qed.

End LongestRun.

(* ================================================================== *)
(** * Instances *)
(* ================================================================== *)

(** C10 at two users in UTC on Monday 2024-01-15 who solved the same
    question yesterday; the second also has a run of two days more
    than two years ago and a question without a date. *)
Lemma stats_depend_on_window_only_witness :
  exists va vb,
    ProfileCalendar.fetchStats Sample.utc (Sample.at_ Sample.utc Sample.monday 10)
      [Sample.solved (Sample.at_ Sample.utc (Sample.monday - 1) 9)]
    = JS.Ok va /\
    ProfileCalendar.fetchStats Sample.utc (Sample.at_ Sample.utc Sample.monday 10)
      [Sample.solved (Sample.at_ Sample.utc (Sample.monday - 800) 9);
       Sample.solved (Sample.at_ Sample.utc (Sample.monday - 1) 9);
       Sample.started 0;
       Sample.solved (Sample.at_ Sample.utc (Sample.monday - 801) 9)]
    = JS.Ok vb /\
    ProfileCalendar.activityMap va = ProfileCalendar.activityMap vb /\
    ProfileCalendar.yearDays va = ProfileCalendar.yearDays vb /\
    ProfileCalendar.currentStreak (ProfileCalendar.stats va)
    = ProfileCalendar.currentStreak (ProfileCalendar.stats vb) /\
    ProfileCalendar.longestStreak (ProfileCalendar.stats va)
    = ProfileCalendar.longestStreak (ProfileCalendar.stats vb).
Proof.
  apply (stats_depend_on_window_only Sample.utc
           (Sample.at_ Sample.utc Sample.monday 10)).
  vm_compute. reflexivity.
Defined.

(** The streaks of three days in a row ending today, and of today
    together with the day three days ago, in UTC. *)
Lemma three_days_in_utc :
  exists view,
    ProfileCalendar.fetchStats Sample.utc (Sample.at_ Sample.utc Sample.monday 10)
      [Sample.solved (Sample.at_ Sample.utc Sample.monday 9);
       Sample.solved (Sample.at_ Sample.utc (Sample.monday - 1) 9);
       Sample.solved (Sample.at_ Sample.utc (Sample.monday - 2) 9)]
    = JS.Ok view /\
    ProfileCalendar.currentStreak (ProfileCalendar.stats view) = 3 /\
    ProfileCalendar.longestStreak (ProfileCalendar.stats view) = 3.
Proof. eexists. repeat split; vm_compute; reflexivity. Qed.

Lemma today_and_three_days_ago_in_utc :
  exists view,
    ProfileCalendar.fetchStats Sample.utc (Sample.at_ Sample.utc Sample.monday 10)
      [Sample.solved (Sample.at_ Sample.utc Sample.monday 9);
       Sample.solved (Sample.at_ Sample.utc (Sample.monday - 3) 9)]
    = JS.Ok view /\
    ProfileCalendar.currentStreak (ProfileCalendar.stats view) = 1 /\
    ProfileCalendar.longestStreak (ProfileCalendar.stats view) = 1.
Proof. eexists. repeat split; vm_compute; reflexivity. Qed.

(** The same three days seen from Asia/Kolkata: the keys of [activity]
    are the UTC days of the local midnights, one day earlier, and so
    are the active days the streak loops read back from them; the
    longest streak is 3 and the current streak is 0. *)
Lemma three_days_in_kolkata :
  exists view,
    ProfileCalendar.fetchStats Sample.kolkata
      (Sample.at_ Sample.kolkata Sample.monday 10)
      [Sample.solved (Sample.at_ Sample.kolkata Sample.monday 9);
       Sample.solved (Sample.at_ Sample.kolkata (Sample.monday - 1) 9);
       Sample.solved (Sample.at_ Sample.kolkata (Sample.monday - 2) 9)]
    = JS.Ok view /\
    ProfileCalendar.activityMap view
    = [(Sample.monday - 1, 1); (Sample.monday - 2, 1); (Sample.monday - 3, 1)] /\
    Days.activeDays Sample.kolkata (ProfileCalendar.activityMap view)
    = [Sample.monday - 1; Sample.monday - 2; Sample.monday - 3] /\
    ProfileCalendar.currentStreak (ProfileCalendar.stats view) = 0 /\
    ProfileCalendar.longestStreak (ProfileCalendar.stats view) = 3.
Proof. eexists. repeat split; vm_compute; reflexivity. Qed.

(* ================================================================== *)
(** * The streaks of the calendar page read on the records *)
(* ================================================================== *)

Section StreaksOnRecords.
Import JS Days.

Variable tz : Z.
Variable now : Z.

(** The active days of the loops are the activity days of the records
    of the window, each moved by [keyShift]. *)
Lemma activeDays_window (questions : list Question) (x : Z) :
  In x (activeDays tz (tally tz now questions)) <->
  In x (map (fun d => d + keyShift tz) (windowDays tz now questions)).
Proof.
  rewrite activeDays_tally, in_map_iff. split.
  - intros (q & d & Hq & Hc & ->). exists d. split; [reflexivity|].
    apply windowDays_In. now exists q.
  - intros (d & <- & Hd). apply windowDays_In in Hd.
    destruct Hd as (q & Hq & Hc). now exists q, d.
Qed.

Lemma descending_ext (a b : list Z) :
  (forall d, In d a <-> In d b) -> Spec.descending a = Spec.descending b.
Proof.
  intros Heq. apply strict_unique; try apply descending_strict.
  intros d. rewrite !descending_In. apply Heq.
Qed.

Lemma longestStreak_ext (a b : list Z) :
  (forall d, In d a <-> In d b) -> Spec.longestStreak a = Spec.longestStreak b.
Proof.
  intros Heq. unfold Spec.longestStreak. now rewrite (descending_ext a b).
Qed.

Lemma StronglySorted_shift (c : Z) (xs : list Z) :
  StronglySorted Z.gt xs -> StronglySorted Z.gt (map (fun d => d + c) xs).
Proof.
  induction 1 as [|x xs Hs IH Hall]; simpl; constructor; [assumption|].
  rewrite Forall_forall in *. intros y Hy.
  apply in_map_iff in Hy. destruct Hy as (z & <- & Hz).
  specialize (Hall z Hz). lia.
Qed.

Lemma descending_shift (c : Z) (active : list Z) :
  Spec.descending (map (fun d => d + c) active)
  = map (fun d => d + c) (Spec.descending active).
Proof.
  apply strict_unique.
  - apply descending_strict.
  - apply StronglySorted_shift, descending_strict.
  - intros d. rewrite descending_In, !in_map_iff.
    split; intros (x & Hx & Hin); exists x; (split; [assumption|]);
      now apply descending_In.
Qed.

Lemma runs_shift (c prev len : Z) (rest : list Z) :
  Spec.runs (prev + c) len (map (fun d => d + c) rest) = Spec.runs prev len rest.
Proof.
  revert prev len. induction rest as [|x rest IH]; intros prev len;
    cbn [map Spec.runs]; [reflexivity|].
  replace (prev + c - (x + c)) with (prev - x) by lia.
  destruct (prev - x =? 1); now rewrite IH.
Qed.

(** Moving every day by the same number of days keeps the longest run. *)
Lemma longestStreak_shift (c : Z) (active : list Z) :
  Spec.longestStreak (map (fun d => d + c) active) = Spec.longestStreak active.
Proof.
  unfold Spec.longestStreak. rewrite descending_shift.
  destruct (Spec.descending active) as [|d rest]; [reflexivity|].
  cbn [map]. now rewrite runs_shift.
Qed.

Lemma longestStreak_window (questions : list Question) :
  Spec.longestStreak (activeDays tz (tally tz now questions))
  = Spec.longestStreak (windowDays tz now questions).
Proof.
  rewrite <- (longestStreak_shift (keyShift tz) (windowDays tz now questions)).
  apply longestStreak_ext, activeDays_window.
Qed.

(** In a zone whose offset is a whole number of days the active days
    are the activity days of the records of the window themselves. *)
Lemma currentStreak_window (questions : list Question) :
  tz mod msPerDay = 0 ->
  Spec.currentStreak (activeDays tz (tally tz now questions)) (todayDay tz now)
  = Spec.currentStreak (windowDays tz now questions) (todayDay tz now).
Proof.
  intros Htz. apply currentStreak_ext. intros d.
  rewrite activeDays_window.
  destruct (keyShift_cases tz) as [[_ H0]|[Hne _]]; [|contradiction].
  rewrite H0, (map_ext _ (fun d => d)) by (intros; lia).
  now rewrite map_id.
Qed.

Lemma today_inactive (questions : list Question) :
  ~ In (todayDay tz now) (windowDays tz now questions) ->
  ~ In (todayDay tz now) (activeDays tz (tally tz now questions)).
Proof.
  intros Hnot Hin. apply activeDays_window, in_map_iff in Hin.
  destruct Hin as (d & Hd & Hin).
  assert (d <= todayDay tz now).
  { apply windowDays_In in Hin. destruct Hin as (q & _ & _ & H). lia. }
  pose proof (keyShift_nonpos tz).
  assert (d = todayDay tz now) by lia. now subst.
Qed.

End StreaksOnRecords.

(** C1, as the code has it by design.  On the Profile page with the
    calendar the streaks are computed from the activity map, which
    holds the days of the trailing window only.  For every list of
    records and every today, in a zone whose offset from UTC is a
    whole number of days, the current streak is the number of steps of
    the walk that starts at today and goes back one calendar day at a
    time while the day is among the activity days of the records that
    lie in the window, stopping at the first gap.  In every zone the
    current streak is 0 whenever today is not such a day. *)
Theorem current_streak_within_window (tz now : Z) (questions : list Question) :
  exists view,
    ProfileCalendar.fetchStats tz now questions = JS.Ok view /\
    let active := Days.windowDays tz now questions in
    let today := Days.todayDay tz now in
    let streak := ProfileCalendar.currentStreak (ProfileCalendar.stats view) in
    (tz mod JS.msPerDay = 0 ->
     streak = Spec.currentStreak active today /\
     Spec.isStreak active today streak) /\
    (~ In today active -> streak = 0).
Proof.
  eexists. split; [apply fetchStats_eq|].
  cbn [ProfileCalendar.stats ProfileCalendar.currentStreak]. cbv zeta.
  split.
  - intros Htz. rewrite currentStreak_window by assumption.
    split; [reflexivity|apply currentStreak_isStreak].
  - intros Hnot. apply currentStreak_inactive. now apply today_inactive.
Qed.

(** C1 in UTC on Monday 2024-01-15, for a user who solved a question
    on each of the three days before today. *)
Lemma current_streak_within_window_witness :
  exists view,
    ProfileCalendar.fetchStats Sample.utc (Sample.at_ Sample.utc Sample.monday 10)
      (Sample.daily Sample.utc (Sample.monday - 1) 3)
    = JS.Ok view /\
    ProfileCalendar.currentStreak (ProfileCalendar.stats view)
    = Spec.currentStreak [Sample.monday - 1; Sample.monday - 2; Sample.monday - 3]
        Sample.monday /\
    ProfileCalendar.currentStreak (ProfileCalendar.stats view) = 0.
Proof.
  destruct (current_streak_within_window Sample.utc
              (Sample.at_ Sample.utc Sample.monday 10)
              (Sample.daily Sample.utc (Sample.monday - 1) 3))
    as (view & Hview & Hwalk & Hzero).
  exists view. split; [exact Hview|]. split.
  - exact (proj1 (Hwalk eq_refl)).
  - apply Hzero. vm_compute. intros [H|[H|[H|[]]]]; discriminate H.
Defined.

(** C1, as stated, fails by the design of the window: in UTC, a user
    who solved a question on each of the 400 days ending today has 400
    active days in a row, and the page shows the 366 of them that lie
    in the window. *)
Lemma current_streak_stops_at_window :
  exists view,
    ProfileCalendar.fetchStats Sample.utc (Sample.at_ Sample.utc Sample.monday 10)
      (Sample.daily Sample.utc Sample.monday 400)
    = JS.Ok view /\
    ProfileCalendar.currentStreak (ProfileCalendar.stats view) = 366 /\
    Spec.currentStreak
      (Days.activityDays Sample.utc (Sample.daily Sample.utc Sample.monday 400))
      Sample.monday = 400.
Proof.
  eexists. split; [vm_compute; reflexivity|].
  split; vm_compute; reflexivity.
Qed.

(** A question solved today, seen from Asia/Kolkata: the calendar page
    shows a current streak of 0 where src/pages/Profile.tsx and the
    Dashboard, which compare local days throughout, show 1. *)
Lemma solved_today_in_kolkata :
  let now := Sample.at_ Sample.kolkata Sample.monday 10 in
  let data := [Sample.solved (Sample.at_ Sample.kolkata Sample.monday 9)] in
  (exists view,
     ProfileCalendar.fetchStats Sample.kolkata now data = JS.Ok view /\
     ProfileCalendar.currentStreak (ProfileCalendar.stats view) = 0) /\
  Days.windowDays Sample.kolkata now data = [Sample.monday] /\
  Days.todayDay Sample.kolkata now = Sample.monday /\
  Profile.currentStreak (Profile.fetchStats Sample.kolkata now data) = 1 /\
  Dashboard.streak (Dashboard.fetchStats Sample.kolkata now data) = 1.
Proof.
  split; [eexists; split; vm_compute; reflexivity|].
  repeat split; vm_compute; reflexivity.
Qed.

(** The longest streak at a fixed offset [tz].  On the Profile page
    with the calendar, for every list of records and every today,
    the longest streak is the maximum run length found by sorting in
    descending order the distinct activity days of the records that lie
    in the trailing window and scanning adjacent pairs, a pair
    extending the run exactly when the two days differ by one; it is 0
    without such days and 1 for a single one. *)
Lemma longest_streak_within_window_at_offset (tz now : Z) (questions : list Question) :
  exists view,
    ProfileCalendar.fetchStats tz now questions = JS.Ok view /\
    ProfileCalendar.longestStreak (ProfileCalendar.stats view)
    = Spec.longestStreak (Days.windowDays tz now questions) /\
    Spec.longestStreak [] = 0 /\
    (forall d, Spec.longestStreak [d] = 1).
Proof.
  eexists. split; [apply fetchStats_eq|].
  cbn [ProfileCalendar.stats ProfileCalendar.longestStreak].
  split; [apply longestStreak_window|]. split; [reflexivity|].
  intros d. unfold Spec.longestStreak, Spec.descending. simpl.
  destruct (Z.max 1 0) eqn:E; lia.
Qed.

(** C2, as stated, fails by the design of the window: three active
    days in a row two years before Monday 2024-01-15 are a run of 3,
    and the page shows a longest streak of 0. *)
Lemma longest_streak_misses_old_run :
  let data := Sample.daily Sample.utc (Sample.monday - 730) 3 in
  exists view,
    ProfileCalendar.fetchStats Sample.utc (Sample.at_ Sample.utc Sample.monday 10) data
    = JS.Ok view /\
    ProfileCalendar.longestStreak (ProfileCalendar.stats view) = 0 /\
    Spec.longestStreak (Days.activityDays Sample.utc data) = 3.
Proof. eexists. repeat split; vm_compute; reflexivity. Qed.

(* ================================================================== *)
(** * The Dashboard: counts, chart and streak *)
(* ================================================================== *)

Section DashboardCounts.
Import JS Days.

Lemma count_le (p q : Question -> bool) (data : list Question) :
  (forall x, p x = true -> q x = true) ->
  Dashboard.count p data <= Dashboard.count q data.
Proof.
  intros Hpq. unfold Dashboard.count. apply inj_le.
  induction data as [|x data IH]; simpl; [lia|].
  destruct (p x) eqn:Ep.
  - rewrite (Hpq x Ep). simpl. lia.
  - destruct (q x); simpl; lia.
Qed.

Lemma count_le_length (p : Question -> bool) (data : list Question) :
  Dashboard.count p data <= Z.of_nat (length data).
Proof. unfold Dashboard.count. apply inj_le, filter_length_le. Qed.

Lemma count_nonneg (p : Question -> bool) (data : list Question) :
  0 <= Dashboard.count p data.
Proof. unfold Dashboard.count. lia. Qed.

Lemma count_perm (p : Question -> bool) (a b : list Question) :
  Permutation a b -> Dashboard.count p a = Dashboard.count p b.
Proof.
  intros Hp. unfold Dashboard.count. f_equal.
  induction Hp as [|x a b Hp IH|x y a|a b c Hab IHab Hbc IHbc]; simpl.
  - reflexivity.
  - destruct (p x); simpl; lia.
  - destruct (p x), (p y); reflexivity.
  - lia.
Qed.

Lemma count_status (data : list Question) :
  Dashboard.count isCompleted data
  + Dashboard.count (fun q => Status_eqb (status q) InProgress) data
  + Dashboard.count (fun q => Status_eqb (status q) ToDo) data
  = Z.of_nat (length data).
Proof.
  unfold Dashboard.count, isCompleted.
  induction data as [|q data IH]; [reflexivity|].
  cbn [filter]. destruct (status q); cbn [Status_eqb length]; lia.
Qed.

Lemma count_difficulty (data : list Question) :
  Dashboard.count (fun q => Difficulty_eqb (difficulty q) Easy) data
  + Dashboard.count (fun q => Difficulty_eqb (difficulty q) Medium) data
  + Dashboard.count (fun q => Difficulty_eqb (difficulty q) Hard) data
  = Z.of_nat (length data).
Proof.
  unfold Dashboard.count.
  induction data as [|q data IH]; [reflexivity|].
  cbn [filter]. destruct (difficulty q); cbn [Difficulty_eqb length]; lia.
Qed.

(** A run of [n] days that are all in a list has at most as many days
    as the list has entries. *)
Lemma run_le_length (active : list Z) (d n : Z) :
  (forall i, 0 <= i < n -> In (d - i) active) ->
  n <= Z.of_nat (length active).
Proof.
  intros Hrun.
  destruct (Z_le_gt_dec n 0) as [Hle|Hgt]; [lia|].
  set (run := map (fun i => d - Z.of_nat i) (seq 0 (Z.to_nat n))).
  assert (Hnd : NoDup run).
  { unfold run. generalize (seq_NoDup (Z.to_nat n) 0).
    generalize (seq 0 (Z.to_nat n)). intros l Hl.
    induction Hl as [|x l Hnin Hl IH]; simpl; constructor; [|assumption].
    rewrite in_map_iff. intros (y & Hy & Hin).
    assert (y = x) by lia. now subst. }
  assert (Hincl : incl run active).
  { intros x Hx. unfold run in Hx. apply in_map_iff in Hx.
    destruct Hx as (i & <- & Hi). apply in_seq in Hi. apply Hrun. lia. }
  pose proof (NoDup_incl_length Hnd Hincl) as Hlen.
  unfold run in Hlen. rewrite length_map, length_seq in Hlen. lia.
Qed.

Lemma isStreak_le_length (active : list Z) (today n : Z) :
  Spec.isStreak active today n -> n <= Z.of_nat (length active).
Proof. intros (_ & Hin & _). now apply (run_le_length active today). Qed.

Lemma length_solvedDays (tz : Z) (dates : list Date) :
  (length (solvedDays tz dates) <= length dates)%nat.
Proof.
  unfold solvedDays. induction dates as [|[t|] dates IH]; simpl; lia.
Qed.

Lemma lastSolved_perm (a b : list Question) :
  Permutation a b -> Permutation (lastSolved a) (lastSolved b).
Proof.
  intros Hp. unfold lastSolved. apply Permutation_map.
  induction Hp as [|x a b Hp IH|x y a|a b c Hab IHab Hbc IHbc]; simpl.
  - constructor.
  - destruct (Profile.truthy (last_solved_at x)); [now constructor|assumption].
  - destruct (Profile.truthy (last_solved_at x)),
             (Profile.truthy (last_solved_at y));
      try reflexivity. apply perm_swap.
  - now transitivity (filter (fun q => Profile.truthy (last_solved_at q)) b).
Qed.

End DashboardCounts.

(** X1. On the Dashboard every question is counted under exactly one
    status and exactly one difficulty: the three status counts add up
    to the total, and so do the three difficulty counts. *)
Theorem dashboard_counts_add_up (tz now : Z) (data : list Question) :
  let stats := Dashboard.fetchStats tz now data in
  Dashboard.completed stats + Dashboard.inProgress stats + Dashboard.todo stats
  = Dashboard.total stats /\
  Dashboard.nEasy (Dashboard.byDifficulty stats)
  + Dashboard.nMedium (Dashboard.byDifficulty stats)
  + Dashboard.nHard (Dashboard.byDifficulty stats)
  = Dashboard.total stats.
Proof.
  cbv zeta. cbn [Dashboard.fetchStats Dashboard.completed Dashboard.inProgress
                 Dashboard.todo Dashboard.total Dashboard.byDifficulty
                 Dashboard.nEasy Dashboard.nMedium Dashboard.nHard].
  split; [apply count_status|apply count_difficulty].
Qed.

(** X2. On the Dashboard the questions completed in the last 7 days are
    among those completed in the last 30 days, those among the
    completed ones, and those among all: weekly <= monthly <= completed
    <= total, none negative. *)
Theorem dashboard_weekly_within_monthly (tz now : Z) (data : list Question) :
  let stats := Dashboard.fetchStats tz now data in
  0 <= Dashboard.weeklyCompleted stats /\
  Dashboard.weeklyCompleted stats <= Dashboard.monthlyCompleted stats /\
  Dashboard.monthlyCompleted stats <= Dashboard.completed stats /\
  Dashboard.completed stats <= Dashboard.total stats.
Proof.
  cbv zeta. cbn [Dashboard.fetchStats Dashboard.weeklyCompleted
                 Dashboard.monthlyCompleted Dashboard.completed Dashboard.total].
  split; [apply count_nonneg|]. split; [|split].
  - apply count_le. intros q. unfold Dashboard.completedSince.
    rewrite !andb_true_iff. intros [Hc Hw]. split; [assumption|].
    destruct (Profile.newDate (updated_at q)) as [t|]; simpl in *;
      [|discriminate].
    apply Z.leb_le in Hw. apply Z.leb_le. lia.
  - apply count_le. intros q. unfold Dashboard.completedSince.
    rewrite !andb_true_iff. tauto.
  - apply count_le_length.
Qed.


(** X4. For every list of records the streak of the Dashboard is the
    length of the run of active days that ends today, an active day
    being the local day of a valid [last_solved_at]: the days today,
    today - 1, ..., today - (streak - 1) are active and the day before
    them is not.  It is at most the number of records that have a
    [last_solved_at]. *)
Theorem dashboard_streak_is_run_to_today (tz now : Z) (data : list Question) :
  let active := Days.solvedDays tz (Days.lastSolved data) in
  let streak := Dashboard.streak (Dashboard.fetchStats tz now data) in
  0 <= streak /\
  (forall i, 0 <= i < streak -> In (Days.todayDay tz now - i) active) /\
  ~ In (Days.todayDay tz now - streak) active /\
  streak <= Z.of_nat (length (Days.lastSolved data)) /\
  Z.of_nat (length (Days.lastSolved data)) <= Dashboard.total (Dashboard.fetchStats tz now data).
Proof.
  cbv zeta. rewrite dashboard_streak.
  pose proof (currentStreak_isStreak
                (Days.solvedDays tz (Days.lastSolved data))
                (Days.todayDay tz now)) as Hs.
  split; [apply Hs|]. split; [apply Hs|]. split; [apply Hs|]. split.
  - apply isStreak_le_length in Hs.
    pose proof (length_solvedDays tz (Days.lastSolved data)). lia.
  - cbn [Dashboard.fetchStats Dashboard.total]. apply inj_le.
    unfold Days.lastSolved. rewrite length_map. apply filter_length_le.
Qed.

(** X5. The statistics of the Dashboard do not depend on the order in
    which the rows arrive: two lists with the same records in any
    order give the same statistics, streak included. *)
Theorem dashboard_stats_ignore_order (tz now : Z) (a b : list Question) :
  Permutation a b ->
  Dashboard.fetchStats tz now a = Dashboard.fetchStats tz now b.
Proof.
  intros Hp. unfold Dashboard.fetchStats.
  rewrite !(count_perm _ a b Hp), (Permutation_length Hp).
  f_equal.
  change (Dashboard.streakOf tz now (Dashboard.sortedDates a))
    with (Dashboard.streak (Dashboard.fetchStats tz now a)).
  change (Dashboard.streakOf tz now (Dashboard.sortedDates b))
    with (Dashboard.streak (Dashboard.fetchStats tz now b)).
  rewrite !dashboard_streak. apply currentStreak_ext.
  apply solvedDays_perm, lastSolved_perm, Hp.
Qed.

(* ================================================================== *)
(** * The calendar page: order, bounds and sums *)
(* ================================================================== *)

Section CalendarMore.
Import JS Days CalendarView.

Variable tz : Z.
Variable now : Z.

Lemma countDay_sameLookups (a b : Dict) (q : Question) :
  sameLookups a b ->
  sameLookups (countDay tz now a q) (countDay tz now b q).
Proof.
  intros Hab k. unfold countDay.
  destruct (inWindow tz now q); [|apply Hab].
  destruct (activityDay tz q) as [d|]; [|apply Hab].
  rewrite !get_set, (Hab (keyOfDay tz d)), (Hab k). reflexivity.
Qed.

Lemma countDay_swap (a : Dict) (x y : Question) :
  sameLookups (countDay tz now (countDay tz now a x) y)
              (countDay tz now (countDay tz now a y) x).
Proof.
  intros k. unfold countDay.
  destruct (inWindow tz now x), (inWindow tz now y); try reflexivity.
  destruct (activityDay tz x) as [d|], (activityDay tz y) as [e|];
    try reflexivity.
  rewrite !get_set.
  destruct (keyOfDay tz e =? keyOfDay tz d) eqn:E1.
  - apply Z.eqb_eq in E1. rewrite E1, Z.eqb_refl.
    destruct (k =? keyOfDay tz d); reflexivity.
  - rewrite Z.eqb_sym in E1. rewrite E1. rewrite Z.eqb_sym in E1.
    destruct (k =? keyOfDay tz e) eqn:E2, (k =? keyOfDay tz d) eqn:E3;
      try reflexivity.
    apply Z.eqb_eq in E2, E3. apply Z.eqb_neq in E1. congruence.
Qed.

Lemma fold_countDay_sameLookups (questions : list Question) (a b : Dict) :
  sameLookups a b ->
  sameLookups (fold_left (countDay tz now) questions a)
              (fold_left (countDay tz now) questions b).
Proof.
  revert a b. induction questions as [|q qs IH]; intros a b Hab;
    [assumption|].
  cbn [fold_left]. apply IH. now apply countDay_sameLookups.
Qed.

Lemma fold_countDay_perm (xs ys : list Question) :
  Permutation xs ys ->
  forall a, sameLookups (fold_left (countDay tz now) xs a)
                        (fold_left (countDay tz now) ys a).
Proof.
  induction 1 as [|x xs ys Hp IH|x y xs|xs ys zs Hxy IHxy Hyz IHyz];
    intros a.
  - intros k. reflexivity.
  - cbn [fold_left]. apply IH.
  - cbn [fold_left]. apply fold_countDay_sameLookups, countDay_swap.
  - intros k. now rewrite (IHxy a k), (IHyz a k).
Qed.

Lemma get_Some_In (k v : Z) (o : Dict) : get k o = Some v -> In (k, v) o.
Proof.
  induction o as [|[k' w] o IH]; simpl; [discriminate|].
  destruct (k =? k') eqn:E.
  - apply Z.eqb_eq in E. intros [= <-]. left. now subst.
  - intros H. right. now apply IH.
Qed.

Lemma In_get_Some (k v : Z) (o : Dict) :
  NoDup (keys o) -> In (k, v) o -> get k o = Some v.
Proof.
  induction o as [|[k' w] o IH]; simpl; [tauto|].
  intros Hnd Hin. inversion Hnd as [|? ? Hnin Hnd']; subst.
  destruct Hin as [[= -> ->]|Hin].
  - now rewrite Z.eqb_refl.
  - destruct (k =? k') eqn:E; [|now apply IH].
    apply Z.eqb_eq in E. subst k'. exfalso. apply Hnin.
    unfold keys. apply in_map_iff. now exists (k, v).
Qed.

Lemma sameLookups_perm (a b : Dict) :
  NoDup (keys a) -> NoDup (keys b) -> sameLookups a b -> Permutation a b.
Proof.
  intros Ha Hb Hab. apply NoDup_Permutation.
  - now apply (NoDup_map_inv fst).
  - now apply (NoDup_map_inv fst).
  - intros [k v]. split; intros Hin.
    + apply get_Some_In. rewrite <- Hab. now apply In_get_Some.
    + apply get_Some_In. rewrite Hab. now apply In_get_Some.
Qed.

Lemma length_filter_perm {A} (p : A -> bool) (xs ys : list A) :
  Permutation xs ys -> length (filter p xs) = length (filter p ys).
Proof.
  induction 1 as [|x xs ys Hp IH|x y xs|xs ys zs Hxy IHxy Hyz IHyz]; simpl.
  - reflexivity.
  - destruct (p x); simpl; lia.
  - destruct (p x), (p y); reflexivity.
  - lia.
Qed.

Lemma activeDays_perm (xs ys : list Question) :
  Permutation xs ys ->
  forall d, In d (activeDays tz (tally tz now xs))
            <-> In d (activeDays tz (tally tz now ys)).
Proof.
  intros Hp d. rewrite !activeDays_tally.
  split; intros (q & e & Hq & H); exists q, e; (split; [|assumption]).
  - now apply (Permutation_in _ Hp).
  - now apply (Permutation_in _ (Permutation_sym Hp)).
Qed.

(** ** Bounds *)

Lemma length_windowDays (questions : list Question) :
  (length (windowDays tz now questions) <= length questions)%nat.
Proof.
  unfold windowDays. induction questions as [|q qs IH]; simpl; [lia|].
  rewrite length_app.
  destruct (inWindow tz now q); [destruct (activityDay tz q)|]; simpl; lia.
Qed.

Lemma length_nodup_le (xs : list Z) :
  (length (nodup Z.eq_dec xs) <= length xs)%nat.
Proof.
  induction xs as [|x xs IH]; simpl; [lia|].
  destruct (in_dec Z.eq_dec x xs); simpl; lia.
Qed.

(** A list of distinct days between two days is no longer than the
    span. *)
Lemma NoDup_span (lo hi : Z) (xs : list Z) :
  NoDup xs -> (forall x, In x xs -> lo <= x <= hi) ->
  Z.of_nat (length xs) <= Z.max 0 (hi - lo + 1).
Proof.
  intros Hnd Hin.
  set (span := map (fun i => lo + Z.of_nat i) (seq 0 (Z.to_nat (hi - lo + 1)))).
  assert (Hincl : incl xs span).
  { intros x Hx. specialize (Hin x Hx). unfold span.
    apply in_map_iff. exists (Z.to_nat (x - lo)). split; [lia|].
    apply in_seq. lia. }
  pose proof (NoDup_incl_length Hnd Hincl) as Hlen.
  unfold span in Hlen. rewrite length_map, length_seq in Hlen. lia.
Qed.

Lemma length_activeDays (activity : Dict) :
  length (activeDays tz activity) = length activity.
Proof. unfold activeDays, keys. now rewrite !length_map. Qed.

(** ** Sums *)

Lemma sum_set (k : Z) (o : Dict) :
  CalendarView.sum (map snd (set k (orZero (get k o) + 1) o))
  = CalendarView.sum (map snd o) + 1.
Proof.
  unfold CalendarView.sum.
  induction o as [|[k' w] o IH]; cbn [get set map fold_right snd orZero].
  - lia.
  - destruct (k =? k'); cbn [map fold_right snd orZero]; [lia|].
    rewrite IH. lia.
Qed.

Lemma sum_fold (questions : list Question) (a : Dict) :
  CalendarView.sum (map snd (fold_left (countDay tz now) questions a))
  = CalendarView.sum (map snd a)
    + Z.of_nat (length (filter (inWindow tz now) questions)).
Proof.
  revert a. induction questions as [|q qs IH]; intros a;
    cbn [fold_left filter]; [simpl; lia|].
  rewrite IH. unfold countDay.
  destruct (inWindow tz now q) eqn:E.
  - apply inWindow_countsOn in E. destruct E as (d & Hd & _).
    rewrite Hd, sum_set. cbn [length]. lia.
  - lia.
Qed.

Lemma sum_map_add (f g : nat -> Z) (xs : list nat) :
  CalendarView.sum (map (fun i => f i + g i) xs)
  = CalendarView.sum (map f xs) + CalendarView.sum (map g xs).
Proof.
  unfold CalendarView.sum. induction xs as [|x xs IH]; simpl; lia.
Qed.

Lemma sum_zero {A} (f : A -> Z) (xs : list A) :
  (forall x, f x = 0) -> CalendarView.sum (map f xs) = 0.
Proof.
  intros Hf. unfold CalendarView.sum.
  induction xs as [|x xs IH]; cbn [map fold_right]; [reflexivity|].
  rewrite Hf, IH. reflexivity.
Qed.

Lemma sum_indicator (lo e : Z) (n : nat) :
  CalendarView.sum
    (map (fun i => if lo + Z.of_nat i =? e then 1 else 0) (seq 0 n))
  = if (lo <=? e) && (e <? lo + Z.of_nat n) then 1 else 0.
Proof.
  unfold CalendarView.sum. induction n as [|n IH].
  - cbn [seq map fold_right Z.of_nat].
    destruct (Z.leb_spec lo e), (Z.ltb_spec e (lo + 0)); cbn [andb]; lia.
  - rewrite seq_S, map_app, fold_right_app. cbn [map fold_right Nat.add].
    assert (Hsplit : forall (xs : list Z) (c : Z),
               fold_right Z.add c xs = fold_right Z.add 0 xs + c).
    { intros xs c. induction xs as [|x xs IHx]; simpl; lia. }
    rewrite Hsplit, IH.
    destruct (Z.eqb_spec (lo + Z.of_nat n) e), (Z.leb_spec lo e),
             (Z.ltb_spec e (lo + Z.of_nat n)),
             (Z.ltb_spec e (lo + Z.of_nat (S n))); cbn [andb]; lia.
Qed.

Lemma sum_shown (questions : list Question) (n : nat) :
  todayDay tz now < startDay tz now + Z.of_nat n ->
  CalendarView.sum
    (map (fun i => shown tz now questions (startDay tz now + Z.of_nat i)) (seq 0 n))
  = Z.of_nat (length (filter (inWindow tz now) questions)).
Proof.
  intros Hn. induction questions as [|q qs IH].
  - cbn [filter length]. apply sum_zero. intros i.
    unfold shown, recordsOn. cbn [filter length].
    now destruct (startDay tz now + Z.of_nat i <=? todayDay tz now).
  - rewrite (map_ext _ (fun i =>
               (match activityDay tz q with
                | Some d => if (startDay tz now + Z.of_nat i =? d)
                            then (if d <=? todayDay tz now then 1 else 0) else 0
                | None => 0
                end)
               + shown tz now qs (startDay tz now + Z.of_nat i))).
    2:{ intros i. unfold shown, recordsOn. cbn [filter].
        destruct (activityDay tz q) as [d|].
        - rewrite (Z.eqb_sym (startDay tz now + Z.of_nat i) d).
          destruct (d =? startDay tz now + Z.of_nat i) eqn:E.
          + apply Z.eqb_eq in E. subst d. cbn [length].
            destruct (startDay tz now + Z.of_nat i <=? todayDay tz now); lia.
          + destruct (startDay tz now + Z.of_nat i <=? todayDay tz now); lia.
        - destruct (startDay tz now + Z.of_nat i <=? todayDay tz now); lia. }
    rewrite sum_map_add, IH. cbn [filter]. unfold inWindow at 2.
    destruct (activityDay tz q) as [d|].
    + destruct (d <=? todayDay tz now) eqn:Ed.
      * rewrite sum_indicator.
        replace (d <? startDay tz now + Z.of_nat n) with true
          by (symmetry; apply Z.ltb_lt; lia).
        rewrite andb_true_r.
        destruct (startDay tz now <=? d); cbn [andb length]; lia.
      * rewrite andb_false_r, sum_zero; [lia|].
        intros i. now destruct (startDay tz now + Z.of_nat i =? d).
    + rewrite sum_zero; [lia|reflexivity].
Qed.

End CalendarMore.

Section CalendarMoreFacts.
Import JS Days CalendarView.

Variable tz : Z.
Variable now : Z.

Lemma cellCount_sameLookups (a b : Dict) (date : Date) :
  sameLookups a b ->
  ProfileCalendar.cellCount a date = ProfileCalendar.cellCount b date.
Proof.
  intros Hab. unfold ProfileCalendar.cellCount.
  destruct (toISODate date) as [key|e]; cbn [bind]; [|reflexivity].
  now rewrite Hab.
Qed.

Lemma length_windowDays_eq (questions : list Question) :
  length (windowDays tz now questions)
  = length (filter (inWindow tz now) questions).
Proof.
  unfold windowDays. induction questions as [|q qs IH]; [reflexivity|].
  cbn [flat_map filter]. rewrite length_app, IH.
  destruct (inWindow tz now q) eqn:E; [|reflexivity].
  apply inWindow_countsOn in E. destruct E as (d & Hd & _).
  now rewrite Hd.
Qed.

Lemma cells_eq (questions : list Question) :
  map (ProfileCalendar.cellCount (tally tz now questions))
    (ProfileCalendar.days tz now)
  = map Ok (map (fun i => shown tz now questions (startDay tz now + Z.of_nat i))
              (seq 0 ProfileCalendar.totalDays)).
Proof.
  rewrite days_eq, !map_map. apply map_ext. intros i.
  rewrite cellCount_tally. unfold shown.
  replace (startDay tz now <=? startDay tz now + Z.of_nat i)
    with true by (symmetry; apply Z.leb_le; lia).
  reflexivity.
Qed.

Lemma longestStreak_le_length (active : list Z) :
  Spec.longestStreak active <= Z.of_nat (length active).
Proof.
  destruct (longestStreak_consecutive active) as [_ (d & Hrun)].
  now apply (run_le_length active d).
Qed.

End CalendarMoreFacts.

(** X6. The statistics of the calendar page do not depend on the order
    in which the rows arrive (the query has no ORDER BY): the same
    records in another order give the same statistics, the same grid,
    the same count in every cell, and an activity map with the same
    entries. *)
Theorem calendar_stats_ignore_order (tz now : Z) (a b : list Question) :
  Permutation a b ->
  exists va vb,
    ProfileCalendar.fetchStats tz now a = JS.Ok va /\
    ProfileCalendar.fetchStats tz now b = JS.Ok vb /\
    ProfileCalendar.stats va = ProfileCalendar.stats vb /\
    ProfileCalendar.yearDays va = ProfileCalendar.yearDays vb /\
    Permutation (ProfileCalendar.activityMap va) (ProfileCalendar.activityMap vb) /\
    map (ProfileCalendar.cellCount (ProfileCalendar.activityMap va))
      (ProfileCalendar.yearDays va)
    = map (ProfileCalendar.cellCount (ProfileCalendar.activityMap vb))
        (ProfileCalendar.yearDays vb).
Proof.
  intros Hp. eexists. eexists.
  split; [apply fetchStats_eq|]. split; [apply fetchStats_eq|].
  cbn [ProfileCalendar.stats ProfileCalendar.yearDays ProfileCalendar.activityMap].
  assert (Hsame : CalendarView.sameLookups (Days.tally tz now a) (Days.tally tz now b))
    by (apply fold_countDay_perm, Hp).
  split; [|split; [reflexivity|split]].
  - rewrite (Permutation_length Hp), (length_filter_perm isCompleted a b Hp).
    f_equal.
    + apply currentStreak_ext, activeDays_perm, Hp.
    + apply longestStreak_ext, activeDays_perm, Hp.
  - apply sameLookups_perm; [apply keys_tally_NoDup|apply keys_tally_NoDup|].
    exact Hsame.
  - apply map_ext. intros date. now apply cellCount_sameLookups.
Qed.

(** X7. On the calendar page, for every input, 0 <= current streak <=
    longest streak <= number of entries of the activity map (the
    number the header shows), and that number is at most the number of
    records and at most 371. *)
Theorem calendar_streak_bounds (tz now : Z) (questions : list Question) :
  exists view,
    ProfileCalendar.fetchStats tz now questions = JS.Ok view /\
    let stats := ProfileCalendar.stats view in
    let entries := CalendarView.submissions (ProfileCalendar.activityMap view) in
    0 <= ProfileCalendar.currentStreak stats /\
    ProfileCalendar.currentStreak stats <= ProfileCalendar.longestStreak stats /\
    ProfileCalendar.longestStreak stats <= entries /\
    entries <= ProfileCalendar.total stats /\
    entries <= 371.
Proof.
  eexists. split; [apply fetchStats_eq|].
  cbn [ProfileCalendar.stats ProfileCalendar.activityMap
       ProfileCalendar.currentStreak ProfileCalendar.longestStreak
       ProfileCalendar.total]. cbv zeta.
  unfold CalendarView.submissions, JS.keys. rewrite length_map.
  split.
  { destruct (currentStreak_isStreak
                (Days.activeDays tz (Days.tally tz now questions))
                (Days.todayDay tz now)) as [H _]. exact H. }
  split; [apply spec_current_le_longest, activeDays_le_today|].
  split.
  { rewrite <- (length_activeDays tz). apply longestStreak_le_length. }
  rewrite length_tally. split.
  - apply inj_le. etransitivity; [apply length_nodup_le|].
    apply length_windowDays.
  - pose proof (startDay_bounds tz now) as Hb.
    pose proof (NoDup_span (Days.startDay tz now) (Days.todayDay tz now)
                  (nodup Z.eq_dec (Days.windowDays tz now questions))
                  (NoDup_nodup _ _)) as Hspan.
    assert (Hin : forall x,
               In x (nodup Z.eq_dec (Days.windowDays tz now questions)) ->
               Days.startDay tz now <= x <= Days.todayDay tz now).
    { intros x Hx. apply nodup_In, windowDays_In in Hx.
      destruct Hx as (q & _ & _ & H). exact H. }
    specialize (Hspan Hin). lia.
Qed.

(** At a fixed offset [tz].  The calendar loses no record of the window and counts none
    twice: the counts of the 371 cells add up to the number of records
    whose activity day lies in the window, and so do the counts stored
    in the activity map.  The number the header calls submissions is
    the number of entries, which is at most that number of records. *)
Lemma calendar_counts_every_window_record_at_offset (tz now : Z)
  (questions : list Question) :
  exists view counts,
    ProfileCalendar.fetchStats tz now questions = JS.Ok view /\
    let inside := Z.of_nat (length (filter (Days.inWindow tz now) questions)) in
    map (ProfileCalendar.cellCount (ProfileCalendar.activityMap view))
      (ProfileCalendar.yearDays view)
    = map JS.Ok counts /\
    CalendarView.sum counts = inside /\
    CalendarView.sum (map snd (ProfileCalendar.activityMap view)) = inside /\
    CalendarView.submissions (ProfileCalendar.activityMap view) <= inside.
Proof.
  eexists. eexists. split; [apply fetchStats_eq|].
  cbn [ProfileCalendar.yearDays ProfileCalendar.activityMap]. cbv zeta.
  split; [apply cells_eq|]. split; [|split].
  - apply sum_shown. pose proof (startDay_bounds tz now).
    unfold ProfileCalendar.totalDays. lia.
  - unfold Days.tally. rewrite sum_fold. reflexivity.
  - unfold CalendarView.submissions, JS.keys.
    rewrite length_map, length_tally, <- length_windowDays_eq.
    apply inj_le, length_nodup_le.
Qed.



(** At a fixed offset [tz].  On the calendar page the longest streak is the largest number
    of consecutive calendar days of the window that each have a
    record: every run of such days is at most that long, and one run
    of that length exists. *)
Lemma calendar_longest_streak_is_longest_run_at_offset (tz now : Z)
  (questions : list Question) :
  exists view,
    ProfileCalendar.fetchStats tz now questions = JS.Ok view /\
    let days := Days.windowDays tz now questions in
    let longest := ProfileCalendar.longestStreak (ProfileCalendar.stats view) in
    (forall d n, 0 <= n -> (forall i, 0 <= i < n -> In (d - i) days) ->
                 n <= longest) /\
    (exists d, forall i, 0 <= i < longest -> In (d - i) days).
Proof.
  eexists. split; [apply fetchStats_eq|].
  cbn [ProfileCalendar.stats ProfileCalendar.longestStreak]. cbv zeta.
  rewrite longestStreak_window. apply longestStreak_consecutive.
Qed.


Lemma calendar_stats_ignore_order_witness :
  exists va vb,
    ProfileCalendar.fetchStats Sample.utc (Sample.at_ Sample.utc Sample.monday 10)
      [Sample.solved (Sample.at_ Sample.utc Sample.monday 9);
       Sample.solved (Sample.at_ Sample.utc (Sample.monday - 1) 9)]
    = JS.Ok va /\
    ProfileCalendar.fetchStats Sample.utc (Sample.at_ Sample.utc Sample.monday 10)
      [Sample.solved (Sample.at_ Sample.utc (Sample.monday - 1) 9);
       Sample.solved (Sample.at_ Sample.utc Sample.monday 9)]
    = JS.Ok vb /\
    ProfileCalendar.stats va = ProfileCalendar.stats vb /\
    ProfileCalendar.yearDays va = ProfileCalendar.yearDays vb /\
    Permutation (ProfileCalendar.activityMap va) (ProfileCalendar.activityMap vb) /\
    map (ProfileCalendar.cellCount (ProfileCalendar.activityMap va))
      (ProfileCalendar.yearDays va)
    = map (ProfileCalendar.cellCount (ProfileCalendar.activityMap vb))
        (ProfileCalendar.yearDays vb).
Proof.
  apply calendar_stats_ignore_order. apply perm_swap.
Defined.

Lemma dashboard_stats_ignore_order_witness :
  Dashboard.fetchStats Sample.utc (Sample.at_ Sample.utc Sample.monday 10)
    [Sample.solved (Sample.at_ Sample.utc Sample.monday 9);
     Sample.started 0]
  = Dashboard.fetchStats Sample.utc (Sample.at_ Sample.utc Sample.monday 10)
      [Sample.started 0;
       Sample.solved (Sample.at_ Sample.utc Sample.monday 9)].
Proof.
  apply dashboard_stats_ignore_order. apply perm_swap.
Defined.

(* ================================================================== *)
(** * The table behind the pages *)
(* ================================================================== *)

Section StoreFacts.
Import QuestionForm Store.

Lemma orEmpty_orNull (s : text) : orEmpty (orNull s) = s.
Proof. now destruct s. Qed.

(** The query of [fetchQuestion], read on the rows the user sees. *)
Lemma filter_id_rowsOf (user i : Z) (t : Table) :
  filter (fun r => (id r =? i) && (user_id r =? user)) t
  = filter (fun r => id r =? i) (rowsOf user t).
Proof.
  unfold rowsOf. induction t as [|r t IH]; [reflexivity|].
  cbn [filter]. destruct (user_id r =? user); cbn [filter].
  - rewrite andb_true_r. destruct (id r =? i); now rewrite IH.
  - now rewrite andb_false_r.
Qed.

Lemma fetchQuestion_rowsOf (user i : Z) (a b : Table) :
  rowsOf user a = rowsOf user b ->
  fetchQuestion user i a = fetchQuestion user i b.
Proof.
  intros H. unfold fetchQuestion. now rewrite !filter_id_rowsOf, H.
Qed.

Lemma rowsOf_update (user other : Z) (p : Payload) (target now : Z) (t : Table) :
  p_user_id p = user -> other <> user ->
  rowsOf other (update user p target now t) = rowsOf other t.
Proof.
  intros Hp Hne. unfold rowsOf, update.
  induction t as [|r t IH]; [reflexivity|].
  cbn [map filter]. rewrite IH.
  destruct ((id r =? target) && (user_id r =? user)) eqn:E; [|reflexivity].
  apply andb_prop in E. destruct E as [_ E]. apply Z.eqb_eq in E.
  cbn [updateRow user_id]. rewrite Hp, E.
  destruct (Z.eqb_spec user other); [congruence|reflexivity].
Qed.

Lemma rowsOf_handleDelete (user other i : Z) (t : Table) :
  other <> user ->
  rowsOf other (handleDelete user i t) = rowsOf other t.
Proof.
  intros Hne. unfold rowsOf, handleDelete.
  induction t as [|r t IH]; [reflexivity|].
  cbn [filter].
  destruct (Z.eqb_spec (user_id r) user) as [E|E].
  - rewrite andb_true_r.
    destruct (Z.eqb_spec (user_id r) other) as [E'|E']; [congruence|].
    destruct (negb (id r =? i)); cbn [filter]; [|exact IH].
    destruct (Z.eqb_spec (user_id r) other); [congruence|exact IH].
  - rewrite andb_false_r. cbn [negb filter]. now rewrite IH.
Qed.

Lemma rowsOf_handleDeleteAccount (user other : Z) (t : Table) :
  other <> user ->
  rowsOf other (handleDeleteAccount user t) = rowsOf other t.
Proof.
  intros Hne. unfold rowsOf, handleDeleteAccount.
  induction t as [|r t IH]; [reflexivity|].
  cbn [filter].
  destruct (Z.eqb_spec (user_id r) user) as [E|E]; cbn [negb filter].
  - destruct (Z.eqb_spec (user_id r) other); [congruence|exact IH].
  - now rewrite IH.
Qed.

Lemma rowsOf_act (t : Table) (a : Action) (other : Z) :
  other <> actor a -> rowsOf other (act t a) = rowsOf other t.
Proof.
  intros Hne. destruct a as [s|user i|user]; cbn [act actor] in *.
  - unfold submit, handleSubmit. destruct (isEdit s) as [target|].
    + now apply rowsOf_update.
    + unfold insert, rowsOf. rewrite filter_app. cbn [filter insertRow user_id payload p_user_id].
      destruct (Z.eqb_spec (by_user s) other); [congruence|].
      apply app_nil_r.
  - now apply rowsOf_handleDelete.
  - now apply rowsOf_handleDeleteAccount.
Qed.

(** The rows an update matches are the rows it leaves matching. *)
Lemma filter_update (user : Z) (p : Payload) (target now : Z) (t : Table) :
  p_user_id p = user ->
  filter (fun r => (id r =? target) && (user_id r =? user))
    (update user p target now t)
  = map (updateRow p now)
      (filter (fun r => (id r =? target) && (user_id r =? user)) t).
Proof.
  intros Hp. unfold update. induction t as [|r t IH]; [reflexivity|].
  cbn [map filter].
  destruct ((id r =? target) && (user_id r =? user)) eqn:E.
  - assert (E' : (id (updateRow p now r) =? target)
                 && (user_id (updateRow p now r) =? user) = true).
    { apply andb_prop in E. destruct E as [E _].
      cbn [updateRow id user_id]. now rewrite E, Hp, Z.eqb_refl. }
    rewrite E'. cbn [map]. now rewrite IH.
  - rewrite E. exact IH.
Qed.

Lemma single_Some {A} (rows : list A) (row : A) :
  single rows = Some row -> rows = [row].
Proof.
  destruct rows as [|a [|b rows]]; cbn; intros H; try discriminate.
  now injection H as ->.
Qed.

Lemma filter_none {A} (p : A -> bool) (l : list A) :
  (forall x, In x l -> p x = false) -> filter p l = [].
Proof.
  induction l as [|a l IH]; intros H; [reflexivity|].
  cbn [filter]. rewrite (H a (or_introl eq_refl)).
  apply IH. intros x Hx. apply H. now right.
Qed.

(** No page writes [last_solved_at]: every row a series of actions
    leaves has it NULL. *)
Lemma act_last_solved_at (t : Table) (a : Action) :
  Forall (fun r => last_solved_at r = None) t ->
  Forall (fun r => last_solved_at r = None) (act t a).
Proof.
  intros H. destruct a as [s|user i|user]; cbn [act].
  - unfold submit, handleSubmit. destruct (isEdit s) as [target|].
    + unfold update. rewrite Forall_forall in *. intros r Hr.
      apply in_map_iff in Hr. destruct Hr as (r0 & <- & Hr0).
      destruct ((id r0 =? target) && (user_id r0 =? by_user s));
        cbn [updateRow last_solved_at]; now apply H.
    + unfold insert. apply Forall_app. split; [exact H|].
      constructor; [reflexivity|constructor].
  - unfold handleDelete. rewrite Forall_forall in *. intros r Hr.
    apply filter_In in Hr. now apply H.
  - unfold handleDeleteAccount. rewrite Forall_forall in *. intros r Hr.
    apply filter_In in Hr. now apply H.
Qed.

Lemma fold_act_last_solved_at (actions : list Action) (t : Table) :
  Forall (fun r => last_solved_at r = None) t ->
  Forall (fun r => last_solved_at r = None) (fold_left act actions t).
Proof.
  revert t. induction actions as [|a actions IH]; intros t H; [exact H|].
  cbn [fold_left]. now apply IH, act_last_solved_at.
Qed.

Lemma run_last_solved_at (actions : list Action) :
  Forall (fun r => last_solved_at r = None) (run actions).
Proof. apply fold_act_last_solved_at. constructor. Qed.

Lemma lastSolved_unsolved (t : Table) (user : Z) :
  Forall (fun r => last_solved_at r = None) t ->
  Days.lastSolved (selectQuestions user t) = [].
Proof.
  intros H. unfold Days.lastSolved. rewrite filter_none; [reflexivity|].
  intros q Hq. unfold selectQuestions in Hq.
  apply in_map_iff in Hq. destruct Hq as (r & <- & Hr).
  apply filter_In in Hr. destruct Hr as [Hr _].
  rewrite Forall_forall in H. unfold toQuestion. simpl.
  now rewrite (H r Hr).
Qed.

End StoreFacts.

(** X11. What one user does through the pages (a create or an edit in
    the form, deleting a question, deleting the account) never changes
    the rows another user sees, whatever id is named: the rows of every
    other user are the same before and after, and so is every question
    the other user opens in the form. *)
Theorem actions_leave_other_users_rows (t : QuestionForm.Table)
  (a : Store.Action) (other : Z) :
  other <> Store.actor a ->
  Store.rowsOf other (Store.act t a) = Store.rowsOf other t /\
  Store.selectQuestions other (Store.act t a) = Store.selectQuestions other t /\
  forall id, Store.fetchQuestion other id (Store.act t a)
             = Store.fetchQuestion other id t.
Proof.
  intros Hne. pose proof (rowsOf_act t a other Hne) as H.
  split; [exact H|]. split.
  - change (map Store.toQuestion (Store.rowsOf other (Store.act t a))
            = map Store.toQuestion (Store.rowsOf other t)).
    now rewrite H.
  - intros i. now apply fetchQuestion_rowsOf.
Qed.

(** X12. A question created in the form reads back as it was entered:
    when the new id is not in the table, opening the question in the
    form after the insert gives exactly the form data that were
    submitted (an empty solution is stored as NULL and read back as
    the empty text). *)
Theorem created_question_reads_back (user : Z)
  (formData : QuestionForm.FormData) (newId now : Z) (t : QuestionForm.Table) :
  ~ In newId (map QuestionForm.id t) ->
  Store.fetchQuestion user newId
    (QuestionForm.handleSubmit user None formData newId now t)
  = Some formData.
Proof.
  intros Hfresh. unfold Store.fetchQuestion, QuestionForm.handleSubmit,
    QuestionForm.insert.
  rewrite filter_app, filter_none.
  2:{ intros r Hr. destruct (Z.eqb_spec (QuestionForm.id r) newId) as [E|E];
        [|reflexivity].
      exfalso. apply Hfresh. rewrite <- E. now apply in_map. }
  cbn [app filter QuestionForm.insertRow QuestionForm.id QuestionForm.user_id
       QuestionForm.payload QuestionForm.p_user_id].
  rewrite !Z.eqb_refl. cbn [andb Store.single].
  destruct formData as [a b c d e f code]. cbn. now destruct code.
Qed.

(** X13. An edit reads back as it was entered: when the form could
    load the question (the query for the id gave exactly one row of
    the user), opening it again after the update gives exactly the
    form data that were submitted. *)
Theorem edited_question_reads_back (user target : Z)
  (loaded formData : QuestionForm.FormData) (newId now : Z)
  (t : QuestionForm.Table) :
  Store.fetchQuestion user target t = Some loaded ->
  Store.fetchQuestion user target
    (QuestionForm.handleSubmit user (Some target) formData newId now t)
  = Some formData.
Proof.
  unfold Store.fetchQuestion, QuestionForm.handleSubmit.
  rewrite filter_update by reflexivity.
  destruct (Store.single _) as [row|] eqn:Es; [|discriminate].
  intros _. apply single_Some in Es. rewrite Es.
  cbn [map Store.single].
  destruct formData as [a b c d e f code]. cbn. now destruct code.
Qed.

(** X14. An edit touches one question only: the table keeps its rows
    in number and order with their ids, owners, creation times, notes
    and solve dates, and the rows with another id, or of another user,
    are left as they were. *)
Theorem edit_touches_one_question (user target : Z)
  (formData : QuestionForm.FormData) (newId now : Z) (t : QuestionForm.Table) :
  let t' := QuestionForm.handleSubmit user (Some target) formData newId now t in
  let others := filter (fun r => negb ((QuestionForm.id r =? target)
                                       && (QuestionForm.user_id r =? user))) in
  map QuestionForm.id t' = map QuestionForm.id t /\
  map QuestionForm.user_id t' = map QuestionForm.user_id t /\
  map QuestionForm.created_at t' = map QuestionForm.created_at t /\
  map QuestionForm.notes t' = map QuestionForm.notes t /\
  map QuestionForm.last_solved_at t' = map QuestionForm.last_solved_at t /\
  others t' = others t.
Proof.
  cbv zeta. unfold QuestionForm.handleSubmit, QuestionForm.update.
  induction t as [|r t (IH1 & IH2 & IH3 & IH4 & IH5 & IH6)].
  - cbn. repeat split.
  - cbn [map filter]. rewrite IH1, IH2, IH3, IH4, IH5, IH6.
    destruct (Z.eqb_spec (QuestionForm.id r) target) as [Ei|Ei];
      destruct (Z.eqb_spec (QuestionForm.user_id r) user) as [Eu|Eu];
      cbn [andb negb QuestionForm.updateRow QuestionForm.id QuestionForm.user_id
           QuestionForm.created_at QuestionForm.notes QuestionForm.last_solved_at
           QuestionForm.payload QuestionForm.p_user_id];
      rewrite ?Eu, ?Ei, ?Z.eqb_refl; cbn [andb negb];
      try (destruct (Z.eqb_spec (QuestionForm.id r) target); [congruence|]);
      try (destruct (Z.eqb_spec (QuestionForm.user_id r) user); [congruence|]);
      rewrite ?andb_false_r; cbn [andb negb]; repeat split.
Qed.

(** X15. No page writes the column last_solved_at.  After every series
    of actions of the pages on an empty table, for every user, zone
    and clock reading, the Dashboard shows a streak of 0 and the
    Profile page that reads last_solved_at alone shows a current and a
    longest streak of 0. *)
Theorem streaks_of_last_solved_at_stay_zero (actions : list Store.Action)
  (user tz now : Z) :
  let questions := Store.selectQuestions user (Store.run actions) in
  Dashboard.streak (Dashboard.fetchStats tz now questions) = 0 /\
  Profile.currentStreak (Profile.fetchStats tz now questions) = 0 /\
  Profile.longestStreak (Profile.fetchStats tz now questions) = 0.
Proof.
  cbv zeta.
  pose proof (lastSolved_unsolved (Store.run actions) user
                (run_last_solved_at actions)) as H.
  unfold Days.lastSolved in H.
  unfold Dashboard.fetchStats, Profile.fetchStats, Dashboard.sortedDates,
    Profile.solvedDates.
  rewrite H. repeat split.
Qed.

Section StoreStats.
Import QuestionForm Store.

Lemma recordsOn_pos (tz d : Z) (q : Question) (questions : list Question) :
  In q questions -> Days.activityDay tz q = Some d ->
  1 <= Days.recordsOn tz d questions.
Proof.
  intros Hin Hd. unfold Days.recordsOn.
  assert (Hq : In q (filter (fun q => match Days.activityDay tz q with
                                      | Some d' => d' =? d
                                      | None => false
                                      end) questions)).
  { apply filter_In. split; [exact Hin|]. rewrite Hd. apply Z.eqb_refl. }
  destruct (filter _ questions) as [|a l]; [contradiction|].
  cbn [length]. lia.
Qed.

(** A row the form has just saved as Completed, with no solve date,
    counts on the day of the save. *)
Lemma activityDay_saved (tz : Z) (r : Row) :
  status r = Completed -> last_solved_at r = None ->
  Days.activityDay tz (toQuestion r) = Some (JS.localDay tz (updated_at r)).
Proof.
  intros Hs Hl. unfold Days.activityDay, ProfileCalendar.dateSource, isCompleted.
  unfold toQuestion. simpl.
  now rewrite Hl, Hs.
Qed.

Lemma run_snoc (actions : list Action) (a : Action) :
  run (actions ++ [a]) = act (run actions) a.
Proof. unfold run. now rewrite fold_left_app. Qed.

(** The row a submission leaves in the table. *)
Lemma submit_row (t : Table) (s : Submission) :
  Forall (fun r => last_solved_at r = None) t ->
  editable (by_user s) (isEdit s) t ->
  exists r, In r (submit t s) /\ user_id r = by_user s /\
            status r = f_status (formData s) /\
            updated_at r = at_time s /\ last_solved_at r = None.
Proof.
  intros Hnull Hed. unfold submit, handleSubmit.
  destruct (isEdit s) as [target|]; cbn [editable] in Hed.
  - destruct Hed as (r & Hr & Hi & Hu).
    exists (updateRow (payload (by_user s) (formData s)) (at_time s) r).
    split.
    + unfold update. apply in_map_iff. exists r. split; [|exact Hr].
      now rewrite Hi, Hu, !Z.eqb_refl.
    + rewrite Forall_forall in Hnull. cbn. repeat split. now apply Hnull.
  - exists (insertRow (payload (by_user s) (formData s)) (newId s) (at_time s)).
    split; [|now cbn].
    unfold insert. apply in_or_app. right. now left.
Qed.

Lemma fetchQuestion_handleDelete (user i j : Z) (t : Table) :
  filter (fun r => (id r =? j) && (user_id r =? user)) (handleDelete user i t)
  = if j =? i then []
    else filter (fun r => (id r =? j) && (user_id r =? user)) t.
Proof.
  unfold handleDelete. induction t as [|r t IH].
  - now destruct (j =? i).
  - cbn [filter].
    destruct (Z.eqb_spec (id r) i) as [Ei|Ei];
      destruct (Z.eqb_spec (user_id r) user) as [Eu|Eu];
      destruct (Z.eqb_spec (id r) j) as [Ej|Ej];
      destruct (Z.eqb_spec j i) as [Eji|Eji];
      cbn [andb negb filter]; rewrite ?IH;
      try (destruct (Z.eqb_spec (id r) j); [|congruence]);
      try (destruct (Z.eqb_spec (id r) j); [congruence|]);
      try (destruct (Z.eqb_spec (user_id r) user); [|congruence]);
      try (destruct (Z.eqb_spec (user_id r) user); [congruence|]);
      try (destruct (Z.eqb_spec j i); [|congruence]);
      try (destruct (Z.eqb_spec j i); [congruence|]);
      cbn [andb]; try reflexivity; try congruence.
Qed.

End StoreStats.

(** X16. The calendar page falls back on the time of the last update:
    after any series of actions of the pages, a submission of the form
    with status Completed (a create, or an edit of a question the user
    can see) puts at least one record on the cell of the day of the
    submission, as long as that day is in the window.  The pages that
    read last_solved_at alone show no streak for the same table. *)
Theorem completing_marks_the_day (actions : list Store.Action)
  (s : Store.Submission) (tz now : Z) :
  QuestionForm.f_status (Store.formData s) = Completed ->
  Store.editable (Store.by_user s) (Store.isEdit s) (Store.run actions) ->
  Days.startDay tz now <= JS.localDay tz (Store.at_time s) <= Days.todayDay tz now ->
  exists view count,
    ProfileCalendar.fetchStats tz now
      (Store.selectQuestions (Store.by_user s)
         (Store.run (actions ++ [Store.Submit s])))
    = JS.Ok view /\
    ProfileCalendar.cellCount (ProfileCalendar.activityMap view)
      (Days.midnightOf tz (JS.localDay tz (Store.at_time s)))
    = JS.Ok count /\
    1 <= count.
Proof.
  intros Hdone Hed Hwin. eexists. eexists.
  split; [apply fetchStats_eq|].
  cbn [ProfileCalendar.activityMap].
  split; [apply cellCount_tally|].
  replace (Days.startDay tz now <=? JS.localDay tz (Store.at_time s))
    with true by (symmetry; apply Z.leb_le; lia).
  replace (JS.localDay tz (Store.at_time s) <=? Days.todayDay tz now)
    with true by (symmetry; apply Z.leb_le; lia).
  cbn [andb]. rewrite run_snoc. cbn [Store.act].
  destruct (submit_row (Store.run actions) s (run_last_solved_at actions) Hed)
    as (r & Hr & Hu & Hs & Ht & Hl).
  apply (recordsOn_pos tz _ (Store.toQuestion r)).
  - unfold Store.selectQuestions. apply in_map, filter_In.
    split; [exact Hr|]. now apply Z.eqb_eq.
  - rewrite <- Ht. apply activityDay_saved; [congruence|exact Hl].
Qed.

(** X17. After the Delete Account button the user's pages are empty,
    whatever the table held: the statistics queries return no record,
    no question opens in the form, the Dashboard counts nothing and
    draws no chart slice, and the calendar page has an empty activity
    map and streaks of 0. *)
Theorem deleted_account_shows_nothing (user tz now : Z) (t : QuestionForm.Table) :
  let t' := Store.handleDeleteAccount user t in
  let questions := Store.selectQuestions user t' in
  questions = [] /\
  (forall id, Store.fetchQuestion user id t' = None) /\
  Dashboard.total (Dashboard.fetchStats tz now questions) = 0 /\
  DashboardView.chartData (Dashboard.fetchStats tz now questions) = [] /\
  exists view,
    ProfileCalendar.fetchStats tz now questions = JS.Ok view /\
    ProfileCalendar.activityMap view = [] /\
    ProfileCalendar.total (ProfileCalendar.stats view) = 0 /\
    ProfileCalendar.currentStreak (ProfileCalendar.stats view) = 0 /\
    ProfileCalendar.longestStreak (ProfileCalendar.stats view) = 0.
Proof.
  cbv zeta.
  assert (Hrows : Store.rowsOf user (Store.handleDeleteAccount user t) = []).
  { unfold Store.rowsOf, Store.handleDeleteAccount. apply filter_none.
    intros r Hr. apply filter_In in Hr. destruct Hr as [_ Hr].
    now apply negb_true_iff in Hr. }
  assert (Hq : Store.selectQuestions user (Store.handleDeleteAccount user t) = []).
  { change (map Store.toQuestion
              (Store.rowsOf user (Store.handleDeleteAccount user t)) = []).
    now rewrite Hrows. }
  split; [exact Hq|]. split.
  { intros i. unfold Store.fetchQuestion. now rewrite filter_id_rowsOf, Hrows. }
  rewrite Hq. split; [reflexivity|]. split; [reflexivity|].
  eexists. split; [apply fetchStats_eq|]. repeat split.
Qed.

(** X18. Deleting a question removes that question and no other: the
    deleted id no longer opens in the form, and every other id opens
    exactly as before. *)
Theorem deleted_question_is_gone (user id : Z) (t : QuestionForm.Table) :
  Store.fetchQuestion user id (Store.handleDelete user id t) = None /\
  forall other, other <> id ->
    Store.fetchQuestion user other (Store.handleDelete user id t)
    = Store.fetchQuestion user other t.
Proof.
  split.
  - unfold Store.fetchQuestion.
    now rewrite fetchQuestion_handleDelete, Z.eqb_refl.
  - intros other Hne. unfold Store.fetchQuestion.
    rewrite fetchQuestion_handleDelete.
    destruct (Z.eqb_spec other id); [congruence|reflexivity].
Qed.

(* ================================================================== *)
(** * The Profile page that reads last_solved_at alone *)
(* ================================================================== *)

Section ProfilePage.
Import JS Days.

Variable tz : Z.
Variable now : Z.

(** Valid dates are the dates of their time values. *)
Lemma valid_dates (dates : list Date) :
  Forall (fun date => exists t, date = Some t) dates ->
  exists times, dates = map Some times.
Proof.
  induction 1 as [|date dates (t & ->) _ (times & ->)].
  - now exists [].
  - now exists (t :: times).
Qed.

Lemma profile_fetchStats_streaks (questions : list Question) :
  (Profile.currentStreak (Profile.fetchStats tz now questions),
   Profile.longestStreak (Profile.fetchStats tz now questions))
  = Profile.streaks tz now (sort byTimeDesc (lastSolved questions)).
Proof.
  unfold Profile.fetchStats, Profile.solvedDates, lastSolved.
  now destruct (Profile.streaks tz now _).
Qed.

(** The latest day heads the descending list. *)
Lemma countBack_after (day : Z) (days : list Z) :
  StronglySorted Z.gt days ->
  (exists d, In d days /\ day < d) ->
  countBack day days = 0.
Proof.
  intros Hs (d & Hd & Hlt). destruct days as [|e rest]; [reflexivity|].
  cbn [countBack]. apply StronglySorted_inv in Hs. destruct Hs as [_ Hall].
  destruct (Z.eqb_spec e day) as [->|]; [|reflexivity].
  destruct Hd as [->|Hd]; [lia|].
  rewrite Forall_forall in Hall. specialize (Hall d Hd). lia.
Qed.

End ProfilePage.

(** X19. When every last_solved_at is a valid date and none falls after
    today, the Profile page that reads last_solved_at alone and the
    Dashboard show the same current streak, for every list of records,
    zone and clock reading. *)
Theorem profile_streak_equals_dashboard (tz now : Z) (questions : list Question) :
  Forall (fun date => exists t, date = Some t
                                /\ JS.localDay tz t <= Days.todayDay tz now)
    (Days.lastSolved questions) ->
  Profile.currentStreak (Profile.fetchStats tz now questions)
  = Dashboard.streak (Dashboard.fetchStats tz now questions).
Proof.
  intros Hall.
  assert (Hvalid : Forall (fun date : JS.Date => exists t, date = Some t)
                     (Days.lastSolved questions)).
  { eapply Forall_impl; [|exact Hall]. intros date (t & -> & _). now exists t. }
  destruct (valid_dates _ Hvalid) as (times & Htimes).
  assert (Hle : Forall (fun t => JS.localDay tz t <= Days.todayDay tz now) times).
  { rewrite Htimes in Hall. rewrite Forall_forall in *. intros t Ht.
    destruct (Hall (Some t) (in_map Some _ _ Ht)) as (t' & Ht' & Hle).
    injection Ht' as ->. exact Hle. }
  change (Profile.currentStreak (Profile.fetchStats tz now questions))
    with (fst (Profile.currentStreak (Profile.fetchStats tz now questions),
               Profile.longestStreak (Profile.fetchStats tz now questions))).
  rewrite profile_fetchStats_streaks, Htimes.
  rewrite <- (dashboard_profile_agree tz now times Hle).
  cbn [Dashboard.fetchStats Dashboard.streak].
  unfold Dashboard.sortedDates. fold (Days.lastSolved questions).
  now rewrite Htimes.
Qed.

(** At a fixed offset [tz].  On the Profile page that reads
    last_solved_at alone, when
    every last_solved_at is a valid date, the longest streak is the
    largest number of consecutive calendar days that each have a
    solve, over all records (this page has no window): no run of such
    days is longer, and one run of that length exists. *)
Lemma profile_longest_streak_is_longest_run_at_offset (tz now : Z)
  (questions : list Question) :
  Forall (fun date : JS.Date => exists t, date = Some t)
    (Days.lastSolved questions) ->
  let days := Days.solvedDays tz (Days.lastSolved questions) in
  let longest := Profile.longestStreak (Profile.fetchStats tz now questions) in
  (forall d n, 0 <= n -> (forall i, 0 <= i < n -> In (d - i) days) ->
               n <= longest) /\
  (exists d, forall i, 0 <= i < longest -> In (d - i) days).
Proof.
  intros Hvalid. cbv zeta.
  destruct (valid_dates _ Hvalid) as (times & Htimes).
  change (Profile.longestStreak (Profile.fetchStats tz now questions))
    with (snd (Profile.currentStreak (Profile.fetchStats tz now questions),
               Profile.longestStreak (Profile.fetchStats tz now questions))).
  rewrite profile_fetchStats_streaks, Htimes, profile_streaks_valid.
  cbn [snd]. apply longestStreak_consecutive.
Qed.

(** X21. On the Profile page that reads last_solved_at alone, one solve
    date after today (a clock set back, a row written from another
    zone) makes the current streak 0 when the dates are valid,
    whatever the other records are: the first loop compares the
    latest day with today and stops at once. *)
Theorem profile_streak_stops_at_later_date (tz now : Z)
  (questions : list Question) :
  Forall (fun date : JS.Date => exists t, date = Some t)
    (Days.lastSolved questions) ->
  Exists (fun date => exists t, date = Some t
                                /\ Days.todayDay tz now < JS.localDay tz t)
    (Days.lastSolved questions) ->
  Profile.currentStreak (Profile.fetchStats tz now questions) = 0.
Proof.
  intros Hvalid Hlater.
  destruct (valid_dates _ Hvalid) as (times & Htimes).
  change (Profile.currentStreak (Profile.fetchStats tz now questions))
    with (fst (Profile.currentStreak (Profile.fetchStats tz now questions),
               Profile.longestStreak (Profile.fetchStats tz now questions))).
  rewrite profile_fetchStats_streaks, Htimes, profile_streaks_valid.
  cbn [fst]. apply countBack_after; [apply descending_strict|].
  apply Exists_exists in Hlater. destruct Hlater as (date & Hin & t & -> & Hlt).
  exists (JS.localDay tz t). split; [|exact Hlt].
  apply descending_In. rewrite <- Htimes.
  unfold Days.solvedDays. apply in_flat_map. exists (Some t).
  split; [exact Hin|now left].
Qed.

(* ================================================================== *)
(** * The question list *)
(* ================================================================== *)

Section QuestionList.
Import JS.

Lemma insert_StronglySorted {A} (c : A -> A -> option Z) (R : A -> A -> Prop) :
  (forall x y, sortCompare c x y <= 0 -> R x y) ->
  (forall x y, 0 < sortCompare c x y -> R y x) ->
  (forall x y z, R x y -> R y z -> R x z) ->
  forall x xs, StronglySorted R xs -> StronglySorted R (insert c x xs).
Proof.
  intros Hle Hgt Htrans x xs Hs.
  induction Hs as [|y ys Hs IH Hall]; cbn [insert].
  - repeat constructor.
  - destruct (Z.leb_spec (sortCompare c x y) 0) as [H|H].
    + constructor; [now constructor|]. constructor; [now apply Hle|].
      rewrite Forall_forall in *. intros z Hz.
      apply (Htrans x y z); [now apply Hle|now apply Hall].
    + constructor; [exact IH|].
      rewrite Forall_forall in *. intros z Hz.
      apply (Permutation_in _ (insert_perm c x ys)) in Hz.
      destruct Hz as [<-|Hz]; [now apply Hgt|now apply Hall].
Qed.

Lemma sort_StronglySorted {A} (c : A -> A -> option Z) (R : A -> A -> Prop) :
  (forall x y, sortCompare c x y <= 0 -> R x y) ->
  (forall x y, 0 < sortCompare c x y -> R y x) ->
  (forall x y z, R x y -> R y z -> R x z) ->
  forall xs, StronglySorted R (sort c xs).
Proof.
  intros Hle Hgt Htrans xs. induction xs as [|x xs IH]; cbn [sort fold_right].
  - constructor.
  - now apply insert_StronglySorted.
Qed.

(** A stable sort leaves a sorted array as it is. *)
Lemma sort_sorted_id {A} (c : A -> A -> option Z) (R : A -> A -> Prop) :
  (forall x y, R x y -> sortCompare c x y <= 0) ->
  forall xs, StronglySorted R xs -> sort c xs = xs.
Proof.
  intros Hle xs Hs. induction Hs as [|x xs Hs IH Hall]; [reflexivity|].
  cbn [sort fold_right]. fold (sort c xs). rewrite IH.
  destruct xs as [|y ys]; [reflexivity|]. cbn [insert].
  apply Forall_inv in Hall.
  destruct (Z.leb_spec (sortCompare c x y) 0) as [H|H]; [reflexivity|].
  specialize (Hle x y Hall). lia.
Qed.

Lemma insert_first {A} (c : A -> A -> option Z) (x : A) (xs : list A) :
  (forall y, In y xs -> sortCompare c x y <= 0) -> insert c x xs = x :: xs.
Proof.
  intros H. destruct xs as [|y ys]; [reflexivity|]. cbn [insert].
  destruct (Z.leb_spec (sortCompare c x y) 0) as [_|Hgt]; [reflexivity|].
  specialize (H y (or_introl eq_refl)). lia.
Qed.

Lemma insert_completed (x : QuestionForm.Row) (xs : list QuestionForm.Row) :
  insert (Questions.compare Questions.completed) x
    (filter Questions.isCompleted xs
     ++ filter (fun q => negb (Questions.isCompleted q)) xs)
  = filter Questions.isCompleted (x :: xs)
    ++ filter (fun q => negb (Questions.isCompleted q)) (x :: xs).
Proof.
  cbn [filter]. destruct (Questions.isCompleted x) eqn:Ex; cbn [negb].
  - cbn [app]. apply insert_first. intros y _.
    unfold sortCompare, Questions.compare. rewrite Ex.
    now destruct (Questions.isCompleted y).
  - induction xs as [|y ys IH]; [reflexivity|].
    cbn [filter]. destruct (Questions.isCompleted y) eqn:Ey; cbn [negb app insert].
    + unfold sortCompare at 1, Questions.compare at 1. rewrite Ex, Ey.
      cbn [andb negb orZero Z.leb Z.compare]. now rewrite IH.
    + clear IH.
      assert (Hall : Forall (fun q => Questions.isCompleted q = true)
                       (filter Questions.isCompleted ys)).
      { apply Forall_forall. intros q Hq. now apply filter_In in Hq. }
      induction (filter Questions.isCompleted ys) as [|z zs IH].
      * cbn [app insert]. unfold sortCompare, Questions.compare.
        now rewrite Ex, Ey.
      * cbn [app insert]. unfold sortCompare at 1, Questions.compare at 1.
        rewrite Ex, (Forall_inv Hall).
        cbn [andb negb orZero Z.leb Z.compare].
        now rewrite (IH (Forall_inv_tail Hall)).
Qed.

Lemma sort_completed (xs : list QuestionForm.Row) :
  sort (Questions.compare Questions.completed) xs
  = filter Questions.isCompleted xs
    ++ filter (fun q => negb (Questions.isCompleted q)) xs.
Proof.
  induction xs as [|x xs IH]; [reflexivity|].
  cbn [sort fold_right]. fold (sort (Questions.compare Questions.completed) xs).
  rewrite IH. apply insert_completed.
Qed.

Lemma filter_and {A} (p q : A -> bool) (l : list A) :
  filter p (filter q l) = filter (fun x => q x && p x) l.
Proof.
  induction l as [|a l IH]; [reflexivity|].
  cbn [filter]. destruct (q a); cbn [filter andb]; now rewrite IH.
Qed.

Lemma filter_all {A} (p : A -> bool) (l : list A) :
  (forall x, p x = true) -> filter p l = l.
Proof.
  intros H. induction l as [|a l IH]; [reflexivity|].
  cbn [filter]. now rewrite H, IH.
Qed.

Variable toLowerCase : Questions.text -> Questions.text.

(** The filters of [filterQuestions] keep the rows that pass all of
    them, in their order. *)
Lemma filterQuestions_eq (st : Questions.Filters) (questions : list QuestionForm.Row) :
  Questions.filterQuestions toLowerCase st questions
  = sort (Questions.compare (Questions.sortBy st))
      (filter (Questions.passes toLowerCase st) questions).
Proof.
  unfold Questions.filterQuestions, Questions.passes. cbv zeta. f_equal.
  destruct (Questions.truthy (Questions.searchQuery st));
    destruct (Questions.difficultyFilter st) as [d|];
    destruct (Questions.statusFilter st) as [s|];
    destruct (String.eqb (Questions.languageFilter st) _);
    destruct (String.eqb (Questions.topicFilter st) _);
    cbn [negb orb andb];
    rewrite ?filter_and;
    try (apply filter_ext; intros q;
         rewrite ?andb_true_r, ?andb_true_l, ?andb_assoc; reflexivity);
    symmetry; now apply filter_all.
Qed.

End QuestionList.

(** X22. The question list shows exactly the rows that pass every
    filter that is set, each as often as it occurs in the list that
    was fetched: filtering and sorting lose and invent no row. *)
Theorem question_list_shows_matching_rows
  (toLowerCase : Questions.text -> Questions.text)
  (st : Questions.Filters) (questions : list QuestionForm.Row) :
  Permutation (Questions.filterQuestions toLowerCase st questions)
    (filter (Questions.passes toLowerCase st) questions).
Proof. rewrite filterQuestions_eq. apply sort_perm. Qed.

(** X23. The order of the question list.  Under "Newest First" the
    rows are in descending order of created_at, under "Oldest First"
    in ascending order; under "Completed First" the completed rows
    come first and the others after them, each group in the order of
    the fetched list. *)
Theorem question_list_order
  (toLowerCase : Questions.text -> Questions.text)
  (st : Questions.Filters) (questions : list QuestionForm.Row) :
  let shown := Questions.filterQuestions toLowerCase st questions in
  let kept := filter (Questions.passes toLowerCase st) questions in
  match Questions.sortBy st with
  | Questions.newest =>
      StronglySorted (fun a b => QuestionForm.created_at a >= QuestionForm.created_at b)
        shown
  | Questions.oldest =>
      StronglySorted (fun a b => QuestionForm.created_at a <= QuestionForm.created_at b)
        shown
  | Questions.completed =>
      shown = filter Questions.isCompleted kept
              ++ filter (fun q => negb (Questions.isCompleted q)) kept
  end.
Proof.
  cbv zeta. rewrite filterQuestions_eq.
  destruct (Questions.sortBy st).
  - apply sort_StronglySorted; unfold JS.sortCompare, Questions.compare;
      cbn [JS.orZero]; intros; lia.
  - apply sort_StronglySorted; unfold JS.sortCompare, Questions.compare;
      cbn [JS.orZero]; intros; lia.
  - apply sort_completed.
Qed.

(** X24. The page opens on the list as it was fetched: with no search
    text, every filter on "all" and the order "Newest First", a list
    that arrives in descending order of created_at (as the query
    orders it) is shown unchanged. *)
Theorem question_list_opens_unchanged
  (toLowerCase : Questions.text -> Questions.text)
  (questions : list QuestionForm.Row) :
  StronglySorted (fun a b => QuestionForm.created_at a >= QuestionForm.created_at b)
    questions ->
  Questions.filterQuestions toLowerCase Questions.initial questions = questions.
Proof.
  intros Hs. rewrite filterQuestions_eq, filter_all by reflexivity.
  apply (sort_sorted_id _ (fun a b => QuestionForm.created_at a
                                      >= QuestionForm.created_at b));
    [|exact Hs].
  intros x y H. unfold JS.sortCompare.
  cbn [Questions.compare Questions.sortBy Questions.initial JS.orZero]. lia.
Qed.

Lemma question_list_opens_unchanged_witness :
  Questions.filterQuestions Questions.asciiLower Questions.initial
    [SampleTable.row 8 20 ToDo; SampleTable.row 7 10 Completed]
  = [SampleTable.row 8 20 ToDo; SampleTable.row 7 10 Completed].
Proof.
  apply question_list_opens_unchanged.
  repeat constructor; vm_compute; discriminate.
Defined.

(* ================================================================== *)
(** * The theorems at sample data *)
(* ================================================================== *)

Lemma dashboard_streak_is_run_to_today_witness :
  In (Days.todayDay Sample.utc (Sample.at_ Sample.utc Sample.monday 10) - 1)
    (Days.solvedDays Sample.utc
       (Days.lastSolved (Sample.daily Sample.utc Sample.monday 3))).
Proof.
  destruct (dashboard_streak_is_run_to_today Sample.utc
              (Sample.at_ Sample.utc Sample.monday 10)
              (Sample.daily Sample.utc Sample.monday 3))
    as (_ & Hrun & _).
  apply (Hrun 1). vm_compute. split; [discriminate|reflexivity].
Defined.

Lemma actions_leave_other_users_rows_witness :
  let t := Store.run [Store.Submit (SampleTable.create SampleTable.bob 7 0 ToDo)] in
  let a := Store.DeleteAccount SampleTable.alice in
  Store.rowsOf SampleTable.bob (Store.act t a) = Store.rowsOf SampleTable.bob t /\
  Store.selectQuestions SampleTable.bob (Store.act t a)
  = Store.selectQuestions SampleTable.bob t /\
  forall id, Store.fetchQuestion SampleTable.bob id (Store.act t a)
             = Store.fetchQuestion SampleTable.bob id t.
Proof.
  apply actions_leave_other_users_rows. vm_compute. discriminate.
Defined.

Lemma created_question_reads_back_witness :
  Store.fetchQuestion SampleTable.alice 7
    (QuestionForm.handleSubmit SampleTable.alice None
       (SampleTable.form ToDo) 7 0 [])
  = Some (SampleTable.form ToDo).
Proof.
  apply created_question_reads_back. simpl. tauto.
Defined.

Lemma edited_question_reads_back_witness :
  Store.fetchQuestion SampleTable.alice 7
    (QuestionForm.handleSubmit SampleTable.alice (Some 7)
       (SampleTable.form Completed) 0 1
       (QuestionForm.handleSubmit SampleTable.alice None
          (SampleTable.form ToDo) 7 0 []))
  = Some (SampleTable.form Completed).
Proof.
  apply (edited_question_reads_back SampleTable.alice 7 (SampleTable.form ToDo)).
  vm_compute. reflexivity.
Defined.

Lemma completing_marks_the_day_witness :
  exists view count,
    ProfileCalendar.fetchStats Sample.utc (Sample.at_ Sample.utc Sample.monday 10)
      (Store.selectQuestions SampleTable.alice
         (Store.run
            ([Store.Submit (SampleTable.create SampleTable.alice 7
                              (Sample.at_ Sample.utc (Sample.monday - 3) 9) ToDo)]
             ++ [Store.Submit (SampleTable.edit SampleTable.alice 7
                                 (Sample.at_ Sample.utc Sample.monday 9)
                                 Completed)])))
    = JS.Ok view /\
    ProfileCalendar.cellCount (ProfileCalendar.activityMap view)
      (Days.midnightOf Sample.utc
         (JS.localDay Sample.utc (Sample.at_ Sample.utc Sample.monday 9)))
    = JS.Ok count /\
    1 <= count.
Proof.
  apply (completing_marks_the_day
           [Store.Submit (SampleTable.create SampleTable.alice 7
                            (Sample.at_ Sample.utc (Sample.monday - 3) 9) ToDo)]
           (SampleTable.edit SampleTable.alice 7
              (Sample.at_ Sample.utc Sample.monday 9) Completed)).
  - reflexivity.
  - simpl. eexists. split; [left; reflexivity|]. split; reflexivity.
  - vm_compute. split; discriminate.
Defined.

Lemma deleted_question_is_gone_witness :
  let t := Store.run
             [Store.Submit (SampleTable.create SampleTable.alice 7 0 ToDo);
              Store.Submit (SampleTable.create SampleTable.alice 8 1 ToDo)] in
  Store.fetchQuestion SampleTable.alice 8 (Store.handleDelete SampleTable.alice 7 t)
  = Store.fetchQuestion SampleTable.alice 8 t.
Proof.
  intros t. apply (deleted_question_is_gone SampleTable.alice 7 t). lia.
Defined.

Lemma profile_streak_equals_dashboard_witness :
  Profile.currentStreak
    (Profile.fetchStats Sample.utc (Sample.at_ Sample.utc Sample.monday 10)
       (Sample.daily Sample.utc Sample.monday 3))
  = Dashboard.streak
      (Dashboard.fetchStats Sample.utc (Sample.at_ Sample.utc Sample.monday 10)
         (Sample.daily Sample.utc Sample.monday 3)).
Proof.
  apply profile_streak_equals_dashboard. simpl.
  repeat constructor; eexists; (split; [reflexivity|vm_compute; discriminate]).
Defined.


Lemma profile_streak_stops_at_later_date_witness :
  Profile.currentStreak
    (Profile.fetchStats Sample.utc (Sample.at_ Sample.utc Sample.monday 10)
       [Sample.solved (Sample.at_ Sample.utc Sample.monday 9);
        Sample.solved (Sample.at_ Sample.utc (Sample.monday + 1) 9)])
  = 0.
Proof.
  apply profile_streak_stops_at_later_date.
  - simpl. repeat constructor; eexists; reflexivity.
  - simpl. apply Exists_cons_tl, Exists_cons_hd. eexists.
    split; [reflexivity|vm_compute; reflexivity].
Defined.

Section GreenCells.
Import JS Days CalendarView.

Variable tz : Z.
Variable now : Z.

Lemma recordsOn_positive (d : Z) (questions : list Question) :
  0 < recordsOn tz d questions ->
  exists q, In q questions /\ activityDay tz q = Some d.
Proof.
  unfold recordsOn. intros H.
  destruct (filter _ questions) as [|q l] eqn:E; [cbn in H; lia|].
  assert (Hq : In q (filter (fun q => match activityDay tz q with
                                      | Some e => e =? d
                                      | None => false
                                      end) questions))
    by (rewrite E; now left).
  apply filter_In in Hq. destruct Hq as [Hq Hd]. exists q. split; [exact Hq|].
  destruct (activityDay tz q) as [e|]; [|discriminate].
  apply Z.eqb_eq in Hd. now subst.
Qed.

(** The days of the grid that have a record are the days of the
    activity map. *)
Lemma shown_windowDays (questions : list Question) (d : Z) :
  In d (filter (fun d => 0 <? shown tz now questions d)
          (map (fun i => startDay tz now + Z.of_nat i)
             (seq 0 ProfileCalendar.totalDays)))
  <-> In d (nodup Z.eq_dec (windowDays tz now questions)).
Proof.
  pose proof (startDay_bounds tz now) as Hb.
  rewrite nodup_In, windowDays_In, filter_In, in_map_iff. unfold shown. split.
  - intros [(i & <- & Hi) Hpos]. apply in_seq in Hi.
    destruct (Z.leb_spec (startDay tz now + Z.of_nat i) (todayDay tz now))
      as [Hle|Hgt]; [|discriminate].
    apply Z.ltb_lt, recordsOn_positive in Hpos.
    destruct Hpos as (q & Hq & Hd). exists q. split; [exact Hq|].
    split; [exact Hd|lia].
  - intros (q & Hq & Hd & Hwin). split.
    + exists (Z.to_nat (d - startDay tz now)). split; [lia|].
      apply in_seq. unfold ProfileCalendar.totalDays. lia.
    + destruct (Z.leb_spec d (todayDay tz now)) as [_|Hgt]; [|lia].
      apply Z.ltb_lt. pose proof (recordsOn_pos tz d q questions Hq Hd). lia.
Qed.

Lemma length_filter_map {A B} (p : B -> bool) (f : A -> B) (l : list A) :
  length (filter p (map f l)) = length (filter (fun a => p (f a)) l).
Proof.
  induction l as [|a l IH]; [reflexivity|].
  cbn [map filter]. destruct (p (f a)); cbn [length]; now rewrite IH.
Qed.

Lemma NoDup_map_add (lo : Z) (l : list nat) :
  NoDup l -> NoDup (map (fun i => lo + Z.of_nat i) l).
Proof.
  induction 1 as [|i l Hnin Hnd IH]; cbn [map]; constructor; [|exact IH].
  intros Hin. apply in_map_iff in Hin. destruct Hin as (j & Hj & Hin).
  assert (j = i) by lia. now subst.
Qed.

Lemma green_cells (questions : list Question) :
  length (filter (fun d => 0 <? shown tz now questions d)
            (map (fun i => startDay tz now + Z.of_nat i)
               (seq 0 ProfileCalendar.totalDays)))
  = length (tally tz now questions).
Proof.
  rewrite length_tally. apply Permutation_length, NoDup_Permutation.
  - apply NoDup_filter, NoDup_map_add, seq_NoDup.
  - apply NoDup_nodup.
  - apply shown_windowDays.
Qed.

End GreenCells.

(** At a fixed offset [tz].  The number in the header of the calendar
    is the number of green cells: for every input the grid colours a cell
    green exactly when its count is positive, and the green cells are
    as many as the activity map has entries. *)
Lemma calendar_green_cells_match_header_at_offset (tz now : Z)
  (questions : list Question) :
  exists view cells,
    ProfileCalendar.fetchStats tz now questions = JS.Ok view /\
    map (CalendarView.cell (ProfileCalendar.activityMap view))
      (ProfileCalendar.yearDays view)
    = map JS.Ok cells /\
    Z.of_nat (length (filter CalendarView.green cells))
    = CalendarView.submissions (ProfileCalendar.activityMap view).
Proof.
  exists {| ProfileCalendar.stats :=
              {| ProfileCalendar.total := Z.of_nat (length questions);
                 ProfileCalendar.completed :=
                   Z.of_nat (length (filter isCompleted questions));
                 ProfileCalendar.completionRate :=
                   ProfileCalendar.rate (Z.of_nat (length questions))
                     (Z.of_nat (length (filter isCompleted questions)));
                 ProfileCalendar.currentStreak :=
                   Spec.currentStreak
                     (Days.activeDays tz (Days.tally tz now questions))
                     (Days.todayDay tz now);
                 ProfileCalendar.longestStreak :=
                   Spec.longestStreak
                     (Days.activeDays tz (Days.tally tz now questions)) |};
            ProfileCalendar.yearDays := ProfileCalendar.days tz now;
            ProfileCalendar.activityMap := Days.tally tz now questions |}.
  exists (map (fun d => if 0 <? CalendarView.shown tz now questions d
                        then CalendarView.bg_success else CalendarView.bg_muted)
            (map (fun i => Days.startDay tz now + Z.of_nat i)
               (seq 0 ProfileCalendar.totalDays))).
  split; [apply fetchStats_eq|].
  cbn [ProfileCalendar.yearDays ProfileCalendar.activityMap]. split.
  - rewrite days_eq, !map_map. apply map_ext. intros i.
    unfold CalendarView.cell. rewrite cellCount_tally. cbn [JS.bind].
    unfold CalendarView.shown.
    replace (Days.startDay tz now <=? Days.startDay tz now + Z.of_nat i)
      with true by (symmetry; apply Z.leb_le; lia).
    reflexivity.
  - rewrite length_filter_map.
    rewrite (filter_ext _ (fun d => 0 <? CalendarView.shown tz now questions d)).
    2:{ intros d. now destruct (0 <? CalendarView.shown tz now questions d). }
    rewrite green_cells. unfold CalendarView.submissions, JS.keys.
    now rewrite length_map.
Qed.

(* ================================================================== *)
(** * The calendar page in any zone *)
(* ================================================================== *)

Section AnyZone.
Import JS.

Variable z : TimeZone.Zone.
Variable now : Z.

Lemma zoned_countQuestion_eq (activity : Dict) (q : Question) :
  ZonedCalendar.countQuestion z now activity q
  = Ok (ZonedCalendar.count z now activity (ProfileCalendar.dateSource q)).
Proof.
  unfold ZonedCalendar.countQuestion, ZonedCalendar.count, ZonedCalendar.keyOf.
  destruct (ProfileCalendar.dateSource q) as [d|]; [|reflexivity]. cbv zeta.
  destruct (TimeZone.setHours0 z d) as [t|]; [|reflexivity].
  destruct (geb (Some t) (ZonedCalendar.startOfRange z now)
            && leb (Some t) (ZonedCalendar.today z now)); reflexivity.
Qed.

Lemma forEach_Ok {A S} (f : S -> A -> result S) (g : S -> A -> S) :
  (forall s x, f s x = Ok (g s x)) ->
  forall xs s, forEach f s xs = Ok (fold_left g xs s).
Proof.
  intros H xs. induction xs as [|x xs IH]; intros s; [reflexivity|].
  cbn [forEach fold_left]. rewrite H. cbn [bind]. apply IH.
Qed.

Lemma zoned_activity_eq (questions : list Question) :
  ZonedCalendar.activity z now questions
  = Ok (fold_left (fun a q => ZonedCalendar.count z now a
                                (ProfileCalendar.dateSource q)) questions []).
Proof. apply forEach_Ok, zoned_countQuestion_eq. Qed.

(** Every record adds one to the count of its key and leaves the
    others. *)
Lemma get_count (activity : Dict) (date : option Date) (key : Z) :
  orZero (get key (ZonedCalendar.count z now activity date))
  = orZero (get key activity)
    + (if ZonedCalendar.countedUnder z now key date then 1 else 0).
Proof.
  unfold ZonedCalendar.count, ZonedCalendar.countedUnder.
  destruct (ZonedCalendar.keyOf z now date) as [k|]; [|lia].
  rewrite get_set, (Z.eqb_sym k key).
  destruct (Z.eqb_spec key k) as [->|]; cbn [orZero]; lia.
Qed.

Lemma get_count_fold (date : Question -> option Date)
  (questions : list Question) (activity : Dict) (key : Z) :
  orZero (get key (fold_left (fun a q => ZonedCalendar.count z now a (date q))
                     questions activity))
  = orZero (get key activity)
    + Z.of_nat (length (filter (fun q => ZonedCalendar.countedUnder z now key
                                           (date q)) questions)).
Proof.
  revert activity. induction questions as [|q qs IH]; intros activity.
  - cbn. lia.
  - cbn [fold_left filter]. rewrite IH, get_count.
    destruct (ZonedCalendar.countedUnder z now key (date q)); cbn [length]; lia.
Qed.

Lemma zoned_fetchStats_activity (questions : list Question) :
  exists view,
    ZonedCalendar.fetchStats z now questions = Ok view /\
    ProfileCalendar.activityMap view
    = fold_left (fun a q => ZonedCalendar.count z now a
                              (ProfileCalendar.dateSource q)) questions [].
Proof.
  unfold ZonedCalendar.fetchStats. cbv zeta.
  rewrite zoned_activity_eq. cbn [bind].
  destruct (ZonedCalendar.streaks z now _) as [c l].
  eexists. split; reflexivity.
Qed.

End AnyZone.

Lemma solvedDates_perm (questions : list Question) :
  Permutation (Profile.solvedDates questions)
    (flat_map (fun q => match last_solved_at q with
                        | Some date => [date]
                        | None => []
                        end) questions).
Proof.
  unfold Profile.solvedDates. etransitivity; [apply sort_perm|].
  induction questions as [|q qs IH]; [reflexivity|].
  cbn [filter flat_map]. destruct (last_solved_at q) as [date|] eqn:E;
    cbn [Profile.truthy map app]; rewrite ?E; cbn [Profile.newDate];
    [apply perm_skip, IH|exact IH].
Qed.

(** C5, as the code has it.  On the Profile page with the calendar each
    record contributes at most one activity date, its [last_solved_at]
    when present, otherwise its [updated_at] when its status is
    Completed, otherwise none: in every zone, once the start of the
    window is aligned to its Sunday (the hypothesis: the loop has come
    to its end, as it does within six steps wherever every local day
    exists), the statistics complete and the count the activity map
    holds under a key is the number of records whose activity date, so
    chosen, is counted under that key (the ISO date of the start of
    its local day, when that start lies between the start of the
    window and today).  On src/pages/Profile.tsx a record contributes
    its [last_solved_at] when present and nothing otherwise. *)
Theorem record_contributes_one_date (z : TimeZone.Zone) (now : Z)
  (questions : list Question) :
  TimeZone.getDay z (ZonedCalendar.startOfRange z now) = Some 0 ->
  (exists view,
     ZonedCalendar.fetchStats z now questions = JS.Ok view /\
     forall key,
       JS.orZero (JS.get key (ProfileCalendar.activityMap view))
       = Z.of_nat (length (filter (fun q => ZonedCalendar.countedUnder z now key
                                              (Spec.activityDate q))
                             questions))) /\
  Permutation (Profile.solvedDates questions)
    (flat_map (fun q => match last_solved_at q with
                        | Some date => [date]
                        | None => []
                        end) questions).
Proof.
  intros _. split; [|apply solvedDates_perm].
  destruct (zoned_fetchStats_activity z now questions) as (view & Hview & Hmap).
  exists view. split; [exact Hview|]. intros key.
  rewrite Hmap, get_count_fold. cbn [JS.get JS.orZero].
  rewrite Z.add_0_l. do 2 f_equal. apply filter_ext. intros q.
  now rewrite dateSource_activityDate.
Qed.

Lemma record_contributes_one_date_witness :
  let now := SampleZones.at_ SampleZones.london (SampleZones.mar30 + 2) 10 in
  let questions := SampleZones.daily SampleZones.london SampleZones.mar30 3 in
  exists view,
    ZonedCalendar.fetchStats SampleZones.london now questions = JS.Ok view /\
    JS.orZero (JS.get (SampleZones.mar30 + 1) (ProfileCalendar.activityMap view))
    = 2.
Proof.
  cbv zeta.
  destruct (record_contributes_one_date SampleZones.london
              (SampleZones.at_ SampleZones.london (SampleZones.mar30 + 2) 10)
              (SampleZones.daily SampleZones.london SampleZones.mar30 3))
    as [(view & Hview & Hcount) _].
  { vm_compute. reflexivity. }
  exists view. split; [exact Hview|]. rewrite Hcount. vm_compute. reflexivity.
Defined.

(** C5, as stated, fails on src/pages/Profile.tsx: in UTC on Monday
    2024-01-15 a Completed question without [last_solved_at], updated
    that morning, has an activity date by the rule of the claim and
    counts on the page with the calendar, but contributes no date to
    the streaks of src/pages/Profile.tsx. *)
Lemma profile_skips_updated_at :
  let now := Sample.at_ Sample.utc Sample.monday 10 in
  let q := Sample.completedAt (Sample.at_ Sample.utc Sample.monday 9) in
  Spec.activityDate q = Some (Some (Sample.at_ Sample.utc Sample.monday 9)) /\
  Profile.solvedDates [q] = [] /\
  Profile.currentStreak (Profile.fetchStats Sample.utc now [q]) = 0 /\
  Profile.longestStreak (Profile.fetchStats Sample.utc now [q]) = 0 /\
  exists view,
    ProfileCalendar.fetchStats Sample.utc now [q] = JS.Ok view /\
    ProfileCalendar.activityMap view = [(Sample.monday, 1)] /\
    ProfileCalendar.currentStreak (ProfileCalendar.stats view) = 1.
Proof.
  cbv zeta. repeat split; try reflexivity.
  eexists. split; [vm_compute; reflexivity|]. split; vm_compute; reflexivity.
Qed.

(** C8 on src/pages/Profile.tsx, for a user whose only question carries
    a [last_solved_at] that does not parse as a date (the value
    infinity of the column's type arrives as a text [new Date] cannot
    read): in every zone and at every clock reading the record stays
    in [uniqueDates] as an Invalid Date and the longest streak is 1,
    where the well-formed records alone (there are none) give 0. *)
Theorem malformed_date_counts_on_profile (z : TimeZone.Zone) (now t : Z) :
  Profile.solvedDates [Sample.malformed t] = [None] /\
  ZonedProfile.uniqueDates z (Profile.solvedDates [Sample.malformed t]) = [None] /\
  Profile.longestStreak (ZonedProfile.fetchStats z now [Sample.malformed t]) = 1 /\
  Profile.longestStreak (ZonedProfile.fetchStats z now []) = 0.
Proof. repeat split. Qed.

(** C4 on src/pages/Profile.tsx in America/New_York on Tuesday
    2024-11-05 at ten, for a user who solved a question at nine on
    Sunday, Monday and Tuesday.  The clocks went back on Sunday, so the
    local midnights of Sunday and Monday are 25 hours apart: the first
    loop counts three days, the second, which compares the unrounded
    quotient with 1, ends the run there.  The page with the calendar,
    which rounds the quotient, keeps the three days in one run. *)
Theorem longest_streak_below_current_in_new_york :
  let now := SampleZones.at_ SampleZones.newYork (SampleZones.nov3 + 2) 10 in
  let questions := SampleZones.daily SampleZones.newYork SampleZones.nov3 3 in
  let stats := ZonedProfile.fetchStats SampleZones.newYork now questions in
  now = 1730818800000 /\
  map last_solved_at questions
  = [Some (Some 1730642400000); Some (Some 1730728800000);
     Some (Some 1730815200000)] /\
  ZonedProfile.uniqueDates SampleZones.newYork (Profile.solvedDates questions)
  = [Some 1730782800000; Some 1730696400000; Some 1730606400000] /\
  Profile.currentStreak stats = 3 /\
  Profile.longestStreak stats = 2 /\
  exists view,
    ZonedCalendar.fetchStats SampleZones.newYork now questions = JS.Ok view /\
    ProfileCalendar.currentStreak (ProfileCalendar.stats view) = 0 /\
    ProfileCalendar.longestStreak (ProfileCalendar.stats view) = 3.
Proof.
  cbv zeta.
  split; [vm_compute; reflexivity|]. split; [vm_compute; reflexivity|].
  split; [vm_compute; reflexivity|]. split; [vm_compute; reflexivity|].
  split; [vm_compute; reflexivity|].
  eexists. split; [vm_compute; reflexivity|]. split; vm_compute; reflexivity.
Qed.

(* ================================================================== *)
(** * The calendar page in a zone that keeps its offset *)
(* ================================================================== *)

(** C2, as the code has it by design.  On the Profile page with the
    calendar, in a zone that keeps one offset from UTC, for every list
    of records and every today, the longest streak is the maximum run
    length found by sorting in descending order the distinct activity
    days of the records that lie in the trailing window and scanning
    adjacent pairs, a pair extending the run exactly when the two days
    differ by one; it is 0 without such days and 1 for a single one. *)
Theorem longest_streak_within_window (z : TimeZone.Zone) (tz now : Z)
  (questions : list Question) :
  TimeZone.constant z tz ->
  exists view,
    ZonedCalendar.fetchStats z now questions = JS.Ok view /\
    ProfileCalendar.longestStreak (ProfileCalendar.stats view)
    = Spec.longestStreak (Days.windowDays tz now questions) /\
    Spec.longestStreak [] = 0 /\
    (forall d, Spec.longestStreak [d] = 1).
Proof.
  intros Hc. rewrite (calendar_fetchStats_constant z tz Hc).
  apply longest_streak_within_window_at_offset.
Qed.

Lemma longest_streak_within_window_witness :
  exists view,
    ZonedCalendar.fetchStats (TimeZone.fixed Sample.kolkata)
      (Sample.at_ Sample.kolkata Sample.monday 10)
      (Sample.daily Sample.kolkata Sample.monday 3)
    = JS.Ok view /\
    ProfileCalendar.longestStreak (ProfileCalendar.stats view) = 3.
Proof.
  destruct (longest_streak_within_window (TimeZone.fixed Sample.kolkata)
              Sample.kolkata (Sample.at_ Sample.kolkata Sample.monday 10)
              (Sample.daily Sample.kolkata Sample.monday 3))
    as (view & Hview & Hlongest & _).
  { intros t. split; reflexivity. }
  exists view. split; [exact Hview|]. rewrite Hlongest. vm_compute. reflexivity.
Defined.

(** C6, as the code has it.  In a zone that keeps one offset from UTC,
    for every input the page emits a grid of 53 * 7 = 371 consecutive
    days that starts on the Sunday on or before the day 364 days ago
    (hence contains today and ends on the Saturday on or after it),
    and the calendar shows one count per day of the grid: the number
    of records whose activity day it is, 0 when the day is inactive or
    after today.  The activity map itself holds an entry, with a count
    of at least 1, only for the days of the window that are active: it
    has as many entries as there are distinct active days in the
    window. *)
Theorem calendar_grid_and_sparse_map (z : TimeZone.Zone) (tz now : Z)
  (questions : list Question) :
  TimeZone.constant z tz ->
  exists view,
    ZonedCalendar.fetchStats z now questions = JS.Ok view /\
    let start := Days.startDay tz now in
    let today := Days.todayDay tz now in
    ZonedCalendar.startOfRange z now = Days.midnightOf tz start /\
    ZonedCalendar.today z now = Days.midnightOf tz today /\
    ProfileCalendar.yearDays view
    = map (fun i => Days.midnightOf tz (start + Z.of_nat i)) (seq 0 371) /\
    TimeZone.getDay z (ZonedCalendar.startOfRange z now) = Some 0 /\
    today - 370 <= start <= today - 364 /\
    map (ProfileCalendar.cellCount (ProfileCalendar.activityMap view))
      (ProfileCalendar.yearDays view)
    = map (fun i =>
             let day := start + Z.of_nat i in
             JS.Ok (if day <=? today
                    then Days.recordsOn tz day questions else 0))
        (seq 0 371) /\
    length (ProfileCalendar.activityMap view)
    = length (nodup Z.eq_dec (Days.windowDays tz now questions)) /\
    Forall (fun entry => 1 <= snd entry) (ProfileCalendar.activityMap view).
Proof.
  intros Hc.
  rewrite (calendar_fetchStats_constant z tz Hc),
    (getDay_constant z tz Hc), (startOfRange_constant z tz Hc),
    (calendar_today_constant z tz Hc).
  apply calendar_grid_and_sparse_map_at_offset.
Qed.

Lemma calendar_grid_and_sparse_map_witness :
  exists view,
    ZonedCalendar.fetchStats (TimeZone.fixed Sample.kolkata)
      (Sample.at_ Sample.kolkata Sample.monday 10)
      (Sample.daily Sample.kolkata Sample.monday 3)
    = JS.Ok view /\
    length (ProfileCalendar.yearDays view) = 371%nat /\
    length (ProfileCalendar.activityMap view) = 3%nat.
Proof.
  destruct (calendar_grid_and_sparse_map (TimeZone.fixed Sample.kolkata)
              Sample.kolkata (Sample.at_ Sample.kolkata Sample.monday 10)
              (Sample.daily Sample.kolkata Sample.monday 3))
    as (view & Hview & _ & _ & Hdays & _ & _ & _ & Hlength & _).
  { intros t. split; reflexivity. }
  exists view. split; [exact Hview|]. split.
  - rewrite Hdays, length_map. apply length_seq.
  - rewrite Hlength. vm_compute. reflexivity.
Defined.

(** X8. In a zone that keeps one offset from UTC the calendar loses no
    record of the window and counts none twice: the counts of the 371
    cells add up to the number of records whose activity day lies in
    the window, and so do the counts stored in the activity map.  The
    number the header calls submissions is the number of entries,
    which is at most that number of records. *)
Theorem calendar_counts_every_window_record (z : TimeZone.Zone) (tz now : Z)
  (questions : list Question) :
  TimeZone.constant z tz ->
  exists view counts,
    ZonedCalendar.fetchStats z now questions = JS.Ok view /\
    let inside := Z.of_nat (length (filter (Days.inWindow tz now) questions)) in
    map (ProfileCalendar.cellCount (ProfileCalendar.activityMap view))
      (ProfileCalendar.yearDays view)
    = map JS.Ok counts /\
    CalendarView.sum counts = inside /\
    CalendarView.sum (map snd (ProfileCalendar.activityMap view)) = inside /\
    CalendarView.submissions (ProfileCalendar.activityMap view) <= inside.
Proof.
  intros Hc. rewrite (calendar_fetchStats_constant z tz Hc).
  apply calendar_counts_every_window_record_at_offset.
Qed.

Lemma calendar_counts_every_window_record_witness :
  exists view counts,
    ZonedCalendar.fetchStats (TimeZone.fixed Sample.kolkata)
      (Sample.at_ Sample.kolkata Sample.monday 10)
      (Sample.daily Sample.kolkata Sample.monday 3)
    = JS.Ok view /\
    map (ProfileCalendar.cellCount (ProfileCalendar.activityMap view))
      (ProfileCalendar.yearDays view)
    = map JS.Ok counts /\
    CalendarView.sum counts = 3.
Proof.
  destruct (calendar_counts_every_window_record (TimeZone.fixed Sample.kolkata)
              Sample.kolkata (Sample.at_ Sample.kolkata Sample.monday 10)
              (Sample.daily Sample.kolkata Sample.monday 3))
    as (view & counts & Hview & Hcells & Hsum & _).
  { intros t. split; reflexivity. }
  exists view, counts. split; [exact Hview|]. split; [exact Hcells|].
  rewrite Hsum. vm_compute. reflexivity.
Defined.

(** X10. On the calendar page, in a zone that keeps one offset from
    UTC, the longest streak is the largest number of consecutive
    calendar days of the window that each have a record: every run of
    such days is at most that long, and one run of that length
    exists. *)
Theorem calendar_longest_streak_is_longest_run (z : TimeZone.Zone)
  (tz now : Z) (questions : list Question) :
  TimeZone.constant z tz ->
  exists view,
    ZonedCalendar.fetchStats z now questions = JS.Ok view /\
    let days := Days.windowDays tz now questions in
    let longest := ProfileCalendar.longestStreak (ProfileCalendar.stats view) in
    (forall d n, 0 <= n -> (forall i, 0 <= i < n -> In (d - i) days) ->
                 n <= longest) /\
    (exists d, forall i, 0 <= i < longest -> In (d - i) days).
Proof.
  intros Hc. rewrite (calendar_fetchStats_constant z tz Hc).
  apply calendar_longest_streak_is_longest_run_at_offset.
Qed.

Lemma calendar_longest_streak_is_longest_run_witness :
  exists view,
    ZonedCalendar.fetchStats (TimeZone.fixed Sample.utc)
      (Sample.at_ Sample.utc Sample.monday 10)
      (Sample.daily Sample.utc (Sample.monday - 1) 3)
    = JS.Ok view /\
    3 <= ProfileCalendar.longestStreak (ProfileCalendar.stats view).
Proof.
  destruct (calendar_longest_streak_is_longest_run (TimeZone.fixed Sample.utc)
              Sample.utc (Sample.at_ Sample.utc Sample.monday 10)
              (Sample.daily Sample.utc (Sample.monday - 1) 3))
    as (view & Hview & Hmax & _).
  { intros t. split; reflexivity. }
  exists view. split; [exact Hview|].
  apply (Hmax (Sample.monday - 1) 3); [lia|].
  intros i Hi.
  assert (Hcases : i = 0 \/ i = 1 \/ i = 2) by lia.
  destruct Hcases as [ -> | [ -> | -> ] ]; vm_compute; tauto.
Defined.

(** X25. In a zone that keeps one offset from UTC the number in the
    header of the calendar is the number of green cells: for every
    input the grid colours a cell green exactly when its count is
    positive, and the green cells are as many as the activity map has
    entries. *)
Theorem calendar_green_cells_match_header (z : TimeZone.Zone) (tz now : Z)
  (questions : list Question) :
  TimeZone.constant z tz ->
  exists view cells,
    ZonedCalendar.fetchStats z now questions = JS.Ok view /\
    map (CalendarView.cell (ProfileCalendar.activityMap view))
      (ProfileCalendar.yearDays view)
    = map JS.Ok cells /\
    Z.of_nat (length (filter CalendarView.green cells))
    = CalendarView.submissions (ProfileCalendar.activityMap view).
Proof.
  intros Hc. rewrite (calendar_fetchStats_constant z tz Hc).
  apply calendar_green_cells_match_header_at_offset.
Qed.

Lemma calendar_green_cells_match_header_witness :
  exists view cells,
    ZonedCalendar.fetchStats (TimeZone.fixed Sample.kolkata)
      (Sample.at_ Sample.kolkata Sample.monday 10)
      (Sample.daily Sample.kolkata Sample.monday 3)
    = JS.Ok view /\
    map (CalendarView.cell (ProfileCalendar.activityMap view))
      (ProfileCalendar.yearDays view)
    = map JS.Ok cells /\
    Z.of_nat (length (filter CalendarView.green cells)) = 3.
Proof.
  destruct (calendar_green_cells_match_header (TimeZone.fixed Sample.kolkata)
              Sample.kolkata (Sample.at_ Sample.kolkata Sample.monday 10)
              (Sample.daily Sample.kolkata Sample.monday 3))
    as (view & cells & Hview & Hcells & Hgreen).
  { intros t. split; reflexivity. }
  exists view, cells. split; [exact Hview|]. split; [exact Hcells|].
  rewrite Hgreen.
  assert (Hsame : JS.Ok view
                  = ProfileCalendar.fetchStats Sample.kolkata
                      (Sample.at_ Sample.kolkata Sample.monday 10)
                      (Sample.daily Sample.kolkata Sample.monday 3)).
  { rewrite <- Hview. apply calendar_fetchStats_constant.
    intros t. split; reflexivity. }
  vm_compute in Hsame. injection Hsame as ->. vm_compute. reflexivity.
Defined.

(** X20. On the Profile page that reads last_solved_at alone, in a zone
    that keeps one offset from UTC, when every last_solved_at is a
    valid date, the longest streak is the largest number of
    consecutive calendar days that each have a solve, over all records
    (this page has no window): no run of such days is longer, and one
    run of that length exists. *)
Theorem profile_longest_streak_is_longest_run (z : TimeZone.Zone)
  (tz now : Z) (questions : list Question) :
  TimeZone.constant z tz ->
  Forall (fun date : JS.Date => exists t, date = Some t)
    (Days.lastSolved questions) ->
  let days := Days.solvedDays tz (Days.lastSolved questions) in
  let longest := Profile.longestStreak (ZonedProfile.fetchStats z now questions) in
  (forall d n, 0 <= n -> (forall i, 0 <= i < n -> In (d - i) days) ->
               n <= longest) /\
  (exists d, forall i, 0 <= i < longest -> In (d - i) days).
Proof.
  intros Hc Hvalid. rewrite (profile_fetchStats_constant z tz Hc).
  now apply profile_longest_streak_is_longest_run_at_offset.
Qed.

Lemma profile_longest_streak_is_longest_run_witness :
  3 <= Profile.longestStreak
         (ZonedProfile.fetchStats (TimeZone.fixed Sample.utc)
            (Sample.at_ Sample.utc Sample.monday 10)
            (Sample.daily Sample.utc Sample.monday 3)).
Proof.
  assert (Hvalid : Forall (fun date : JS.Date => exists t, date = Some t)
                     (Days.lastSolved (Sample.daily Sample.utc Sample.monday 3))).
  { simpl. repeat constructor; eexists; reflexivity. }
  destruct (profile_longest_streak_is_longest_run (TimeZone.fixed Sample.utc)
              Sample.utc (Sample.at_ Sample.utc Sample.monday 10)
              (Sample.daily Sample.utc Sample.monday 3)
              ltac:(intros t; split; reflexivity) Hvalid)
    as (Hmax & _).
  apply (Hmax Sample.monday 3); [lia|].
  intros i Hi.
  assert (Hcases : i = 0 \/ i = 1 \/ i = 2) by lia.
  destruct Hcases as [ -> | [ -> | -> ] ]; vm_compute; tauto.
Defined.

(** Where the clocks change, two local days can share one key.  In
    Europe/London on Monday 2024-04-01 at ten, for a user who solved a
    question at nine on Saturday, Sunday and Monday: the clocks went
    forward on Sunday, the local midnights of Sunday and Monday both
    fall on 2024-03-31 in UTC, so three days in a row give an activity
    map of two entries, a longest streak of 2, cell counts that add up
    to 5 and three green cells under a header of 2. *)
Lemma three_days_in_london :
  let now := SampleZones.at_ SampleZones.london (SampleZones.mar30 + 2) 10 in
  let questions := SampleZones.daily SampleZones.london SampleZones.mar30 3 in
  exists view counts,
    ZonedCalendar.fetchStats SampleZones.london now questions = JS.Ok view /\
    TimeZone.getDay SampleZones.london
      (ZonedCalendar.startOfRange SampleZones.london now) = Some 0 /\
    map (TimeZone.toDateString SampleZones.london)
      (map (fun q => Profile.newDate (last_solved_at q)) questions)
    = [JS.DayString SampleZones.mar30; JS.DayString (SampleZones.mar30 + 1);
       JS.DayString (SampleZones.mar30 + 2)] /\
    ProfileCalendar.activityMap view
    = [(SampleZones.mar30, 1); (SampleZones.mar30 + 1, 2)] /\
    ProfileCalendar.longestStreak (ProfileCalendar.stats view) = 2 /\
    map (ProfileCalendar.cellCount (ProfileCalendar.activityMap view))
      (ProfileCalendar.yearDays view)
    = map JS.Ok counts /\
    CalendarView.sum counts = 5 /\
    length (filter (fun count => 0 <? count) counts) = 3%nat /\
    CalendarView.submissions (ProfileCalendar.activityMap view) = 2.
Proof.
  cbv zeta. eexists. eexists.
  split; [vm_compute; reflexivity|].
  split; [vm_compute; reflexivity|].
  split; [vm_compute; reflexivity|].
  split; [vm_compute; reflexivity|].
  split; [vm_compute; reflexivity|].
  split.
  { instantiate (1 := map (fun i => if (i =? 363)%nat then 1
                                    else if (i =? 364)%nat then 2
                                    else if (i =? 365)%nat then 2 else 0)
                        (seq 0 371)).
    vm_compute. reflexivity. }
  split; [|split]; vm_compute; reflexivity.
Qed.

(** X3. The two pies the Dashboard draws each hold every question once:
    the values of the status pie, from which the statuses without a
    question are filtered out, add up to the total, and so do the
    three values of the difficulty pie, which keeps a slice of 0 for a
    difficulty without a question. *)
Theorem dashboard_pies_add_up (tz now : Z) (data : list Question) :
  let stats := Dashboard.fetchStats tz now data in
  DashboardView.sum (DashboardView.chartData stats) = Dashboard.total stats /\
  DashboardView.sum (DashboardView.difficultyData stats) = Dashboard.total stats /\
  length (DashboardView.difficultyData stats) = 3%nat.
Proof.
  cbv zeta.
  pose proof (count_status data) as Hsum.
  pose proof (count_difficulty data) as Hdiff.
  change (Dashboard.count isCompleted data)
    with (Dashboard.completed (Dashboard.fetchStats tz now data)) in Hsum.
  change (Dashboard.count (fun q => Status_eqb (status q) InProgress) data)
    with (Dashboard.inProgress (Dashboard.fetchStats tz now data)) in Hsum.
  change (Dashboard.count (fun q => Status_eqb (status q) ToDo) data)
    with (Dashboard.todo (Dashboard.fetchStats tz now data)) in Hsum.
  change (Z.of_nat (length data))
    with (Dashboard.total (Dashboard.fetchStats tz now data)) in Hsum.
  split; [|split; [|reflexivity]].
  - set (stats := Dashboard.fetchStats tz now data) in *.
    assert (0 <= Dashboard.completed stats) by apply count_nonneg.
    assert (0 <= Dashboard.inProgress stats) by apply count_nonneg.
    assert (0 <= Dashboard.todo stats) by apply count_nonneg.
    unfold DashboardView.sum, DashboardView.chartData.
    cbn [filter DashboardView.value].
    destruct (0 <? Dashboard.completed stats) eqn:E1,
             (0 <? Dashboard.inProgress stats) eqn:E2,
             (0 <? Dashboard.todo stats) eqn:E3;
      cbn [map fold_right DashboardView.value]; lia.
  - unfold DashboardView.sum, DashboardView.difficultyData.
    cbn [map fold_right DashboardView.value Dashboard.fetchStats
         Dashboard.byDifficulty Dashboard.nEasy Dashboard.nMedium
         Dashboard.nHard Dashboard.total].
    rewrite <- Hdiff. lia.
Qed.
